(** * CreditBeast decision and automation engine

    A shallow embedding of the scoring, targeting, scheduling, retry,
    dunning and churn logic of [apps/api/services/lead_scoring.py],
    [apps/api/services/automation.py] and
    [apps/api/services/churn_prediction.py], with the properties the
    specification states about them.

    Conventions of the embedding.
    - A Python [float] is an exact rational ([Q]); the only transcendental
      function of the code, [math.exp], is the real exponential, so the
      churn probability lives in [R]. What depends on the last bit of a
      float, such as the side a tie of [round] falls on, is not stated.
    - A [dict] read with [.get(key, default)] is a [gmap] or a record whose
      optional keys are [option] fields, the default written at the read.
      Where the code calls a method on the value it read, or orders it, the
      value [None] is told apart from the absent key, and the call that
      raises on it returns [raised].
    - A text is a string of bytes; the [str] methods are those of ASCII
      text.
    - A [datetime] is a number of seconds; [datetime.utcnow()] is an
      argument of the function that reads the clock.
    - Database tables are the rows a query returns; an [await] is a call. *)

From Stdlib Require Import QArith Qround Qpower Qreals Reals Psatz Lia ZArith.
From Stdlib Require Import String Ascii List Sorted DecimalString.
From stdpp Require Import gmap strings list fin_maps.

Local Open Scope Q_scope.
Local Open Scope string_scope.

(** ** Exceptions *)

Module Exc.

(** What a call does: it returns a value, or it raises. Which exception
    is raised is not recorded. *)
Inductive Outcome (A : Type) :=
  | returned (a : A)
  | raised.
Arguments returned {A} a.
Arguments raised {A}.

Definition bind {A B : Type} (m : Outcome A) (k : A -> Outcome B) : Outcome B :=
  match m with
  | returned a => k a
  | raised => raised
  end.

(** [[x for x in l if test(x)]] where the test may raise: the elements are
    tested in order, and the first test that raises ends the call. *)
Fixpoint select {A : Type} (test : A -> Outcome bool) (l : list A)
    : Outcome (list A) :=
  match l with
  | [] => returned []
  | x :: rest =>
      bind (test x) (fun keep =>
      bind (select test rest) (fun rest' =>
      returned (if keep then x :: rest' else rest')))
  end.

End Exc.

(** ** Python numbers *)

Module Py.

Definition ltb (a b : Q) : bool := negb (Qle_bool b a).
Definition leb (a b : Q) : bool := Qle_bool a b.
Definition eqb (a b : Q) : bool := Qeq_bool a b.

(** [max(a, b)] and [min(a, b)] return the first argument unless the second
    is strictly better. *)
Definition max (a b : Q) : Q := if ltb a b then b else a.
Definition min (a b : Q) : Q := if ltb b a then b else a.

Definition of_nat (n : nat) : Q := inject_Z (Z.of_nat n).

(** [round(x)] to an integer, ties to even. *)
Definition round_half_even (x : Q) : Z :=
  let f := Qfloor x in
  let d := x - inject_Z f in
  if ltb d (1 # 2) then f
  else if ltb (1 # 2) d then (f + 1)%Z
  else if Z.even f then f else (f + 1)%Z.

(** [round(x, 2)]. *)
Definition round2 (x : Q) : Q := inject_Z (round_half_even (x * 100)) / 100.

(** *** str methods, on ASCII

    [lower], [upper] and [strip] move and remove ASCII characters only;
    on other text [str.lower] and [str.upper] also move letters these
    functions leave alone. Properties that compare a text with its lowered
    or raised form are stated for ASCII text. *)

Definition is_upper (c : ascii) : bool :=
  let n := nat_of_ascii c in (65 <=? n)%nat && (n <=? 90)%nat.
Definition is_lower (c : ascii) : bool :=
  let n := nat_of_ascii c in (97 <=? n)%nat && (n <=? 122)%nat.
Definition is_digit (c : ascii) : bool :=
  let n := nat_of_ascii c in (48 <=? n)%nat && (n <=? 57)%nat.
Definition is_space (c : ascii) : bool :=
  let n := nat_of_ascii c in
  ((9 <=? n)%nat && (n <=? 13)%nat) || ((28 <=? n)%nat && (n <=? 32)%nat).

Definition lower_ascii (c : ascii) : ascii :=
  if is_upper c then ascii_of_nat (nat_of_ascii c + 32) else c.
Definition upper_ascii (c : ascii) : ascii :=
  if is_lower c then ascii_of_nat (nat_of_ascii c - 32) else c.

Fixpoint map_string (f : ascii -> ascii) (s : string) : string :=
  match s with
  | EmptyString => EmptyString
  | String c r => String (f c) (map_string f r)
  end.

Definition lower : string -> string := map_string lower_ascii.
Definition upper : string -> string := map_string upper_ascii.

Fixpoint lstrip (s : string) : string :=
  match s with
  | EmptyString => EmptyString
  | String c r => if is_space c then lstrip r else s
  end.

Fixpoint rstrip (s : string) : string :=
  match s with
  | EmptyString => EmptyString
  | String c r =>
      match rstrip r with
      | EmptyString => if is_space c then EmptyString else String c EmptyString
      | r' => String c r'
      end
  end.

Definition strip (s : string) : string := rstrip (lstrip s).

(** [bool(s)]: a string is true when it is not empty. *)
Definition truthy (s : string) : bool :=
  match s with EmptyString => false | _ => true end.

(** [needle in hay] on strings. *)
Fixpoint contains (needle hay : string) : bool :=
  String.prefix needle hay ||
  match hay with
  | EmptyString => false
  | String _ r => contains needle r
  end.

(** [s.split(sep)] for a one-character separator. *)
Fixpoint split (sep : ascii) (s : string) : list string :=
  match s with
  | EmptyString => [EmptyString]
  | String c r =>
      if Ascii.eqb c sep then EmptyString :: split sep r
      else match split sep r with
           | h :: t => String c h :: t
           | [] => [String c EmptyString]
           end
  end.

(** [re.sub(r'\D', '', s)]. *)
Fixpoint digits_only (s : string) : string :=
  match s with
  | EmptyString => EmptyString
  | String c r => if is_digit c then String c (digits_only r) else digits_only r
  end.

(** [x in l] on a list of strings. *)
Definition mem (x : string) (l : list string) : bool := bool_decide (x ∈ l).

(** [str(n)] for an integer. *)
Definition str_of_int (n : Z) : string := NilZero.string_of_int (Z.to_int n).

(** [d.get(k, dflt)] on the entry of [k]: no entry when the key is absent,
    the entry [None] when the key is present with the value [None]. The
    default stands in for an absent key only. *)
Definition get {A : Type} (entry : option (option A)) (dflt : A) : option A :=
  default (Some dflt) entry.

(** [v.f()] for a method [f] of the class of the values: on [None] the
    attribute is missing and the call raises [AttributeError]. *)
Definition method {A B : Type} (f : A -> B) (v : option A) : Exc.Outcome B :=
  match v with
  | Some a => Exc.returned (f a)
  | None => Exc.raised
  end.

(** Every character of the text is an ASCII character. *)
Definition is_ascii (s : string) : bool :=
  forallb (fun c => (nat_of_ascii c <? 128)%nat) (list_ascii_of_string s).

(** [sum(l)] on numbers. *)
Definition sum (l : list Q) : Q := fold_right Qplus 0 l.

End Py.

(** ** Lead scoring ([lead_scoring.py]) *)

Module LeadScoring.
Import Exc.

(** A lead fact sheet: the keys read as text and the nested
    [custom_fields] dict (empty when the key is absent). A key is absent,
    or present with [None] (what the request model gives for a field left
    unset) or with a string. In [custom_fields], whose values are any JSON
    value, [None] also stands for a value that is not a string: the one
    read there is [.lower()], which raises on all of them. *)
Record Lead := {
  lead_fields : gmap string (option string);
  lead_custom_fields : gmap string (option string)
}.

Record Criteria := {
  criteria_type : string;
  weight : Q;
  positive_values : option (list string);
  negative_values : option (list string);
  threshold_score : option Q
}.

Record Profile := {
  criteria : option (list Criteria);
  auto_qualify_threshold : option Q;
  require_review_threshold : option Q;
  disqualify_threshold : option Q
}.

(** The dict [_score_criteria] returns. *)
Record CriteriaScore := {
  cs_score : Q;
  cs_raw_score : Q;
  cs_weight : Q;
  cs_reasoning : list string
}.

(** The dict [_calculate_lead_score] returns. *)
Record ScoreResult := {
  total_score : Q;
  raw_score : Q;
  max_possible_score : Q;
  criteria_scores : gmap string CriteriaScore;
  confidence : Q;
  reasoning : list string
}.

Inductive QualificationStatus :=
  | auto_qualified
  | review_required
  | auto_disqualified
  | manual_review.

Definition _score_email_domain (lead_data : Lead)
    (positive_domains negative_domains : list string)
    : Outcome (Q * list string) :=
  bind (Py.method Py.lower (Py.get (lead_fields lead_data !! "email") ""))
    (fun email =>
  returned
    (if negb (Py.truthy email) then (0.0, ["No email provided"])
     else
       let domain :=
         if Py.contains "@" email then nth 1 (Py.split "@" email) "" else "" in
       if negb (Py.truthy domain) then (0.0, ["Invalid email format"])
       else if Py.mem domain positive_domains then
         (1.0, ["Email domain " ++ domain ++ " is in positive list"])
       else if Py.mem domain negative_domains then
         (0.0, ["Email domain " ++ domain ++ " is in negative list"])
       else (0.5, ["Email domain " ++ domain ++ " is not in known lists"]))).

(** The phone is tested with [not phone] before any method is called on
    it, and [None] is false. *)
Definition _score_phone_format (lead_data : Lead) : Outcome (Q * list string) :=
  match Py.get (lead_fields lead_data !! "phone") "" with
  | None => returned (0.0, ["No phone number provided"])
  | Some phone =>
      returned
        (if negb (Py.truthy phone) then (0.0, ["No phone number provided"])
         else
           let digits_only := Py.digits_only phone in
           let n := String.length digits_only in
           if (n =? 10)%nat then (1.0, ["Valid 10-digit phone number"])
           else if (n =? 11)%nat && String.prefix "1" digits_only then
             (0.9, ["Valid 11-digit phone number with country code"])
           else if (10 <=? n)%nat then
             (0.7, ["Phone number format needs verification"])
           else (0.0, ["Invalid phone number format"]))
  end.

Definition address_fields : list string :=
  ["street_address"; "city"; "state"; "zip_code"].

(** The loop that counts the [fields] whose stripped value is not empty;
    [.strip()] is called on every value in turn. *)
Fixpoint count_provided (lead_data : Lead) (fields : list string)
    : Outcome nat :=
  match fields with
  | [] => returned 0%nat
  | field :: rest =>
      bind (Py.method Py.strip (Py.get (lead_fields lead_data !! field) ""))
        (fun value =>
      bind (count_provided lead_data rest) (fun provided_fields =>
      returned (if Py.truthy value then S provided_fields else provided_fields)))
  end.

Definition _score_address_validity (lead_data : Lead)
    : Outcome (Q * list string) :=
  bind (count_provided lead_data address_fields) (fun provided_fields =>
  let completeness :=
    Py.of_nat provided_fields / Py.of_nat (length address_fields) in
  let score := completeness in
  returned
    (if Py.eqb completeness 1.0 then (score, ["Complete address provided"])
     else if Py.leb 0.75 completeness then
       (score, ["Nearly complete address provided"])
     else if Py.leb 0.5 completeness then (score, ["Partial address provided"])
     else (score, ["Incomplete address provided"]))).

Definition _score_utm_source (lead_data : Lead)
    (positive_sources negative_sources : list string)
    : Outcome (Q * list string) :=
  bind (Py.method Py.lower (Py.get (lead_fields lead_data !! "utm_source") ""))
    (fun utm_source =>
  returned
    (if negb (Py.truthy utm_source) then (0.0, ["No UTM source provided"])
     else if Py.mem utm_source positive_sources then
       (1.0, ["UTM source " ++ utm_source ++ " is high quality"])
     else if Py.mem utm_source negative_sources then
       (0.0, ["UTM source " ++ utm_source ++ " is low quality"])
     else (0.5, ["UTM source " ++ utm_source ++ " is moderate quality"]))).

Definition _score_lead_source (lead_data : Lead)
    (positive_sources negative_sources : list string)
    : Outcome (Q * list string) :=
  bind (Py.method Py.lower (Py.get (lead_fields lead_data !! "lead_source") ""))
    (fun lead_source =>
  returned
    (if negb (Py.truthy lead_source) then (0.0, ["No lead source specified"])
     else if Py.mem lead_source positive_sources then
       (1.0, ["Lead source " ++ lead_source ++ " is high quality"])
     else if Py.mem lead_source negative_sources then
       (0.0, ["Lead source " ++ lead_source ++ " is low quality"])
     else (0.5, ["Lead source " ++ lead_source ++ " is moderate quality"]))).

Definition _score_name_completeness (lead_data : Lead)
    : Outcome (Q * list string) :=
  bind (Py.method Py.strip (Py.get (lead_fields lead_data !! "first_name") ""))
    (fun first_name =>
  bind (Py.method Py.strip (Py.get (lead_fields lead_data !! "last_name") ""))
    (fun last_name =>
  returned
    (if Py.truthy first_name && Py.truthy last_name then
       (1.0, ["Complete name provided"])
     else if Py.truthy first_name || Py.truthy last_name then
       (0.5, ["Partial name provided"])
     else (0.0, ["No name provided"])))).

Definition urgency_indicators : list string :=
  ["urgent"; "asap"; "immediately"; "soon"].

Definition _score_credit_concern_level (lead_data : Lead)
    : Outcome (Q * list string) :=
  let custom_fields := lead_custom_fields lead_data in
  bind (Py.method Py.lower (Py.get (custom_fields !! "concern_level") ""))
    (fun concern_level =>
  returned
    (if existsb (fun indicator => Py.contains indicator concern_level)
          urgency_indicators then
       (0.8, ["High concern level indicated"])
     else if Py.mem concern_level ["low"; "minor"; "curious"] then
       (0.3, ["Low concern level indicated"])
     else (0.5, []))).

Definition high_demand_states : list string :=
  ["CA"; "TX"; "FL"; "NY"; "PA"; "IL"; "OH"; "GA"; "NC"; "MI"].

Definition _score_demographic_fit (lead_data : Lead)
    : Outcome (Q * list string) :=
  bind (Py.method Py.upper (Py.get (lead_fields lead_data !! "state") ""))
    (fun state =>
  returned
    (if Py.mem state high_demand_states then
       (0.8, ["State " ++ state ++ " has high credit repair demand"])
     else if Py.truthy state then
       (0.6, ["State " ++ state ++ " has moderate credit repair demand"])
     else (0.5, ["No state information provided"]))).

Definition known_criteria_types : list string :=
  ["email_domain"; "phone_format"; "address_validity"; "utm_source";
   "lead_source"; "name_completeness"; "credit_concern_level";
   "demographic_fit"].

(** The [if/elif] chain of [_score_criteria], before the weight is applied. *)
Definition dispatch (lead_data : Lead) (c : Criteria)
    : Outcome (Q * list string) :=
  let ty := criteria_type c in
  let positive_values := default [] (positive_values c) in
  let negative_values := default [] (negative_values c) in
  let threshold_score := default 0 (threshold_score c) in
  if String.eqb ty "email_domain" then
    _score_email_domain lead_data positive_values negative_values
  else if String.eqb ty "phone_format" then _score_phone_format lead_data
  else if String.eqb ty "address_validity" then _score_address_validity lead_data
  else if String.eqb ty "utm_source" then
    _score_utm_source lead_data positive_values negative_values
  else if String.eqb ty "lead_source" then
    _score_lead_source lead_data positive_values negative_values
  else if String.eqb ty "name_completeness" then _score_name_completeness lead_data
  else if String.eqb ty "credit_concern_level" then
    _score_credit_concern_level lead_data
  else if String.eqb ty "demographic_fit" then _score_demographic_fit lead_data
  else
    returned
      (threshold_score,
       ["Unknown criteria type: " ++ ty ++ ", using threshold score"]).

Definition _score_criteria (lead_data : Lead) (c : Criteria)
    : Outcome CriteriaScore :=
  bind (dispatch lead_data c) (fun '(score, reasoning) =>
  let weighted_score := score * weight c in
  returned
    {| cs_score := weighted_score;
       cs_raw_score := score;
       cs_weight := weight c;
       cs_reasoning := reasoning |}).

Definition important_fields : list string :=
  ["email"; "phone"; "first_name"; "last_name"; "street_address"; "city";
   "state"; "zip_code"; "utm_source"; "lead_source"].

Definition _calculate_confidence (lead_data : Lead)
    (criteria_scores : gmap string CriteriaScore) : Outcome Q :=
  let max_fields := 10 in
  bind (count_provided lead_data important_fields) (fun provided =>
  let data_completeness := Py.of_nat provided in
  let completeness_ratio := data_completeness / max_fields in
  let criteria_count :=
    length (filter (fun kv => Py.ltb 0 (cs_raw_score kv.2) = true)
                   (map_to_list criteria_scores)) in
  let criteria_ratio :=
    Py.of_nat criteria_count / Py.of_nat (Nat.max (size criteria_scores) 1) in
  let confidence := (completeness_ratio + criteria_ratio) / 2 in
  returned (Py.max 0.1 (Py.min 1.0 confidence))).

(** The accumulators of the loop of [_calculate_lead_score]. *)
Record Acc := {
  acc_scores : gmap string CriteriaScore;
  acc_total : Q;
  acc_max : Q;
  acc_reasoning : list string
}.

Definition acc0 : Acc :=
  {| acc_scores := ∅; acc_total := 0.0; acc_max := 0.0; acc_reasoning := [] |}.

Definition loop_body (lead_data : Lead) (a : Acc) (c : Criteria) : Outcome Acc :=
  bind (_score_criteria lead_data c) (fun score_result =>
  returned
    {| acc_scores := <[criteria_type c := score_result]> (acc_scores a);
       acc_total := acc_total a + cs_score score_result;
       acc_max := acc_max a + weight c;
       acc_reasoning := acc_reasoning a ++ cs_reasoning score_result |}).

(** [for criteria in criteria_list]: a scorer that raises ends the loop. *)
Fixpoint loop (lead_data : Lead) (criteria_list : list Criteria) (a : Acc)
    : Outcome Acc :=
  match criteria_list with
  | [] => returned a
  | c :: rest => bind (loop_body lead_data a c) (loop lead_data rest)
  end.

Definition _calculate_lead_score (lead_data : Lead) (profile : Profile)
    : Outcome ScoreResult :=
  let criteria_list := default [] (criteria profile) in
  bind (loop lead_data criteria_list acc0) (fun a =>
  let normalized_score :=
    if Py.ltb 0 (acc_max a) then (acc_total a / acc_max a) * 10 else 0 in
  bind (_calculate_confidence lead_data (acc_scores a)) (fun confidence =>
  returned
    {| total_score := Py.round2 normalized_score;
       raw_score := acc_total a;
       max_possible_score := acc_max a;
       criteria_scores := acc_scores a;
       confidence := confidence;
       reasoning := acc_reasoning a |})).

Definition _determine_qualification_status (score_result : ScoreResult)
    (profile : Profile) : QualificationStatus :=
  let score := total_score score_result in
  let confidence := confidence score_result in
  let auto_qualify_threshold := default 7.0 (auto_qualify_threshold profile) in
  let require_review_threshold := default 5.0 (require_review_threshold profile) in
  let disqualify_threshold := default 3.0 (disqualify_threshold profile) in
  let low := Py.ltb confidence 0.5 in
  let auto_qualify_threshold :=
    if low then auto_qualify_threshold - 1.0 else auto_qualify_threshold in
  let require_review_threshold :=
    if low then require_review_threshold - 0.5 else require_review_threshold in
  if Py.leb auto_qualify_threshold score then auto_qualified
  else if Py.leb require_review_threshold score then review_required
  else if Py.leb score disqualify_threshold then auto_disqualified
  else manual_review.

(** A criterion with a weight the schema accepts ([weight >= 0]) and, when
    its type is not one the service knows, a fallback score that is itself
    a score. *)
Definition well_formed (c : Criteria) : Prop :=
  0 <= weight c /\
  (criteria_type c ∉ known_criteria_types ->
   0 <= default 0 (threshold_score c) <= 1).

(** The key is absent from the dict, or present with the empty string. *)
Definition absent (d : gmap string (option string)) (k : string) : Prop :=
  Py.get (d !! k) "" = Some "".

(** The key, when present, holds a string. *)
Definition text (d : gmap string (option string)) (k : string) : Prop :=
  d !! k <> Some None.

(** The field holds a string that is not blank. *)
Definition provided (lead_data : Lead) (field : string) : bool :=
  match lead_fields lead_data !! field with
  | Some (Some value) => Py.truthy (Py.strip value)
  | _ => false
  end.

(** The fact a criterion of type [ty] examines is missing from the lead:
    absent or the empty string, and for the phone number also [None]. *)
Definition fact_missing (lead_data : Lead) (ty : string) : Prop :=
  if String.eqb ty "email_domain" then absent (lead_fields lead_data) "email"
  else if String.eqb ty "phone_format" then
    absent (lead_fields lead_data) "phone"
    \/ lead_fields lead_data !! "phone" = Some None
  else if String.eqb ty "address_validity" then
    Forall (absent (lead_fields lead_data)) address_fields
  else if String.eqb ty "utm_source" then
    absent (lead_fields lead_data) "utm_source"
  else if String.eqb ty "lead_source" then
    absent (lead_fields lead_data) "lead_source"
  else if String.eqb ty "name_completeness" then
    absent (lead_fields lead_data) "first_name"
    /\ absent (lead_fields lead_data) "last_name"
  else if String.eqb ty "credit_concern_level" then
    absent (lead_custom_fields lead_data) "concern_level"
  else if String.eqb ty "demographic_fit" then
    absent (lead_fields lead_data) "state"
  else False.

(** *** Sample data *)

Definition criterion (ty : string) (w : Q) : Criteria :=
  {| criteria_type := ty; weight := w; positive_values := None;
     negative_values := None; threshold_score := None |}.

Definition empty_lead : Lead :=
  {| lead_fields := ∅; lead_custom_fields := ∅ |}.

(** The lead of the example of the specification. *)
Definition gmail_lead : Lead :=
  {| lead_fields :=
       <["email" := Some "a@gmail.com"]> (<["phone" := Some "555-123-4567"]> ∅);
     lead_custom_fields := ∅ |}.


(** The request of a visitor who gave an email address only: the request
    model fills every other field with [None]. *)
Definition email_only_request : Lead :=
  {| lead_fields :=
       list_to_map
         [("first_name", None); ("last_name", None);
          ("email", Some "a@gmail.com"); ("phone", None);
          ("street_address", None); ("city", None); ("state", None);
          ("zip_code", None); ("lead_source", None); ("utm_campaign", None);
          ("utm_source", None); ("utm_medium", None)];
     lead_custom_fields := ∅ |}.

Definition profile_of (cs : list Criteria) : Profile :=
  {| criteria := Some cs; auto_qualify_threshold := None;
     require_review_threshold := None; disqualify_threshold := None |}.

(** The criteria of [_create_default_profile]. *)
Definition default_criteria : list Criteria :=
  [ {| criteria_type := "email_domain"; weight := 2.0;
       positive_values :=
         Some ["gmail.com"; "yahoo.com"; "outlook.com"; "hotmail.com"];
       negative_values :=
         Some ["tempmail.com"; "10minutemail.com"; "guerrillamail.com"];
       threshold_score := Some 1.0 |};
    {| criteria_type := "phone_format"; weight := 1.5;
       positive_values := Some ["valid"];
       negative_values := Some ["invalid"; "placeholder"];
       threshold_score := Some 1.0 |};
    {| criteria_type := "address_validity"; weight := 1.0;
       positive_values := Some ["complete"];
       negative_values := Some ["incomplete"; "invalid"];
       threshold_score := Some 0.5 |};
    {| criteria_type := "utm_source"; weight := 1.0;
       positive_values := Some ["google"; "facebook"; "referral"; "partner"];
       negative_values := Some ["spam"; "bot"];
       threshold_score := Some 0.5 |} ].

Definition default_profile : Profile :=
  {| criteria := Some default_criteria;
     auto_qualify_threshold := Some 7.0;
     require_review_threshold := Some 5.0;
     disqualify_threshold := Some 3.0 |}.

(** A criterion of a type the service does not know, with a fallback
    score of 2. *)
Definition unknown_criterion : Criteria :=
  {| criteria_type := "company_size"; weight := 1.0; positive_values := None;
     negative_values := None; threshold_score := Some 2.0 |}.

(** A score result with the given score and confidence. *)
Definition result_of (score conf : Q) : ScoreResult :=
  {| total_score := score; raw_score := 0; max_possible_score := 0;
     criteria_scores := ∅; confidence := conf; reasoning := [] |}.

(** *** Orders and variations used by the properties *)

(** The qualification tiers, lowest first. *)
Definition status_rank (st : QualificationStatus) : nat :=
  match st with
  | auto_disqualified => 0
  | manual_review => 1
  | review_required => 2
  | auto_qualified => 3
  end.

(** The lead with its [email] key set to the text [e]. *)
Definition with_email (lead_data : Lead) (e : string) : Lead :=
  {| lead_fields := <["email" := Some e]> (lead_fields lead_data);
     lead_custom_fields := lead_custom_fields lead_data |}.

(** The score a criterion got, if its scorer returned one. *)
Definition scored (lead_data : Lead) (c : Criteria) : option CriteriaScore :=
  match _score_criteria lead_data c with
  | returned score_result => Some score_result
  | raised => None
  end.

End LeadScoring.

(** ** Churn prediction ([churn_prediction.py]) *)

Module Churn.

Record RiskFactor := {
  factor_name : string;
  description : string;
  weight : option Q;
  current_value : string;
  risk_level : string;
  impact_score : option Q
}.

Inductive RiskLevel := low | medium | high | critical.

(** The loop of [_calculate_churn_probability]: the pair
    [(total_weighted_risk, total_weight)]. *)
Definition weighted_sums (risk_factors : list RiskFactor) : Q * Q :=
  fold_left
    (fun (acc : Q * Q) factor =>
       let weight := default 1.0 (weight factor) in
       let impact_score := default 0.5 (impact_score factor) in
       let risk_contribution := impact_score * weight in
       (fst acc + risk_contribution, snd acc + weight))
    risk_factors (0.0, 0.0).

Definition total_weighted_risk (risk_factors : list RiskFactor) : Q :=
  fst (weighted_sums risk_factors).
Definition total_weight (risk_factors : list RiskFactor) : Q :=
  snd (weighted_sums risk_factors).

Definition normalized_risk (risk_factors : list RiskFactor) : Q :=
  total_weighted_risk risk_factors / total_weight risk_factors.

(** [1 / (1 + math.exp(-6 * (x - 0.5)))]. *)
Definition sigmoid (x : R) : R := (1 / (1 + exp (-6 * (x - 0.5))))%R.

(** The [client] and [client_history] arguments are not read. *)
Definition _calculate_churn_probability (risk_factors : list RiskFactor) : R :=
  match risk_factors with
  | [] => 0.5%R
  | _ =>
      if Py.eqb (total_weight risk_factors) 0 then 0.5%R
      else
        let probability := sigmoid (Q2R (normalized_risk risk_factors)) in
        Rmax 0.0 (Rmin 1.0 probability)
  end.

Definition _determine_risk_level (churn_probability : Q) : RiskLevel :=
  if Py.leb 0.7 churn_probability then critical
  else if Py.leb 0.5 churn_probability then high
  else if Py.leb 0.3 churn_probability then medium
  else low.

(** The order of the tiers, lowest first. *)
Definition rank (l : RiskLevel) : nat :=
  match l with low => 0 | medium => 1 | high => 2 | critical => 3 end.

(** *** Sample data *)

Definition factor (n : string) (w i : Q) : RiskFactor :=
  {| factor_name := n; description := ""; weight := Some w;
     current_value := ""; risk_level := "medium"; impact_score := Some i |}.

(** A client with good engagement and payments. *)
Definition calm_factors : list RiskFactor :=
  [factor "communication_engagement" 2.0 0.2; factor "payment_behavior" 2.5 0.2].

(** A client with no recent engagement and recent payment failures. *)
Definition alarming_factors : list RiskFactor :=
  [factor "communication_engagement" 2.0 0.9; factor "payment_behavior" 2.5 0.9].

End Churn.

(** ** Bureau targeting ([automation.py], [BureauTargetingService]) *)

Module BureauTargeting.

Record RuleCriteria := {
  dispute_types : option (list string);
  account_keywords : option (list string);
  max_avg_disputes : option Q
}.

Definition no_criteria : RuleCriteria :=
  {| dispute_types := None; account_keywords := None; max_avg_disputes := None |}.

Record Rule := {
  name : option string;
  rule_type : option string;
  criteria : option RuleCriteria;
  recommended_bureaus : option (list string);
  confidence_score : option Q;
  success_history : option Q;
  total_applications : option Q
}.

Record Dispute := {
  dispute_type : option string;
  account_name : option string
}.

(** A non-empty client-history dict; [None] is both [None] and [{}]. *)
Record ClientHistory := {
  avg_disputes_per_month : option Q
}.

Record Recommendation := {
  bureaus : list string;
  confidence : Q;
  rule_name : string;
  alternatives : list string;
  reasoning : list string
}.

Definition _calculate_rule_relevance (rule : Rule) (dispute_data : Dispute)
    (client_history : option ClientHistory) : Q :=
  let relevance := 0.0 in
  let rule_type := default "" (rule_type rule) in
  let criteria := default no_criteria (criteria rule) in
  let relevance :=
    if String.eqb rule_type "dispute_type_based" then
      match dispute_type dispute_data with
      | Some ty =>
          if Py.mem ty (default [] (dispute_types criteria))
          then relevance + 0.8 else relevance
      | None => relevance
      end
    else if String.eqb rule_type "account_based" then
      let account_name := Py.lower (default "" (account_name dispute_data)) in
      if existsb (fun keyword => Py.contains (Py.lower keyword) account_name)
           (default [] (account_keywords criteria))
      then relevance + 0.6 else relevance
    else if String.eqb rule_type "client_history_based" then
      match client_history with
      | Some h =>
          let avg_disputes := default 0 (avg_disputes_per_month h) in
          if Py.ltb avg_disputes (default 10 (max_avg_disputes criteria))
          then relevance + 0.4 else relevance
      | None => relevance
      end
    else relevance in
  let success_rate :=
    default 0 (success_history rule)
    / Py.max (default 1 (total_applications rule)) 1 in
  let relevance := relevance + success_rate * 0.3 in
  Py.min relevance 1.0.

Definition all_bureaus : list string := ["equifax"; "experian"; "transunion"].

Definition _get_alternative_bureaus (recommended_bureaus : list string)
    : list string :=
  if Py.mem "all" recommended_bureaus then all_bureaus
  else filter (fun b => b ∉ recommended_bureaus) all_bureaus.

(** One turn of the loop over the rules: a rule replaces the best one so
    far when its relevance is strictly greater. *)
Definition keep_best (dispute_data : Dispute)
    (client_history : option ClientHistory) (best : option Rule * Q)
    (rule : Rule) : option Rule * Q :=
  let score := _calculate_rule_relevance rule dispute_data client_history in
  if Py.ltb (snd best) score then (Some rule, score) else best.

(** The loop, from [best_rule = None] and [best_score = 0]. *)
Definition best_of (dispute_data : Dispute) (client_history : option ClientHistory)
    (rules : list Rule) : option Rule * Q :=
  fold_left (keep_best dispute_data client_history) rules (None, 0).

Definition _apply_targeting_rules (dispute_data : Dispute) (rules : list Rule)
    (client_history : option ClientHistory) : Recommendation :=
  match rules with
  | [] =>
      {| bureaus := ["all"];
         confidence := 0.6;
         rule_name := "default_all_bureaus";
         alternatives := ["equifax"; "experian"; "transunion"];
         reasoning := ["Default recommendation - target all bureaus"] |}
  | _ =>
      match best_of dispute_data client_history rules with
      | (Some best_rule, best_score) =>
          if Py.ltb best_score 0.3 then
            {| bureaus := ["all"];
               confidence := 0.5;
               rule_name := "fallback_default";
               alternatives := ["equifax"; "experian"; "transunion"];
               reasoning := ["No specific rule matched, using safe default"] |}
          else
            let rule_bureaus := default ["all"] (recommended_bureaus best_rule) in
            {| bureaus := rule_bureaus;
               confidence := default 0.5 (confidence_score best_rule);
               rule_name := default "unknown" (name best_rule);
               alternatives := _get_alternative_bureaus rule_bureaus;
               reasoning :=
                 ["Applied rule: " ++ default "unknown" (name best_rule)] |}
      | (None, _) =>
          {| bureaus := ["all"];
             confidence := 0.5;
             rule_name := "fallback_default";
             alternatives := ["equifax"; "experian"; "transunion"];
             reasoning := ["No specific rule matched, using safe default"] |}
      end
  end.

(** [recommend_bureaus] on the rules [_get_targeting_rules] fetched: the
    keys of the answer, renamed. *)
Definition recommend_bureaus (dispute_data : Dispute) (rules : list Rule)
    (client_history : option ClientHistory) : Recommendation :=
  _apply_targeting_rules dispute_data rules client_history.

(** A rule that recommends something: its [recommended_bureaus], when the
    key is present, is not the empty list. *)
Definition recommends_some (rule : Rule) : Prop :=
  recommended_bureaus rule <> Some [].

(** *** Sample data *)

Definition collection_dispute : Dispute :=
  {| dispute_type := Some "collection";
     account_name := Some "Capital One Credit Card" |}.

(** The rule of [test_bureau_recommendation_basic]. *)
Definition collection_rule : Rule :=
  {| name := Some "Collection Rule";
     rule_type := Some "dispute_type_based";
     criteria := Some {| dispute_types := Some ["collection"];
                         account_keywords := None;
                         max_avg_disputes := None |};
     recommended_bureaus := Some ["equifax"; "experian"];
     confidence_score := Some 0.8;
     success_history := None;
     total_applications := None |}.

(** The same rule saved with an empty list of bureaus. *)
Definition silent_rule : Rule :=
  {| name := Some "Collection Rule";
     rule_type := Some "dispute_type_based";
     criteria := Some {| dispute_types := Some ["collection"];
                         account_keywords := None;
                         max_avg_disputes := None |};
     recommended_bureaus := Some [];
     confidence_score := Some 0.8;
     success_history := None;
     total_applications := None |}.

(** A rule that never matched anything but has one recorded success and
    no [total_applications] key. *)
Definition lucky_rule : Rule :=
  {| name := Some "Inquiry Rule";
     rule_type := Some "dispute_type_based";
     criteria := Some {| dispute_types := Some ["inquiry"];
                         account_keywords := None;
                         max_avg_disputes := None |};
     recommended_bureaus := Some ["transunion"];
     confidence_score := Some 0.9;
     success_history := Some 1;
     total_applications := None |}.

End BureauTargeting.

(** ** Clock arithmetic *)

Module Clock.

(** [timedelta(days=d)] and [timedelta(hours=h)], in seconds. *)
Definition days (d : Q) : Q := d * 86400.
Definition hours (h : Q) : Q := h * 3600.

(** [int(x)]: truncation toward zero. *)
Definition int (x : Q) : Z := if Py.ltb x 0 then Qceiling x else Qfloor x.

(** [dt.date()]: midnight of the day of [dt]. *)
Definition date (dt : Q) : Q := inject_Z (Qfloor (dt / 86400)) * 86400.

End Clock.

(** ** Round scheduling ([automation.py], [AutomatedSchedulingService]) *)

Module Scheduling.

Record Dispute := {
  round_number : option Z;
  dispute_type : option string;
  client_id : option string;
  client_responsiveness_score : option Q
}.

Record SchedulingRule := {
  name : option string;
  min_wait_days : option Z;
  max_wait_days : option Z;
  follow_up_strategy : option string
}.

Record Schedule := {
  next_round : Z;
  scheduled_date : Q;
  rule_applied : string;
  sched_follow_up_strategy : string;
  estimated_success_probability : Q
}.

Definition type_modifiers (dispute_type : string) : Q :=
  if String.eqb dispute_type "inquiry" then 1.1
  else if String.eqb dispute_type "late_payment" then 0.9
  else if String.eqb dispute_type "collection" then 0.7
  else if String.eqb dispute_type "charge_off" then 0.6
  else 1.0.

Definition _estimate_success_probability (dispute_data : Dispute)
    (round_number : Z) : Q :=
  let base_prob := Py.max 0.1 (0.7 - inject_Z (round_number - 1) * 0.1) in
  let dispute_type := default "" (dispute_type dispute_data) in
  let modifier := type_modifiers dispute_type in
  let client_responsiveness :=
    default 0.5 (client_responsiveness_score dispute_data) in
  let responsiveness_modifier := 0.8 + client_responsiveness * 0.4 in
  let estimated_prob := base_prob * modifier * responsiveness_modifier in
  Py.max 0.05 (Py.min 0.95 estimated_prob).

Definition _apply_default_scheduling (now : Q) (dispute_data : Dispute)
    (next_round : Z) : Schedule :=
  let base_delay := (30 + (next_round - 1) * 15)%Z in
  let schedule_date := now + Clock.days (inject_Z base_delay) in
  {| next_round := next_round;
     scheduled_date := schedule_date;
     rule_applied := "default_progressive";
     sched_follow_up_strategy := "standard";
     estimated_success_probability :=
       Py.max 0.1 (0.8 - inject_Z next_round * 0.1) |}.

(** [prefers_frequent_updates] is the flag of the client's preference row,
    false when the client has none. *)
Definition _calculate_optimal_schedule (now : Q) (dispute_data : Dispute)
    (rule : SchedulingRule) (prefers_frequent_updates : bool) : Q :=
  let min_days := default 30%Z (min_wait_days rule) in
  let max_days := default 45%Z (max_wait_days rule) in
  let dispute_type := default "" (dispute_type dispute_data) in
  let collection := Py.mem dispute_type ["collection"; "charge_off"] in
  let min_days := if collection then Z.max 20 (min_days - 5) else min_days in
  let max_days := if collection then Z.max 30 (max_days - 5) else max_days in
  let min_days :=
    match client_id dispute_data with
    | Some c =>
        if Py.truthy c && prefers_frequent_updates
        then Z.max 14 (min_days - 10) else min_days
    | None => min_days
    end in
  let base_delay := inject_Z (min_days + max_days) / 2 in
  let schedule_date := now + Clock.days (inject_Z (Clock.int base_delay)) in
  Clock.date schedule_date.

(** [schedule_next_round] on the rule [_get_scheduling_rule] fetched for the
    next round. *)
Definition schedule_next_round (now : Q) (dispute_data : Dispute)
    (rule : option SchedulingRule) (prefers_frequent_updates : bool) : Schedule :=
  let current_round := default 1%Z (round_number dispute_data) in
  let next_round := (current_round + 1)%Z in
  match rule with
  | None => _apply_default_scheduling now dispute_data next_round
  | Some rule =>
      let schedule_date :=
        _calculate_optimal_schedule now dispute_data rule prefers_frequent_updates in
      {| next_round := next_round;
         scheduled_date := schedule_date;
         rule_applied := default "default" (name rule);
         sched_follow_up_strategy := default "standard" (follow_up_strategy rule);
         estimated_success_probability :=
           _estimate_success_probability dispute_data next_round |}
  end.

(** *** Sample data *)

Definition dispute_of (ty : string) : Dispute :=
  {| round_number := Some 1%Z; dispute_type := Some ty;
     client_id := Some "client-456"; client_responsiveness_score := None |}.

(** A scheduling rule that sets nothing but its name. *)
Definition plain_rule : SchedulingRule :=
  {| name := Some "round-2"; min_wait_days := None; max_wait_days := None;
     follow_up_strategy := None |}.

End Scheduling.

(** ** Dunning sequences ([automation.py], [DunningEmailService]) *)

Module Dunning.

(** A row of [dunning_sequence_states]. *)
Record SequenceState := {
  organization_id : string;
  failed_payment_id : string;
  current_step : Z;
  status : string;
  started_at : Q;
  last_step_at : option Q
}.

Record Conditions := {
  delay_hours : option Q;
  min_amount : option Q
}.

Definition no_conditions : Conditions :=
  {| delay_hours := None; min_amount := None |}.

(** A row of [dunning_sequences]. *)
Record SequenceStep := {
  step_organization_id : string;
  step_number : Z;
  is_active : bool;
  conditions : option Conditions;
  email_template_key : string;
  is_final : option bool
}.

(** A row of [payment_attempts]. *)
Record PaymentAttempt := {
  id : string;
  payment_organization_id : string;
  amount_cents : option Q
}.

Record DB := {
  dunning_sequence_states : list SequenceState;
  dunning_sequences : list SequenceStep;
  payment_attempts : list PaymentAttempt
}.

Record EmailResult := {
  success : bool;
  message_id : string;
  sent_at : Q
}.

(** The dict [process_dunning_sequence] returns, by its [action]. *)
Inductive Outcome :=
  | sequence_complete
  | email_sent (step_number : Z) (email_template : string)
      (email_result : EmailResult) (is_final_step : bool)
  | wait (next_check_date : Q)
  | error.

Definition state_matches (failed_payment_id organization_id : string)
    (row : SequenceState) : bool :=
  String.eqb (Dunning.failed_payment_id row) failed_payment_id
  && String.eqb (Dunning.organization_id row) organization_id.

Definition _get_sequence_state (failed_payment_id organization_id : string)
    (db : DB) : option SequenceState :=
  head (List.filter
    (fun row => state_matches failed_payment_id organization_id row
                && String.eqb (status row) "active")
    (dunning_sequence_states db)).

Definition _start_new_sequence (failed_payment_id organization_id : string)
    (now : Q) (db : DB) : SequenceState * DB :=
  let row :=
    {| organization_id := organization_id;
       failed_payment_id := failed_payment_id;
       current_step := 0;
       status := "active";
       started_at := now;
       last_step_at := None |} in
  (row,
   {| dunning_sequence_states := dunning_sequence_states db ++ [row];
      dunning_sequences := dunning_sequences db;
      payment_attempts := payment_attempts db |}).

Definition _get_next_sequence_step (step_number : Z) (organization_id : string)
    (db : DB) : option SequenceStep :=
  head (List.filter
    (fun row => String.eqb (step_organization_id row) organization_id
                && (Dunning.step_number row =? step_number)%Z
                && is_active row)
    (dunning_sequences db)).

Definition _check_time_condition (now : Q) (sequence_state : SequenceState)
    (required_hours : Q) : bool :=
  let start_time :=
    match last_step_at sequence_state with
    | None => started_at sequence_state
    | Some last_step_time => last_step_time
    end in
  let time_elapsed := now - start_time in
  Py.leb (required_hours * 3600) time_elapsed.

Definition _get_payment_data (failed_payment_id organization_id : string)
    (db : DB) : option PaymentAttempt :=
  head (List.filter
    (fun row => String.eqb (id row) failed_payment_id
                && String.eqb (payment_organization_id row) organization_id)
    (payment_attempts db)).

Definition _should_trigger_step (now : Q) (step : SequenceStep)
    (sequence_state : SequenceState) (organization_id : string) (db : DB) : bool :=
  let conditions := default no_conditions (conditions step) in
  let time_ok :=
    match delay_hours conditions with
    | Some h => _check_time_condition now sequence_state h
    | None => true
    end in
  if negb time_ok then false
  else
    match min_amount conditions with
    | Some m =>
        let payment_data :=
          _get_payment_data (failed_payment_id sequence_state) organization_id db in
        let cents := default 0 (payment_data ≫= amount_cents) in
        if Py.ltb cents (m * 100) then false else true
    | None => true
    end.

Definition _send_dunning_email (now : Q) (step : SequenceStep)
    (failed_payment_id organization_id : string) : EmailResult :=
  {| success := true;
     message_id :=
       "dunning_" ++ Py.str_of_int (step_number step) ++ "_" ++ failed_payment_id;
     sent_at := now |}.

Definition _update_sequence_state (now : Q) (failed_payment_id : string)
    (step_number : Z) (organization_id : string) (db : DB) : DB :=
  {| dunning_sequence_states :=
       map (fun row =>
              if state_matches failed_payment_id organization_id row then
                {| organization_id := Dunning.organization_id row;
                   failed_payment_id := Dunning.failed_payment_id row;
                   current_step := step_number;
                   status := status row;
                   started_at := started_at row;
                   last_step_at := Some now |}
              else row)
           (dunning_sequence_states db);
     dunning_sequences := dunning_sequences db;
     payment_attempts := payment_attempts db |}.

Definition _get_next_check_date (now : Q) (step : SequenceStep) : Q :=
  let delay_hours :=
    default 24 (delay_hours (default no_conditions (conditions step))) in
  now + Clock.hours delay_hours.

Definition process_dunning_sequence (now : Q)
    (failed_payment_id organization_id : string) (db : DB) : Outcome * DB :=
  let '(sequence_state, db) :=
    match _get_sequence_state failed_payment_id organization_id db with
    | Some sequence_state => (sequence_state, db)
    | None => _start_new_sequence failed_payment_id organization_id now db
    end in
  match _get_next_sequence_step (current_step sequence_state + 1) organization_id db with
  | None => (sequence_complete, db)
  | Some next_step =>
      if _should_trigger_step now next_step sequence_state organization_id db then
        let email_result :=
          _send_dunning_email now next_step failed_payment_id organization_id in
        let db :=
          _update_sequence_state now failed_payment_id (step_number next_step)
            organization_id db in
        (email_sent (step_number next_step) (email_template_key next_step)
           email_result (default false (is_final next_step)), db)
      else (wait (_get_next_check_date now next_step), db)
  end.

(** Successive calls, one per clock reading, each on the database the
    previous call left. *)
Fixpoint run (failed_payment_id organization_id : string) (clock : list Q)
    (db : DB) : list Outcome * DB :=
  match clock with
  | [] => ([], db)
  | now :: later =>
      let '(outcome, db1) :=
        process_dunning_sequence now failed_payment_id organization_id db in
      let '(outcomes, db2) := run failed_payment_id organization_id later db1 in
      (outcome :: outcomes, db2)
  end.

(** The step numbers of the emails sent, in order. *)
Fixpoint sent_steps (outcomes : list Outcome) : list Z :=
  match outcomes with
  | [] => []
  | email_sent n _ _ _ :: rest => n :: sent_steps rest
  | _ :: rest => sent_steps rest
  end.

(** The step the sequence of a payment stands at, as the service reads it:
    the [current_step] of its active row, 0 when it has none. Rows of
    another status are not read. *)
Definition current_step_of (failed_payment_id organization_id : string)
    (db : DB) : Z :=
  match _get_sequence_state failed_payment_id organization_id db with
  | Some sequence_state => current_step sequence_state
  | None => 0%Z
  end.

(** *** Sample data *)

(** Step 1 of an organization, due 24 hours after the sequence started. *)
Definition first_step : SequenceStep :=
  {| step_organization_id := "org-123";
     step_number := 1;
     is_active := true;
     conditions := Some {| delay_hours := Some 24; min_amount := None |};
     email_template_key := "payment_failed_initial";
     is_final := Some false |}.

(** A sequence started at time 0 and still before its first step. *)
Definition fresh_state : SequenceState :=
  {| organization_id := "org-123";
     failed_payment_id := "payment-123";
     current_step := 0;
     status := "active";
     started_at := 0;
     last_step_at := None |}.

(** Step 2 of the organization, with no condition. *)
Definition second_step : SequenceStep :=
  {| step_organization_id := "org-123";
     step_number := 2;
     is_active := true;
     conditions := Some no_conditions;
     email_template_key := "payment_failed_reminder";
     is_final := Some true |}.

(** A sequence that sent its two steps and was closed. *)
Definition closed_state : SequenceState :=
  {| organization_id := "org-123";
     failed_payment_id := "payment-123";
     current_step := 2;
     status := "completed";
     started_at := 0;
     last_step_at := Some 0 |}.

(** The payment of [closed_state], with the two steps of the
    organization, the first with no condition. *)
Definition closed_db : DB :=
  {| dunning_sequence_states := [closed_state];
     dunning_sequences :=
       [{| step_organization_id := "org-123";
           step_number := 1;
           is_active := true;
           conditions := Some no_conditions;
           email_template_key := "payment_failed_initial";
           is_final := Some false |};
        second_step];
     payment_attempts := [] |}.

Definition sample_db : DB :=
  {| dunning_sequence_states := [fresh_state];
     dunning_sequences := [first_step];
     payment_attempts :=
       [{| id := "payment-123"; payment_organization_id := "org-123";
           amount_cents := Some 9900 |}] |}.

End Dunning.

(** ** Payment retry ([automation.py], [PaymentRetryService]) *)

Module PaymentRetry.

Record Tier := {
  min_amount : option Q;
  max_amount : option Q;
  tier_strategy : option string;
  delay_multiplier : option Q
}.

(** [amount_tiers] is a dict read in insertion order. *)
Record Config := {
  strategy : option string;
  initial_delay_hours : option Q;
  amount_tiers : option (list (string * Tier))
}.

Record Payment := {
  retry_count : option Z;
  amount_cents : option Q
}.

Record RetryStrategy := {
  rs_retry_count : Z;
  next_retry_date : Q;
  rs_strategy : string;
  amount_to_charge : Q;
  payment_method : string;
  dunning_step : option Dunning.SequenceStep;
  success_rate : Q
}.

Definition _create_default_config : Config :=
  {| strategy := Some "exponential";
     initial_delay_hours := Some 24;
     amount_tiers := Some
       [("low",
         {| min_amount := None; max_amount := Some 100;
            tier_strategy := Some "fixed"; delay_multiplier := Some 0.5 |});
        ("medium",
         {| min_amount := Some 100; max_amount := Some 500;
            tier_strategy := Some "linear"; delay_multiplier := Some 1.0 |});
        ("high",
         {| min_amount := Some 500; max_amount := None;
            tier_strategy := Some "exponential"; delay_multiplier := Some 1.5 |})] |}.

(** [amount < max_amount], where an absent bound is [float('inf')]. *)
Definition below (amount : Q) (max_amount : option Q) : bool :=
  match max_amount with
  | Some m => Py.ltb amount m
  | None => true
  end.

Fixpoint lookup_tier (tier_name : string) (amount_tiers : list (string * Tier))
    : option Tier :=
  match amount_tiers with
  | [] => None
  | (n, t) :: rest => if String.eqb n tier_name then Some t else lookup_tier tier_name rest
  end.

Definition _get_amount_tier (amount : Q) (amount_tiers : list (string * Tier))
    : Tier :=
  match
    List.find (fun nt : string * Tier =>
                 Py.leb (default 0 (min_amount nt.2)) amount
                 && below amount (max_amount nt.2))
              amount_tiers
  with
  | Some (_, tier_config) => tier_config
  | None =>
      default
        {| min_amount := None; max_amount := None;
           tier_strategy := Some "exponential"; delay_multiplier := Some 1.0 |}
        (lookup_tier "medium" amount_tiers)
  end.

Definition base_rates (attempt : Z) : option Q :=
  if (attempt =? 0)%Z then Some 0.7
  else if (attempt =? 1)%Z then Some 0.5
  else if (attempt =? 2)%Z then Some 0.3
  else if (attempt =? 3)%Z then Some 0.2
  else None.

Definition strategy_modifiers (strategy : string) : option Q :=
  if String.eqb strategy "exponential" then Some 0.9
  else if String.eqb strategy "linear" then Some 1.0
  else if String.eqb strategy "fixed" then Some 1.1
  else None.

Definition _estimate_success_rate (retry_count : Z) (strategy : string)
    (amount : Q) : Q :=
  let base_rate := default 0.1 (base_rates (Z.min retry_count 3)) in
  let strategy_modifier := default 1.0 (strategy_modifiers strategy) in
  let amount_modifier := Py.max 0.5 (1.2 - amount / 1000) in
  let estimated_rate := base_rate * strategy_modifier * amount_modifier in
  Py.max 0.05 (Py.min 0.95 estimated_rate).

(** [_get_dunning_email_step]: the active step [retry_count + 1]. *)
Definition _get_dunning_email_step (retry_count : Z) (organization_id : string)
    (db : Dunning.DB) : option Dunning.SequenceStep :=
  Dunning._get_next_sequence_step (retry_count + 1) organization_id db.

Definition _calculate_retry_strategy (now : Q) (payment_data : Payment)
    (config : Config) (organization_id : string) (db : Dunning.DB)
    : RetryStrategy :=
  let retry_count := default 0%Z (retry_count payment_data) in
  let amount_cents := default 0 (amount_cents payment_data) in
  let amount_dollars := amount_cents / 100 in
  let tier := _get_amount_tier amount_dollars (default [] (amount_tiers config)) in
  let initial_delay := default 24 (initial_delay_hours config) in
  let strategy :=
    default (default "exponential" (strategy config)) (tier_strategy tier) in
  let multiplier := default 1.0 (delay_multiplier tier) in
  let delay_hours :=
    if String.eqb strategy "exponential" then
      initial_delay * (2 ^ retry_count) * multiplier
    else if String.eqb strategy "linear" then
      initial_delay * inject_Z (retry_count + 1) * multiplier
    else initial_delay * multiplier in
  let next_retry_date := now + Clock.hours delay_hours in
  let success_rate := _estimate_success_rate retry_count strategy amount_dollars in
  let dunning_step := _get_dunning_email_step retry_count organization_id db in
  {| rs_retry_count := retry_count + 1;
     next_retry_date := next_retry_date;
     rs_strategy := strategy;
     amount_to_charge := amount_cents;
     payment_method := "same_as_failed";
     dunning_step := dunning_step;
     success_rate := success_rate |}.

(** *** Sample data *)

(** A failed payment of $50 that has not been retried yet. *)
Definition fifty_dollars : Payment :=
  {| retry_count := Some 0%Z; amount_cents := Some 5000 |}.

Definition no_rows : Dunning.DB :=
  {| Dunning.dunning_sequence_states := [];
     Dunning.dunning_sequences := [];
     Dunning.payment_attempts := [] |}.

(** The payment with its [retry_count] set to [n]. *)
Definition with_retry_count (payment_data : Payment) (n : Z) : Payment :=
  {| retry_count := Some n; amount_cents := amount_cents payment_data |}.

(** The tiers of [_create_default_config]. *)
Definition default_tiers : list (string * Tier) :=
  default [] (amount_tiers _create_default_config).

End PaymentRetry.

(** ** Churn risk factors ([churn_prediction.py], the analyzers) *)

Module ChurnAnalysis.
Import Exc Churn.

(** The [created_at] of a row as [datetime.fromisoformat] reads it: a text
    with an offset (and the analyzers turn a final Z into [+00:00]) gives an
    aware datetime, a text without one a naive datetime, with the time in
    seconds; [unparsed] is a row without the key ([KeyError]), with [None]
    ([AttributeError]) or with a text that is no ISO date
    ([ValueError]). *)
Inductive Timestamp :=
  | naive (t : Q)
  | aware (t : Q)
  | unparsed.

(** [fromisoformat(created_at) > cutoff], for a naive [cutoff]: ordering an
    aware datetime against the naive [datetime.utcnow()] raises
    [TypeError]. *)
Definition after (cutoff : Q) (created_at : Timestamp) : Outcome bool :=
  match created_at with
  | naive t => returned (Py.ltb cutoff t)
  | aware _ => raised
  | unparsed => raised
  end.

(** [[x for x in l if created_at(x) > cutoff]]. *)
Definition recent {A : Type} (created_at : A -> Timestamp) (cutoff : Q)
    (l : list A) : Outcome (list A) :=
  select (fun x => after cutoff (created_at x)) l.

(** A row of [email_logs]. [status] and [opened_at] are read with
    [.get(key)] and only compared or tested, so that [None] stands for an
    absent key and for a null column alike. [click_count], [subject] and
    [body_text] are read with a default and then used as a number or as a
    text: no entry is an absent key, the entry [None] a null column. *)
Record Communication := {
  comm_status : option string;
  opened_at : option string;
  click_count : option (option Z);
  comm_created_at : Timestamp;
  subject : option (option string);
  body_text : option (option string)
}.

(** A row of [billing_payments]. *)
Record BillingPayment := {
  payment_status : option string;
  payment_created_at : Timestamp
}.

(** A row of [disputes]. *)
Record DisputeRow := {
  result : option string;
  dispute_created_at : Timestamp
}.

(** A row of [documents]. *)
Record Document := {
  document_created_at : Timestamp
}.

(** The dict [_get_client_history] returns, newest rows first. *)
Record ClientHistory := {
  disputes : list DisputeRow;
  payments : list BillingPayment;
  communications : list Communication;
  documents : list Document
}.

Record Client := {
  client_created_at : option Timestamp
}.

(** [f"{round(x * 100)}"]. *)
Definition percent (x : Q) : string :=
  Py.str_of_int (Py.round_half_even (x * 100)).

(** [len(l)] as a number. *)
Definition len {A : Type} (l : list A) : Q := Py.of_nat (length l).

Definition status_is (values : list string) (st : option string) : bool :=
  match st with
  | Some v => Py.mem v values
  | None => false
  end.

(** [bool(c.get('opened_at'))]. *)
Definition was_opened (c : Communication) : bool :=
  match opened_at c with
  | Some text => Py.truthy text
  | None => false
  end.

(** [c.get('click_count', 0) > 0]: ordering [None] against a number
    raises [TypeError]. *)
Definition clicked (c : Communication) : Outcome bool :=
  match Py.get (click_count c) 0%Z with
  | Some n => returned (0 <? n)%Z
  | None => raised
  end.

Definition make_factor (n d : string) (w : Q) (v l : string) (i : Q)
    : RiskFactor :=
  {| factor_name := n; description := d; weight := Some w;
     current_value := v; risk_level := l; impact_score := Some i |}.

Definition _analyze_engagement_risk (now : Q) (client_history : ClientHistory)
    : Outcome (option RiskFactor) :=
  let communications := communications client_history in
  match communications with
  | [] =>
      returned (Some (make_factor "communication_engagement"
              "Client communication and email engagement" 2.0
              "no_data" "medium" 0.5))
  | _ =>
      let sent_emails :=
        List.filter (fun c => status_is ["sent"; "delivered"] (comm_status c))
          communications in
      let opened_emails := List.filter was_opened communications in
      bind (select clicked communications) (fun clicked_emails =>
      match sent_emails with
      | [] =>
          returned (Some (make_factor "communication_engagement"
                  "No email communication recorded" 2.0
                  "no_communication" "high" 0.8))
      | _ =>
          let open_rate := len opened_emails / len sent_emails in
          let click_rate := len clicked_emails / len sent_emails in
          let recent_cutoff := now - Clock.days 30 in
          bind (recent comm_created_at recent_cutoff communications)
            (fun recent_communications =>
          let '(risk_level, impact_score, current_value) :=
            match recent_communications with
            | [] => ("high", 0.9, "no_recent_engagement")
            | _ =>
                if Py.ltb open_rate 0.2 && Py.ltb click_rate 0.05 then
                  ("medium", 0.6,
                   "low_engagement_" ++ percent open_rate ++ "%_open")
                else
                  ("low", 0.2,
                   "good_engagement_" ++ percent open_rate ++ "%_open")
            end in
          returned (Some (make_factor "communication_engagement"
                  ("Email engagement: " ++ percent open_rate
                   ++ "% open rate, " ++ percent click_rate ++ "% click rate")
                  2.0 current_value risk_level impact_score)))
      end)
  end.

Definition _analyze_payment_risk (now : Q) (client_history : ClientHistory)
    : Outcome (option RiskFactor) :=
  let payments := payments client_history in
  match payments with
  | [] =>
      returned (Some (make_factor "payment_behavior"
              "No payment history available" 2.5 "no_history" "medium" 0.5))
  | _ =>
      let failed_payments :=
        List.filter (fun p => status_is ["failed"] (payment_status p)) payments in
      let total_attempts := length payments in
      let failure_rate :=
        if (0 <? total_attempts)%nat
        then len failed_payments / Py.of_nat total_attempts else 0 in
      let recent_cutoff := now - Clock.days 60 in
      bind (recent payment_created_at recent_cutoff failed_payments)
        (fun recent_failures =>
      let '(risk_level, impact_score, current_value) :=
        match recent_failures with
        | _ :: _ =>
            ("high", 0.9,
             "recent_failures_"
             ++ Py.str_of_int (Z.of_nat (length recent_failures)))
        | [] =>
            if Py.ltb 0.3 failure_rate then
              ("high", 0.8, "high_failure_rate_" ++ percent failure_rate ++ "%")
            else if Py.ltb 0.1 failure_rate then
              ("medium", 0.6,
               "moderate_failure_rate_" ++ percent failure_rate ++ "%")
            else
              ("low", 0.2,
               "good_payment_history_" ++ percent (1 - failure_rate)
               ++ "%_success")
        end in
      returned (Some (make_factor "payment_behavior"
              ("Payment failure rate: " ++ percent failure_rate ++ "% over "
               ++ Py.str_of_int (Z.of_nat total_attempts) ++ " attempts")
              2.5 current_value risk_level impact_score)))
  end.

(** No time is read here, so nothing raises. *)
Definition _analyze_dispute_risk (client_history : ClientHistory)
    : Outcome (option RiskFactor) :=
  let disputes := disputes client_history in
  match disputes with
  | [] =>
      returned (Some (make_factor "dispute_success"
              "No dispute history available" 1.5 "no_disputes" "low" 0.2))
  | _ =>
      let successful_disputes :=
        List.filter (fun d => status_is ["success"] (result d)) disputes in
      let success_rate := len successful_disputes / len disputes in
      let recent_disputes := firstn 5 disputes in
      let recent_failures :=
        List.filter (fun d => status_is ["failed"] (result d)) recent_disputes in
      let '(risk_level, impact_score, current_value) :=
        if (3 <=? length recent_failures)%nat then
          ("high", 0.8, "pattern_of_failures")
        else if Py.ltb success_rate 0.3 then
          ("high", 0.7, "low_success_rate_" ++ percent success_rate ++ "%")
        else if Py.ltb success_rate 0.6 then
          ("medium", 0.5, "moderate_success_rate_" ++ percent success_rate ++ "%")
        else
          ("low", 0.2, "good_success_rate_" ++ percent success_rate ++ "%") in
      returned (Some (make_factor "dispute_success"
              ("Dispute success rate: " ++ percent success_rate ++ "% over "
               ++ Py.str_of_int (Z.of_nat (length disputes)) ++ " disputes")
              1.5 current_value risk_level impact_score))
  end.

Definition _analyze_utilization_risk (now : Q) (client_history : ClientHistory)
    : Outcome (option RiskFactor) :=
  let recent_cutoff := now - Clock.days 30 in
  bind (recent (fun created_at : Timestamp => created_at) recent_cutoff
          (map dispute_created_at (disputes client_history)
           ++ map document_created_at (documents client_history))%list)
    (fun recent_activity =>
  let '(risk_level, impact_score, current_value) :=
    match length recent_activity with
    | O => ("high", 0.8, "no_recent_activity")
    | 1%nat => ("medium", 0.6, "low_recent_activity")
    | n =>
        if (n <=? 3)%nat then ("low", 0.3, "moderate_recent_activity")
        else ("low", 0.1, "high_recent_activity")
    end in
  returned (Some (make_factor "service_utilization"
          ("Service activity: "
           ++ Py.str_of_int (Z.of_nat (length recent_activity))
           ++ " activities in last 30 days")
          1.0 current_value risk_level impact_score))).

(** [client_created_at] is [None] when the client has no [created_at] or
    an empty one; subtracting an aware datetime from the naive
    [datetime.utcnow()] raises [TypeError]. *)
Definition _analyze_tenure_risk (now : Q) (client : Client)
    (client_history : ClientHistory) : Outcome (option RiskFactor) :=
  match client_created_at client with
  | None => returned None
  | Some (aware _) => raised
  | Some unparsed => raised
  | Some (naive client_start) =>
      let days_since_start := Qfloor ((now - client_start) / 86400) in
      let days := Py.str_of_int days_since_start in
      let '(risk_level, impact_score, current_value) :=
        if (days_since_start <? 30)%Z then
          ("medium", 0.6, "new_client_" ++ days ++ "_days")
        else if (days_since_start <? 90)%Z then
          ("medium", 0.4, "early_stage_" ++ days ++ "_days")
        else if (365 <? days_since_start)%Z then
          ("low", 0.2, "long_term_" ++ days ++ "_days")
        else ("low", 0.3, "established_" ++ days ++ "_days") in
      returned (Some (make_factor "client_tenure"
              ("Client tenure: " ++ days ++ " days")
              1.0 current_value risk_level impact_score))
  end.

Definition support_indicators : list string :=
  ["support"; "help"; "issue"; "problem"; "complaint"; "frustrated"].

(** The test of the loop over the communications: both texts are lowered
    before the indicators are looked for. *)
Definition is_support_contact (comm : Communication) : Outcome bool :=
  bind (Py.method Py.lower (Py.get (subject comm) "")) (fun subject =>
  bind (Py.method Py.lower (Py.get (body_text comm) "")) (fun body =>
  let combined_text := subject ++ " " ++ body in
  returned (existsb (fun indicator => Py.contains indicator combined_text)
              support_indicators))).

Definition _analyze_support_risk (now : Q) (client_history : ClientHistory)
    : Outcome (option RiskFactor) :=
  bind (select is_support_contact (communications client_history))
    (fun support_contacts =>
  bind (recent comm_created_at (now - Clock.days 30) support_contacts)
    (fun recent_support =>
  let n := length recent_support in
  let count := Py.str_of_int (Z.of_nat n) in
  let '(risk_level, impact_score, current_value) :=
    if (3 <=? n)%nat then
      ("high", 0.8, "frequent_support_" ++ count ++ "_recent")
    else if (1 <=? n)%nat then
      ("medium", 0.5, "some_support_" ++ count ++ "_recent")
    else ("low", 0.2, "minimal_support_issues") in
  returned (Some (make_factor "support_interactions"
          ("Support contacts: " ++ count ++ " in last 30 days")
          1.5 current_value risk_level impact_score)))).

(** [if factor: risk_factors.append(factor)]. *)
Definition append_factor (risk_factors : list RiskFactor)
    (factor : option RiskFactor) : list RiskFactor :=
  match factor with
  | Some f => (risk_factors ++ [f])%list
  | None => risk_factors
  end.

(** The six analyzers in turn; the first that raises ends the call. *)
Definition _analyze_risk_factors (now : Q) (client : Client)
    (client_history : ClientHistory) : Outcome (list RiskFactor) :=
  let risk_factors := [] in
  bind (_analyze_engagement_risk now client_history) (fun engagement_factor =>
  let risk_factors := append_factor risk_factors engagement_factor in
  bind (_analyze_payment_risk now client_history) (fun payment_factor =>
  let risk_factors := append_factor risk_factors payment_factor in
  bind (_analyze_dispute_risk client_history) (fun dispute_factor =>
  let risk_factors := append_factor risk_factors dispute_factor in
  bind (_analyze_utilization_risk now client_history) (fun utilization_factor =>
  let risk_factors := append_factor risk_factors utilization_factor in
  bind (_analyze_tenure_risk now client client_history) (fun tenure_factor =>
  let risk_factors := append_factor risk_factors tenure_factor in
  bind (_analyze_support_risk now client_history) (fun support_factor =>
  let risk_factors := append_factor risk_factors support_factor in
  returned risk_factors)))))).

Definition is_naive (created_at : Timestamp) : Prop :=
  match created_at with naive _ => True | _ => False end.

(** Every [created_at] of the client and of the history is naive. *)
Definition all_naive (client : Client) (client_history : ClientHistory) : Prop :=
  Forall (fun d => is_naive (dispute_created_at d)) (disputes client_history) /\
  Forall (fun p => is_naive (payment_created_at p)) (payments client_history) /\
  Forall (fun c => is_naive (comm_created_at c)) (communications client_history) /\
  Forall (fun d => is_naive (document_created_at d)) (documents client_history) /\
  match client_created_at client with
  | Some created_at => is_naive created_at
  | None => True
  end.

(** A communication with a null [click_count], [subject] or
    [body_text]. *)
Definition has_null (c : Communication) : Prop :=
  click_count c = Some None \/ subject c = Some None \/ body_text c = Some None.

(** No communication of the history has a null [click_count], [subject]
    or [body_text]. *)
Definition no_null (client_history : ClientHistory) : Prop :=
  Forall (fun c => ~ has_null c) (communications client_history).

Definition immediate_actions : list string :=
  ["Immediate outreach required - schedule personal call within 24 hours";
   "Offer special retention incentives or service upgrades";
   "Escalate to account management team"].

Definition proactive_actions : list string :=
  ["Proactive check-in within 1 week";
   "Send targeted value-add content or resources";
   "Review service satisfaction and address concerns"].

(** The recommendations one factor adds. *)
Definition factor_actions (factor : RiskFactor) : list string :=
  let factor_name := factor_name factor in
  let severe := Py.mem (Churn.risk_level factor) ["high"; "critical"] in
  if String.eqb factor_name "communication_engagement" && severe then
    ["Implement multi-channel communication strategy";
     "Personalize email content based on client interests"]
  else if String.eqb factor_name "payment_behavior" && severe then
    ["Offer flexible payment options or payment plans";
     "Provide financial education resources";
     "Consider service tier adjustment"]
  else if String.eqb factor_name "dispute_success" && severe then
    ["Review dispute strategy and set realistic expectations";
     "Provide regular progress updates and success stories";
     "Consider additional services or consultations"]
  else if String.eqb factor_name "service_utilization" && severe then
    ["Engage client with usage tips and best practices";
     "Highlight underutilized features that could add value";
     "Schedule onboarding or refresher training"]
  else if String.eqb factor_name "support_interactions" && severe then
    ["Address all outstanding support issues immediately";
     "Assign dedicated support representative";
     "Implement proactive support check-ins"]
  else [].

(** The loop over the factors rebinds [risk_level] to the level of each
    factor, so the test after the loop reads the level of the last one. *)
Definition _generate_recommendations (risk_level : string)
    (risk_factors : list RiskFactor) : list string :=
  let recommendations :=
    if Py.mem risk_level ["critical"; "high"] then immediate_actions
    else if String.eqb risk_level "medium" then proactive_actions
    else [] in
  let '(recommendations, risk_level) :=
    fold_left
      (fun (st : list string * string) factor =>
         ((fst st ++ factor_actions factor)%list, Churn.risk_level factor))
      risk_factors (recommendations, risk_level) in
  match recommendations with
  | [] =>
      if String.eqb risk_level "low" then
        ["Continue current engagement strategy";
         "Consider upselling or cross-selling opportunities"]
      else
        ["Monitor closely and gather feedback";
         "Review service delivery and client satisfaction"]
  | _ => recommendations
  end.

Definition _calculate_confidence (client_history : ClientHistory)
    (risk_factors : list RiskFactor) : Q :=
  let has (n : nat) : nat := if (0 <? n)%nat then 1%nat else 0%nat in
  let data_points :=
    (has (length (disputes client_history))
     + has (length (payments client_history))
     + has (length (communications client_history))
     + has (length (documents client_history)))%nat in
  let data_completeness := Py.of_nat data_points / 4.0 in
  let factor_count := length risk_factors in
  let factor_confidence :=
    if (factor_count =? 0)%nat then 0.1
    else if (factor_count <=? 2)%nat then 0.4
    else if (factor_count <=? 4)%nat then 0.7
    else 0.9 in
  let confidence := (data_completeness + factor_confidence) / 2 in
  Py.max 0.1 (Py.min 1.0 confidence).

(** A prediction, as far as the summary reads it. *)
Record Prediction := {
  pred_risk_level : option string;
  churn_probability : option Q
}.

Record Summary := {
  high_risk_count : nat;
  medium_risk_count : nat;
  low_risk_count : nat;
  critical_risk_count : nat;
  average_churn_probability : Q;
  total_potential_revenue_at_risk : nat
}.

Definition count_level (level : string) (predictions : list Prediction) : nat :=
  length (List.filter
    (fun p => String.eqb (default "medium" (pred_risk_level p)) level)
    predictions).

(** [round(x, 3)]. *)
Definition round3 (x : Q) : Q :=
  inject_Z (Py.round_half_even (x * 1000)) / 1000.

(** [statistics.mean] of a non-empty list. *)
Definition mean (l : list Q) : Q := Py.sum l / Py.of_nat (length l).

Definition _calculate_summary_statistics (predictions : list Prediction)
    : Summary :=
  match predictions with
  | [] =>
      {| high_risk_count := 0%nat; medium_risk_count := 0%nat;
         low_risk_count := 0%nat; critical_risk_count := 0%nat;
         average_churn_probability := 0.0;
         total_potential_revenue_at_risk := 0%nat |}
  | _ =>
      let churn_probabilities :=
        map (fun p => default 0.5 (churn_probability p)) predictions in
      let avg_churn_prob := mean churn_probabilities in
      let high_and_critical :=
        (count_level "critical" predictions + count_level "high" predictions)%nat in
      let estimated_monthly_revenue := 200%nat in
      {| high_risk_count := count_level "high" predictions;
         medium_risk_count := count_level "medium" predictions;
         low_risk_count := count_level "low" predictions;
         critical_risk_count := count_level "critical" predictions;
         average_churn_probability := round3 avg_churn_prob;
         total_potential_revenue_at_risk :=
           (high_and_critical * estimated_monthly_revenue)%nat |}
  end.

(** The label of a factor agrees with its impact score. *)
Definition level_matches_impact (factor : RiskFactor) : Prop :=
  let i := default 0.5 (impact_score factor) in
  (Churn.risk_level factor = "high" /\ 0.7 <= i <= 0.9) \/
  (Churn.risk_level factor = "medium" /\ 0.4 <= i <= 0.6) \/
  (Churn.risk_level factor = "low" /\ 0.1 <= i <= 0.3).

(** *** Sample data *)

Definition no_history : ClientHistory :=
  {| disputes := []; payments := []; communications := []; documents := [] |}.

Definition new_client : Client := {| client_created_at := Some (naive 0) |}.

(** A client as the database returns it, its [created_at] with an
    offset. *)
Definition stored_client : Client := {| client_created_at := Some (aware 0) |}.

(** The history of a client who was sent one email, logged from a template
    without a text body. *)
Definition mail_without_body : ClientHistory :=
  {| disputes := []; payments := [];
     communications :=
       [{| comm_status := Some "sent"; opened_at := None;
           click_count := Some (Some 0%Z); comm_created_at := naive 0;
           subject := Some (Some "Welcome"); body_text := Some None |}];
     documents := [] |}.

End ChurnAnalysis.

(** ** Letter generation ([automation.py], [LetterGenerationService]) *)

Module Letters.

Record Template := {
  id : string;
  content : option string;
  variables : option (list string);
  priority : option Q;
  dispute_types : option (list string);
  bureau_targets : option (list string);
  round_optimized : option bool;
  success_rate : option Q;
  usage_count : option Q
}.

Record Dispute := {
  dispute_type : option string;
  bureau : option string;
  round_number : option Z;
  account_name : option string;
  dispute_reason : option string
}.

Record Client := {
  first_name : option string;
  last_name : option string;
  email : option string;
  phone : option string;
  street_address : option string;
  city : option string;
  state : option string;
  zip_code : option string
}.

(** [x in l] where [x] may be [None] and [l] holds strings. *)
Definition opt_mem (x : option string) (l : list string) : bool :=
  match x with
  | Some v => Py.mem v l
  | None => false
  end.

(** The [client_data] and [organization_id] arguments are not read. *)
Definition _calculate_template_score (template : Template)
    (dispute_data : Dispute) : Q :=
  let score := 0.0 in
  let score := score + default 0 (priority template) * 0.3 in
  let score :=
    if opt_mem (dispute_type dispute_data) (default [] (dispute_types template))
    then score + 2.0 else score in
  let score :=
    if opt_mem (bureau dispute_data) (default [] (bureau_targets template))
    then score + 1.5 else score in
  let score :=
    if default false (round_optimized template)
       && (default 1 (round_number dispute_data) <=? 3)%Z
    then score + 1.0 else score in
  let success_rate := default 0.5 (success_rate template) in
  let score := score + success_rate * 2.0 in
  let usage_count := default 0 (usage_count template) in
  if Py.ltb 0 usage_count then
    let recent_usage_bonus := Py.min (usage_count * 0.1) 1.0 in
    score + recent_usage_bonus
  else score.

(** [list.sort(key=..., reverse=True)], a stable sort, written as an
    insertion sort: an element goes before the first element whose key
    is not greater than its own. *)
Fixpoint insert_desc {A : Type} (key : A -> Q) (x : A) (l : list A) : list A :=
  match l with
  | [] => [x]
  | y :: l' =>
      if Py.ltb (key x) (key y) then y :: insert_desc key x l'
      else x :: l
  end.

Definition sort_desc {A : Type} (key : A -> Q) (l : list A) : list A :=
  fold_right (insert_desc key) [] l.

(** [_select_optimal_template] on the templates [_get_active_templates]
    fetched. *)
Definition _select_optimal_template (dispute_data : Dispute)
    (templates : list Template) : string :=
  match templates with
  | [] => "default_dispute_template"
  | first :: _ =>
      let scored_templates :=
        map (fun template =>
               (template, _calculate_template_score template dispute_data))
            templates in
      let scored_templates := sort_desc snd scored_templates in
      match scored_templates with
      | (template, _) :: _ => id template
      | [] => id first
      end
  end.

(** [', '.join(parts)]. *)
Fixpoint join (sep : string) (parts : list string) : string :=
  match parts with
  | [] => ""
  | [part] => part
  | part :: rest => part ++ sep ++ join sep rest
  end.

Definition _format_address (client_data : Client) : string :=
  let address_parts :=
    [ default "" (street_address client_data);
      default "" (city client_data);
      default "" (state client_data);
      default "" (zip_code client_data) ] in
  join ", " (List.filter Py.truthy address_parts).

Definition is_alpha (c : ascii) : bool := Py.is_upper c || Py.is_lower c.

(** [s.title()]: a letter is upper-cased after a character that is not a
    letter and lower-cased after a letter. *)
Fixpoint title_from (after_letter : bool) (s : string) : string :=
  match s with
  | EmptyString => EmptyString
  | String c r =>
      String (if after_letter then Py.lower_ascii c else Py.upper_ascii c)
             (title_from (is_alpha c) r)
  end.

Definition title (s : string) : string := title_from false s.

Definition _get_bureau_full_name (bureau_code : string) : string :=
  let code := Py.lower bureau_code in
  if String.eqb code "equifax" then "Equifax Information Services LLC"
  else if String.eqb code "experian" then "Experian"
  else if String.eqb code "transunion" then "TransUnion LLC"
  else if String.eqb code "all" then "All Credit Reporting Agencies"
  else title bureau_code.

(** [s.replace(old, new)] for a non-empty [old]: [skip] characters of a
    match still have to be dropped. *)
Fixpoint replace_from (old new : string) (skip : nat) (s : string) : string :=
  match s with
  | EmptyString => EmptyString
  | String c r =>
      match skip with
      | S k => replace_from old new k r
      | O =>
          if String.prefix old s
          then new ++ replace_from old new (String.length old - 1) r
          else String c (replace_from old new 0 r)
      end
  end.

Definition replace (old new s : string) : string := replace_from old new 0 s.

(** [f"{{{{{variable}}}}}"]: the variable between two pairs of braces. *)
Definition placeholder (variable : string) : string :=
  "{{" ++ variable ++ "}}".

(** [str(variable_map[variable])], when the variable is a key of the map;
    [current_date] is today's date as [strftime('%B %d, %Y')] prints it. *)
Definition variable_map (current_date : string) (dispute_data : Dispute)
    (client_data : Client) (variable : string) : option string :=
  if String.eqb variable "client_first_name" then
    Some (default "" (first_name client_data))
  else if String.eqb variable "client_last_name" then
    Some (default "" (last_name client_data))
  else if String.eqb variable "client_full_name" then
    Some (default "" (first_name client_data) ++ " "
          ++ default "" (last_name client_data))
  else if String.eqb variable "client_email" then
    Some (default "" (email client_data))
  else if String.eqb variable "client_phone" then
    Some (default "" (phone client_data))
  else if String.eqb variable "client_address" then
    Some (_format_address client_data)
  else if String.eqb variable "dispute_type" then
    Some (default "" (dispute_type dispute_data))
  else if String.eqb variable "account_name" then
    Some (default "" (account_name dispute_data))
  else if String.eqb variable "dispute_reason" then
    Some (default "" (dispute_reason dispute_data))
  else if String.eqb variable "bureau_name" then
    Some (_get_bureau_full_name (default "" (bureau dispute_data)))
  else if String.eqb variable "round_number" then
    Some (Py.str_of_int (default 1%Z (round_number dispute_data)))
  else if String.eqb variable "current_date" then Some current_date
  else if String.eqb variable "organization_name" then Some "CreditBeast"
  else None.

Definition _render_template (current_date : string) (template : Template)
    (dispute_data : Dispute) (client_data : Client) : string :=
  fold_left
    (fun content variable =>
       match variable_map current_date dispute_data client_data variable with
       | Some value => replace (placeholder variable) value content
       | None => content
       end)
    (default [] (variables template))
    (default "" (content template)).

(** *** Sample data *)

Definition late_payment_dispute : Dispute :=
  {| dispute_type := Some "late_payment"; bureau := Some "equifax";
     round_number := Some 1%Z; account_name := Some "Capital One";
     dispute_reason := Some "Never late" |}.

Definition ada : Client :=
  {| first_name := Some "Ada"; last_name := Some "Byron";
     email := Some "ada@example.com"; phone := None;
     street_address := Some "1 Main St"; city := Some "Austin";
     state := None; zip_code := Some "73301" |}.

Definition template_of (i : string) (types : list string) (p rate : Q)
    : Template :=
  {| id := i; content := None; variables := None; priority := Some p;
     dispute_types := Some types; bureau_targets := None;
     round_optimized := None; success_rate := Some rate;
     usage_count := None |}.

Definition greeting : Template :=
  {| id := "t-greeting";
     content := Some "Dear {{client_first_name}}, re {{account_name}} ({{mystery}})";
     variables := Some ["client_first_name"; "account_name"; "mystery"];
     priority := None; dispute_types := None; bureau_targets := None;
     round_optimized := None; success_rate := None; usage_count := None |}.

(** The template with its [usage_count] set to [u]. *)
Definition with_usage (template : Template) (u : Q) : Template :=
  {| id := id template; content := content template;
     variables := variables template; priority := priority template;
     dispute_types := dispute_types template;
     bureau_targets := bureau_targets template;
     round_optimized := round_optimized template;
     success_rate := success_rate template;
     usage_count := Some u |}.

(** The parts of the address that are not empty. *)
Definition present_parts (client_data : Client) : list string :=
  List.filter Py.truthy
    [ default "" (street_address client_data);
      default "" (city client_data);
      default "" (state client_data);
      default "" (zip_code client_data) ].

End Letters.

(** ** Lead scoring analytics ([lead_scoring.py], [get_scoring_analytics]) *)

Module LeadAnalytics.

(** A row of [lead_scoring_results], as far as the analytics read it. *)
Record ScoredLead := {
  score : Q;
  qualification_status : string
}.

(** A count with its share of the leads, in percent. *)
Record Share := {
  count : nat;
  percentage : Q
}.

Record Analytics := {
  total_leads : nat;
  average_score : Q;
  qualification_rates : list (string * Share);
  score_distribution : list (string * Share)
}.

Definition statuses : list string :=
  ["auto_qualified"; "review_required"; "manual_review"; "auto_disqualified"].

Definition score_ranges : list (Q * Q * string) :=
  [(0, 2, "Very Low"); (2, 4, "Low"); (4, 6, "Medium"); (6, 8, "High");
   (8, 10, "Very High")].

Definition share (n total_leads : nat) : Share :=
  {| count := n;
     percentage :=
       if (0 <? total_leads)%nat
       then Py.of_nat n / Py.of_nat total_leads * 100 else 0 |}.

(** [sum(1 for s in scores_only if min_score <= s < max_score)]. *)
Definition in_range (min_score max_score : Q) (scores_only : list Q) : nat :=
  length (List.filter (fun s => Py.leb min_score s && Py.ltb s max_score)
            scores_only).

(** [get_scoring_analytics] on the rows the query returned. *)
Definition get_scoring_analytics (scores : list ScoredLead) : Analytics :=
  match scores with
  | [] =>
      {| total_leads := 0; average_score := 0;
         qualification_rates := []; score_distribution := [] |}
  | _ =>
      let total_leads := length scores in
      let scores_only := map score scores in
      let average_score := Py.sum scores_only / Py.of_nat total_leads in
      {| total_leads := total_leads;
         average_score := Py.round2 average_score;
         qualification_rates :=
           map (fun status =>
                  (status,
                   share (length (List.filter
                            (fun s => String.eqb (qualification_status s) status)
                            scores))
                         total_leads))
               statuses;
         score_distribution :=
           map (fun '(min_score, max_score, label) =>
                  (label, share (in_range min_score max_score scores_only)
                                total_leads))
               score_ranges |}
  end.

(** The leads counted by the entries of a breakdown, together. *)
Definition counted (entries : list (string * Share)) : nat :=
  list_sum (map (fun entry => count (snd entry)) entries).

(** The leads whose score is exactly 10. *)
Definition perfect (scores : list ScoredLead) : nat :=
  length (List.filter (fun s => Py.eqb (score s) 10) scores).

End LeadAnalytics.

(** * Properties *)

(** ** Comparisons, clamps and rounding *)

Module PyFacts.

Lemma ltb_lt (a b : Q) : Py.ltb a b = true <-> a < b.
Proof.
  unfold Py.ltb. rewrite negb_true_iff, <- not_true_iff_false, Qle_bool_iff.
  split; [apply Qnot_le_lt | apply Qlt_not_le].
Qed.

Lemma ltb_ge (a b : Q) : Py.ltb a b = false <-> b <= a.
Proof. unfold Py.ltb. rewrite negb_false_iff. apply Qle_bool_iff. Qed.

Lemma leb_le (a b : Q) : Py.leb a b = true <-> a <= b.
Proof. apply Qle_bool_iff. Qed.

Lemma leb_gt (a b : Q) : Py.leb a b = false <-> b < a.
Proof.
  unfold Py.leb. rewrite <- not_true_iff_false, Qle_bool_iff.
  split; [apply Qnot_le_lt | apply Qlt_not_le].
Qed.

Lemma eqb_eq (a b : Q) : Py.eqb a b = true <-> a == b.
Proof. apply Qeq_bool_iff. Qed.

Lemma eqb_neq (a b : Q) : Py.eqb a b = false <-> ~ a == b.
Proof. unfold Py.eqb. rewrite <- not_true_iff_false, Qeq_bool_iff. tauto. Qed.

(** Case analysis on the first comparison of the goal, as an order fact. *)
Ltac py_case :=
  match goal with
  | |- context [Py.ltb ?a ?b] =>
      let H := fresh "Hcmp" in
      destruct (Py.ltb a b) eqn:H;
      [apply ltb_lt in H | apply ltb_ge in H]
  | |- context [Py.leb ?a ?b] =>
      let H := fresh "Hcmp" in
      destruct (Py.leb a b) eqn:H;
      [apply leb_le in H | apply leb_gt in H]
  | |- context [Py.eqb ?a ?b] =>
      let H := fresh "Hcmp" in
      destruct (Py.eqb a b) eqn:H;
      [apply eqb_eq in H | apply eqb_neq in H]
  end.

Lemma max_lower (a b : Q) : a <= Py.max a b.
Proof. unfold Py.max. py_case; lra. Qed.

Lemma max_upper (a b c : Q) : a <= c -> b <= c -> Py.max a b <= c.
Proof. intros. unfold Py.max. py_case; lra. Qed.

Lemma min_upper (a b : Q) : Py.min a b <= a.
Proof. unfold Py.min. py_case; lra. Qed.

(** [max(lo, min(hi, x))] lands in [[lo, hi]]. *)
Lemma clamp_bounds (lo hi x : Q) :
  lo <= hi -> lo <= Py.max lo (Py.min hi x) <= hi.
Proof.
  intros Hlh. split; [apply max_lower |].
  apply max_upper; [exact Hlh | apply min_upper].
Qed.

(** Inside the interval the clamp changes nothing. *)
Lemma clamp_inside (lo hi x : Q) :
  lo <= x <= hi -> Py.max lo (Py.min hi x) == x.
Proof.
  intros [Hl Hh]. unfold Py.min. py_case; unfold Py.max; py_case; lra.
Qed.

Lemma round_half_even_floor (x : Q) :
  Py.round_half_even x = Qfloor x \/
  (Py.round_half_even x = (Qfloor x + 1)%Z /\ inject_Z (Qfloor x) < x).
Proof.
  unfold Py.round_half_even.
  py_case; [now left |].
  py_case; [right; split; [reflexivity | lra] |].
  destruct (Z.even (Qfloor x)); [now left |].
  right. split; [reflexivity | lra].
Qed.

Lemma round_half_even_lower (n : Z) (x : Q) :
  inject_Z n <= x -> (n <= Py.round_half_even x)%Z.
Proof.
  intros Hn. apply Qfloor_resp_le in Hn. rewrite Qfloor_Z in Hn.
  destruct (round_half_even_floor x) as [-> | [-> _]]; lia.
Qed.

Lemma round_half_even_upper (n : Z) (x : Q) :
  x <= inject_Z n -> (Py.round_half_even x <= n)%Z.
Proof.
  intros Hn.
  destruct (round_half_even_floor x) as [-> | [-> Hlt]].
  - rewrite Zle_Qle. pose proof (Qfloor_le x). lra.
  - assert (inject_Z (Qfloor x) < inject_Z n) as H by lra.
    rewrite <- Zlt_Qlt in H. lia.
Qed.

(** Rounding to two decimals keeps a value between two integers. *)
Lemma round2_bounds (lo hi : Z) (x : Q) :
  inject_Z lo <= x <= inject_Z hi ->
  inject_Z lo <= Py.round2 x <= inject_Z hi.
Proof.
  intros [Hl Hh]. unfold Py.round2.
  assert (inject_Z (lo * 100) <= x * 100) as H1
    by (rewrite inject_Z_mult; change (inject_Z 100) with 100; lra).
  assert (x * 100 <= inject_Z (hi * 100)) as H2
    by (rewrite inject_Z_mult; change (inject_Z 100) with 100; lra).
  apply round_half_even_lower in H1. apply round_half_even_upper in H2.
  rewrite Zle_Qle, inject_Z_mult in H1, H2.
  change (inject_Z 100) with 100 in H1, H2.
  split; [apply Qle_shift_div_l | apply Qle_shift_div_r]; lra.
Qed.

Lemma of_nat_nonneg (n : nat) : 0 <= Py.of_nat n.
Proof.
  unfold Py.of_nat. change 0 with (inject_Z 0). rewrite <- Zle_Qle. lia.
Qed.

Lemma of_nat_le (n m : nat) : (n <= m)%nat -> Py.of_nat n <= Py.of_nat m.
Proof. intros H. unfold Py.of_nat. rewrite <- Zle_Qle. lia. Qed.

Lemma ltb_comp (a b c d : Q) : a == c -> b == d -> Py.ltb a b = Py.ltb c d.
Proof.
  intros Hac Hbd.
  destruct (Py.ltb a b) eqn:H1, (Py.ltb c d) eqn:H2; try reflexivity;
    repeat match goal with
           | H : Py.ltb _ _ = true |- _ => apply ltb_lt in H
           | H : Py.ltb _ _ = false |- _ => apply ltb_ge in H
           end; lra.
Qed.

Lemma round_half_even_comp (x y : Q) :
  x == y -> Py.round_half_even x = Py.round_half_even y.
Proof.
  intros Hxy. unfold Py.round_half_even.
  rewrite (Qfloor_comp x y Hxy).
  rewrite (ltb_comp (x - inject_Z (Qfloor y)) (1 # 2)
             (y - inject_Z (Qfloor y)) (1 # 2)) by lra.
  rewrite (ltb_comp (1 # 2) (x - inject_Z (Qfloor y))
             (1 # 2) (y - inject_Z (Qfloor y))) by lra.
  reflexivity.
Qed.

(** Equal numbers round to the same two-decimal value. *)
Lemma round2_comp (x y : Q) : x == y -> Py.round2 x = Py.round2 y.
Proof.
  intros Hxy. unfold Py.round2.
  rewrite (round_half_even_comp (x * 100) (y * 100)) by lra. reflexivity.
Qed.

Lemma clamp_monotone (lo hi x y : Q) :
  x <= y -> Py.max lo (Py.min hi x) <= Py.max lo (Py.min hi y).
Proof.
  intros Hxy. unfold Py.min.
  repeat py_case; unfold Py.max; repeat py_case; lra.
Qed.

End PyFacts.

(** ** Lead scoring *)

Module LeadScoringFacts.
Import Exc LeadScoring PyFacts.

(** Inversion of a [bind] that returned. *)
Lemma bind_returned {A B : Type} (m : Outcome A) (k : A -> Outcome B) (b : B) :
  bind m k = returned b -> exists a, m = returned a /\ k a = returned b.
Proof. destruct m as [a |]; [eauto | discriminate]. Qed.

(** Inversion of the hypotheses of the form [bind m k = returned b] and
    [returned a = returned b]. *)
Ltac invert_returned :=
  repeat match goal with
         | H : bind _ _ = returned _ |- _ =>
             apply bind_returned in H as (? & ? & H)
         | H : returned _ = returned _ |- _ => injection H as H
         | H : raised = returned _ |- _ => discriminate H
         end.

Lemma count_provided_le (lead_data : Lead) (fields : list string) (n : nat) :
  count_provided lead_data fields = returned n -> (n <= length fields)%nat.
Proof.
  revert n. induction fields as [| field fields IH]; intros n H; simpl in H.
  - invert_returned. subst. simpl. lia.
  - invert_returned. subst.
    match goal with
    | Hrest : count_provided _ _ = returned ?m |- _ => specialize (IH m Hrest)
    end.
    simpl. case_match; lia.
Qed.


(** A field that holds [None] makes the loop raise. *)
Lemma count_provided_none (lead_data : Lead) (fields : list string)
    (field : string) :
  field ∈ fields ->
  lead_fields lead_data !! field = Some None ->
  count_provided lead_data fields = raised.
Proof.
  intros Hin Hnone.
  induction fields as [| f fields IH]; [now apply elem_of_nil in Hin |].
  simpl. apply elem_of_cons in Hin as [<- | Hin].
  - rewrite Hnone. reflexivity.
  - rewrite (IH Hin).
    destruct (Py.method _ _); reflexivity.
Qed.

Lemma ratio_bounds (n m : nat) :
  (n <= m)%nat -> (0 < m)%nat -> 0 <= Py.of_nat n / Py.of_nat m <= 1.
Proof.
  intros Hnm Hm.
  assert (0 < Py.of_nat m) as Hpos.
  { unfold Py.of_nat. change 0 with (inject_Z 0). rewrite <- Zlt_Qlt. lia. }
  pose proof (of_nat_nonneg n). pose proof (of_nat_le n m Hnm).
  split; [apply Qle_shift_div_l | apply Qle_shift_div_r]; lra.
Qed.

Lemma address_score_bounds (lead_data : Lead) (out : Q * list string) :
  _score_address_validity lead_data = returned out -> 0 <= fst out <= 1.
Proof.
  unfold _score_address_validity. intros H. invert_returned.
  match goal with
  | Hn : count_provided _ _ = returned ?n |- _ =>
      pose proof (ratio_bounds n (length address_fields)
                    (count_provided_le _ _ _ Hn) ltac:(simpl; lia)) as Hr
  end.
  subst out. repeat case_match; exact Hr.
Qed.

(** Every scorer of a known criterion type returns a score in [[0, 1]]. *)
Lemma dispatch_known_bounds (lead_data : Lead) (c : Criteria)
    (out : Q * list string) :
  criteria_type c ∈ known_criteria_types ->
  dispatch lead_data c = returned out ->
  0 <= fst out <= 1.
Proof.
  intros Hknown. unfold dispatch.
  repeat (case_match; [first
    [ apply address_score_bounds
    | unfold _score_email_domain, _score_phone_format, _score_utm_source,
        _score_lead_source, _score_name_completeness,
        _score_credit_concern_level, _score_demographic_fit;
      intros Hout; cbv zeta in Hout; repeat case_match; invert_returned;
      try subst out; repeat case_match; simpl; lra ] |]).
  exfalso. unfold known_criteria_types in Hknown.
  repeat match goal with
         | H : String.eqb _ _ = false |- _ => apply String.eqb_neq in H
         end.
  repeat (apply elem_of_cons in Hknown as [Heq | Hknown]; [congruence |]).
  now apply elem_of_nil in Hknown.
Qed.

(** Any other type falls back on the criterion's threshold score. *)
Lemma dispatch_unknown (lead_data : Lead) (c : Criteria) :
  criteria_type c ∉ known_criteria_types ->
  dispatch lead_data c =
    returned
      (default 0 (threshold_score c),
       ["Unknown criteria type: " ++ criteria_type c ++ ", using threshold score"]).
Proof.
  intros Hunknown. unfold dispatch.
  repeat (case_match;
    [ match goal with
      | H : String.eqb _ _ = true |- _ => apply String.eqb_eq in H
      end;
      exfalso; apply Hunknown; unfold known_criteria_types;
      match goal with H : criteria_type c = _ |- _ => rewrite H end;
      repeat (first [apply list_elem_of_here | apply list_elem_of_further]) |]).
  reflexivity.
Qed.

(** The score of a criterion is what its scorer returned, weighted. *)
Lemma score_criteria_returned (lead_data : Lead) (c : Criteria)
    (r : CriteriaScore) :
  _score_criteria lead_data c = returned r ->
  dispatch lead_data c = returned (cs_raw_score r, cs_reasoning r) /\
  cs_score r = cs_raw_score r * weight c /\ cs_weight r = weight c.
Proof.
  unfold _score_criteria. intros H. invert_returned.
  match goal with x : (Q * list string)%type |- _ => destruct x end.
  invert_returned. subst r. auto.
Qed.

Lemma raw_score_bounds (lead_data : Lead) (c : Criteria) (r : CriteriaScore) :
  well_formed c -> _score_criteria lead_data c = returned r ->
  0 <= cs_raw_score r <= 1.
Proof.
  intros [_ Hthr] Hr. apply score_criteria_returned in Hr as (Hd & _ & _).
  destruct (decide (criteria_type c ∈ known_criteria_types)) as [Hk | Hu].
  - exact (dispatch_known_bounds lead_data c _ Hk Hd).
  - rewrite (dispatch_unknown lead_data c Hu) in Hd.
    injection Hd as <- _. auto.
Qed.

Lemma weighted_score_bounds (lead_data : Lead) (c : Criteria)
    (r : CriteriaScore) :
  well_formed c -> _score_criteria lead_data c = returned r ->
  0 <= cs_score r <= weight c.
Proof.
  intros Hwf Hr. pose proof (raw_score_bounds lead_data c r Hwf Hr) as Hraw.
  apply score_criteria_returned in Hr as (_ & -> & _).
  destruct Hwf as [Hw _]. nra.
Qed.

(** The loop keeps [0 <= total_score <= max_possible_score]. *)
Lemma loop_invariant (lead_data : Lead) (cs : list Criteria) (a a' : Acc) :
  Forall well_formed cs ->
  0 <= acc_total a <= acc_max a ->
  loop lead_data cs a = returned a' ->
  0 <= acc_total a' <= acc_max a'.
Proof.
  revert a. induction cs as [| c cs IH]; intros a Hwf Ha Hloop; simpl in Hloop.
  - injection Hloop as <-. exact Ha.
  - inversion Hwf as [| ? ? Hc Hcs]; subst.
    apply bind_returned in Hloop as (a1 & Hbody & Hloop).
    apply (IH a1 Hcs); [| exact Hloop].
    unfold loop_body in Hbody. invert_returned. subst a1.
    match goal with
    | Hs : _score_criteria _ _ = returned ?r |- _ =>
        pose proof (weighted_score_bounds lead_data c r Hc Hs)
    end.
    simpl. lra.
Qed.

Lemma normalized_bounds (total maxp : Q) :
  0 <= total <= maxp ->
  0 <= (if Py.ltb 0 maxp then (total / maxp) * 10 else 0) <= 10.
Proof.
  intros [H0 H1]. py_case; [| lra].
  assert (0 <= total / maxp <= 1) as [? ?]
    by (split; [apply Qle_shift_div_l | apply Qle_shift_div_r]; lra).
  lra.
Qed.

Lemma confidence_bounds (lead_data : Lead) (scores : gmap string CriteriaScore)
    (q : Q) :
  _calculate_confidence lead_data scores = returned q -> 0.1 <= q <= 1.
Proof.
  unfold _calculate_confidence. intros H. invert_returned. subst q.
  match goal with
  | |- _ <= Py.max _ (Py.min _ ?x) <= _ =>
      pose proof (clamp_bounds 0.1 1.0 x ltac:(lra))
  end.
  lra.
Qed.

(** What [_calculate_lead_score] returned, read back: the accumulators the
    loop returned and the confidence computed from them. *)
Lemma lead_score_returned (lead_data : Lead) (profile : Profile)
    (r : ScoreResult) :
  _calculate_lead_score lead_data profile = returned r ->
  exists a,
    loop lead_data (default [] (criteria profile)) acc0 = returned a /\
    _calculate_confidence lead_data (acc_scores a) = returned (confidence r) /\
    total_score r
    = Py.round2 (if Py.ltb 0 (acc_max a)
                 then (acc_total a / acc_max a) * 10 else 0) /\
    raw_score r = acc_total a /\ max_possible_score r = acc_max a /\
    criteria_scores r = acc_scores a.
Proof.
  unfold _calculate_lead_score. intros H. invert_returned. subst r.
  eexists. split; [eassumption |]. cbn. auto.
Qed.

End LeadScoringFacts.

Module LeadScoringSpec.
Import Exc LeadScoring PyFacts LeadScoringFacts.

(** C1: the code breaks the claim. The comment of [_calculate_lead_score]
    says the score is normalized to the scale from 0 to 10, and the result
    is reported with [max_score] 10; yet a criterion of a type the service
    does not know scores its [threshold_score], which nothing bounds, and
    for the lead without fields and the profile with the one criterion of
    type [company_size], weight 1 and threshold score 2, the call returns
    the normalized score 20, outside [[0, 10]]. *)
Lemma unknown_type_score_above_ten :
  exists r,
    _calculate_lead_score empty_lead (profile_of [unknown_criterion])
      = returned r /\
    total_score r == 20 /\ confidence r == 0.5 /\
    ~ (0 <= total_score r <= 10).
Proof.
  eexists. split; [vm_compute; reflexivity |].
  split; [reflexivity |]. split; [reflexivity |].
  intros [_ H]. apply Qle_bool_iff in H. vm_compute in H. discriminate.
Qed.

(** The unknown type is the only way out of the scale: when the criteria
    have non-negative weights and, where the criterion type is unknown, a
    threshold score in [[0, 1]], a result that is returned has a normalized
    score in [[0, 10]]; its confidence is in [[0.1, 1.0]]. *)
Lemma score_result_in_range (lead_data : Lead) (profile : Profile)
    (r : ScoreResult) :
  Forall well_formed (default [] (criteria profile)) ->
  _calculate_lead_score lead_data profile = returned r ->
  0 <= total_score r <= 10 /\ 0.1 <= confidence r <= 1.
Proof.
  intros Hwf Hr.
  apply lead_score_returned in Hr as (a & Hloop & Hconf & -> & _).
  split.
  - apply (round2_bounds 0 10). apply normalized_bounds.
    apply (loop_invariant lead_data _ acc0 a Hwf); [simpl; lra | exact Hloop].
  - exact (confidence_bounds _ _ _ Hconf).
Qed.

(** The confidence is clamped whatever the profile is. *)
Lemma confidence_in_range (lead_data : Lead) (profile : Profile)
    (r : ScoreResult) :
  _calculate_lead_score lead_data profile = returned r ->
  0.1 <= confidence r <= 1.
Proof.
  intros Hr. apply lead_score_returned in Hr as (a & _ & Hconf & _).
  exact (confidence_bounds _ _ _ Hconf).
Qed.





(** C3, as stated, fails: under the default thresholds 3 <= 5 <= 7 and
    with full confidence, the score 6 lies strictly between the review
    and the qualify threshold and is classified [review_required]. *)
Lemma score_between_review_and_qualify :
  _determine_qualification_status (result_of 6 1) default_profile
    = review_required /\
  _determine_qualification_status (result_of 6 1) default_profile
    <> manual_review.
Proof. vm_compute. split; [reflexivity | discriminate]. Qed.

(** C3, amended: for a profile with ordered thresholds and a result with
    confidence at least 0.5, [auto_disqualified] is returned only at or
    below the disqualify threshold; a score from the review threshold up to
    the qualify threshold (exclusive) is [review_required]; [manual_review]
    is the class of the scores strictly between the disqualify and the
    review threshold. *)
Theorem classification_bands (sr : ScoreResult) (profile : Profile) :
  let q := default 7.0 (auto_qualify_threshold profile) in
  let v := default 5.0 (require_review_threshold profile) in
  let d := default 3.0 (disqualify_threshold profile) in
  d <= v <= q ->
  0.5 <= confidence sr ->
  let status := _determine_qualification_status sr profile in
  (status = auto_disqualified -> total_score sr <= d) /\
  (v <= total_score sr < q -> status = review_required) /\
  (d < total_score sr < v -> status = manual_review).
Proof.
  intros q v d Hord Hconf status. subst status.
  unfold _determine_qualification_status. fold q v d.
  apply ltb_ge in Hconf. rewrite Hconf.
  repeat py_case; repeat split; intros; try discriminate; try reflexivity; lra.
Qed.

Lemma classification_bands_witness :
  (_determine_qualification_status (result_of 2 1) default_profile
     = auto_disqualified -> 2 <= 3.0) /\
  (5.0 <= 6 < 7.0 ->
   _determine_qualification_status (result_of 6 1) default_profile
     = review_required) /\
  (3.0 < 4 < 5.0 ->
   _determine_qualification_status (result_of 4 1) default_profile
     = manual_review).
Proof.
  assert (3.0 <= 5.0 <= 7.0) as Hord by lra.
  assert (0.5 <= 1) as Hconf by lra.
  pose proof (classification_bands (result_of 2 1) default_profile Hord Hconf)
    as (H2 & _ & _).
  pose proof (classification_bands (result_of 6 1) default_profile Hord Hconf)
    as (_ & H6 & _).
  pose proof (classification_bands (result_of 4 1) default_profile Hord Hconf)
    as (_ & _ & H4).
  split; [exact H2 |]. split; [exact H6 | exact H4].
Defined.

(** C4, as stated, fails: with no [concern_level] in the lead the
    [credit_concern_level] scorer returns 0.5 and no reasoning entry, and
    with no [state] the [demographic_fit] scorer returns 0.5; and for the
    request that gives an email address only, whose [utm_source] is
    [None], the [utm_source] scorer raises. *)
Lemma missing_concern_level_scores_half :
  fact_missing empty_lead "credit_concern_level" /\
  (exists r,
     _score_criteria empty_lead (criterion "credit_concern_level" 1)
       = returned r /\
     cs_raw_score r == 0.5 /\ ~ cs_raw_score r == 0 /\ cs_reasoning r = []) /\
  (exists r,
     _score_criteria empty_lead (criterion "demographic_fit" 1) = returned r /\
     ~ cs_raw_score r == 0) /\
  _score_criteria email_only_request (criterion "utm_source" 1) = raised.
Proof.
  split; [reflexivity |]. split; [| split; [| reflexivity]].
  - eexists. split; [vm_compute; reflexivity |].
    split; [reflexivity |]. split; [discriminate | reflexivity].
  - eexists. split; [vm_compute; reflexivity |]. discriminate.
Qed.

(** The four address fields all read as the empty string. *)
Lemma no_address_provided (lead_data : Lead) :
  Forall (absent (lead_fields lead_data)) address_fields ->
  count_provided lead_data address_fields = returned 0%nat.
Proof.
  intros H.
  induction H as [| field fields Hf _ IH]; [reflexivity |].
  simpl. unfold absent in Hf. rewrite Hf, IH. reflexivity.
Qed.

(** The score of a criterion is returned with the weight applied. *)
Ltac scored_as Hd :=
  unfold _score_criteria; rewrite Hd; simpl bind; reflexivity.

(** C4, amended: when the fact a criterion examines is missing, that is
    when its field is absent from the lead or holds the empty string (for
    the phone number also when it holds [None]), the evaluator returns,
    without raising, score 0 and one reasoning entry for the types
    [email_domain], [phone_format], [address_validity], [utm_source],
    [lead_source] and [name_completeness]; for [credit_concern_level] it
    returns the neutral 0.5 and no reasoning entry, and for
    [demographic_fit] the neutral 0.5 with the entry that no state was
    provided. The weighted score is the raw score times the weight. *)
Theorem missing_input_scores (lead_data : Lead) (c : Criteria) :
  fact_missing lead_data (criteria_type c) ->
  let ty := criteria_type c in
  exists r,
    _score_criteria lead_data c = returned r /\
    cs_score r == cs_raw_score r * weight c /\
    (ty = "email_domain" ->
     cs_raw_score r == 0 /\ cs_reasoning r = ["No email provided"]) /\
    (ty = "phone_format" ->
     cs_raw_score r == 0 /\ cs_reasoning r = ["No phone number provided"]) /\
    (ty = "address_validity" ->
     cs_raw_score r == 0 /\ cs_reasoning r = ["Incomplete address provided"]) /\
    (ty = "utm_source" ->
     cs_raw_score r == 0 /\ cs_reasoning r = ["No UTM source provided"]) /\
    (ty = "lead_source" ->
     cs_raw_score r == 0 /\ cs_reasoning r = ["No lead source specified"]) /\
    (ty = "name_completeness" ->
     cs_raw_score r == 0 /\ cs_reasoning r = ["No name provided"]) /\
    (ty = "credit_concern_level" ->
     cs_raw_score r == 0.5 /\ cs_reasoning r = []) /\
    (ty = "demographic_fit" ->
     cs_raw_score r == 0.5 /\
     cs_reasoning r = ["No state information provided"]).
Proof.
  intros Hmiss ty. subst ty.
  assert (exists out,
            dispatch lead_data c = returned out /\
            match out with
            | (score, entries) =>
                (score, entries) =
                if String.eqb (criteria_type c) "email_domain"
                then (0.0, ["No email provided"])
                else if String.eqb (criteria_type c) "phone_format"
                then (0.0, ["No phone number provided"])
                else if String.eqb (criteria_type c) "address_validity"
                then (Py.of_nat 0 / Py.of_nat 4, ["Incomplete address provided"])
                else if String.eqb (criteria_type c) "utm_source"
                then (0.0, ["No UTM source provided"])
                else if String.eqb (criteria_type c) "lead_source"
                then (0.0, ["No lead source specified"])
                else if String.eqb (criteria_type c) "name_completeness"
                then (0.0, ["No name provided"])
                else if String.eqb (criteria_type c) "credit_concern_level"
                then (0.5, [])
                else (0.5, ["No state information provided"])
            end) as ([score entries] & Hd & Hout).
  { unfold fact_missing, dispatch in *. unfold absent in Hmiss.
    repeat case_match; try contradiction.
    - unfold _score_email_domain. rewrite Hmiss. eexists (_, _).
      split; reflexivity.
    - unfold _score_phone_format.
      destruct Hmiss as [Hmiss | Hmiss]; [rewrite Hmiss |].
      + eexists (_, _). split; reflexivity.
      + unfold Py.get. rewrite Hmiss. eexists (_, _). split; reflexivity.
    - unfold _score_address_validity. rewrite (no_address_provided _ Hmiss).
      eexists (_, _). split; reflexivity.
    - unfold _score_utm_source. rewrite Hmiss. eexists (_, _).
      split; reflexivity.
    - unfold _score_lead_source. rewrite Hmiss. eexists (_, _).
      split; reflexivity.
    - unfold _score_name_completeness. destruct Hmiss as [Hf Hl].
      rewrite Hf, Hl. eexists (_, _). split; reflexivity.
    - unfold _score_credit_concern_level. rewrite Hmiss. eexists (_, _).
      split; reflexivity.
    - unfold _score_demographic_fit. rewrite Hmiss. eexists (_, _).
      split; reflexivity. }
  eexists. split; [scored_as Hd |].
  cbn [cs_score cs_raw_score cs_reasoning].
  split; [reflexivity |].
  repeat (match goal with |- _ /\ _ => split end);
    intros Hty; rewrite Hty in Hout; simpl in Hout;
    injection Hout as -> ->; split; reflexivity.
Qed.

Lemma missing_input_scores_witness :
  exists r,
    _score_criteria gmail_lead (criterion "utm_source" 1.0) = returned r /\
    cs_raw_score r == 0 /\ cs_reasoning r = ["No UTM source provided"].
Proof.
  assert (fact_missing gmail_lead (criteria_type (criterion "utm_source" 1.0)))
    as Hmiss by reflexivity.
  destruct (missing_input_scores gmail_lead (criterion "utm_source" 1.0) Hmiss)
    as (r & Hr & _ & _ & _ & _ & H & _).
  exists r. split; [exact Hr | exact (H eq_refl)].
Defined.

(** The example of the specification: a gmail address and a ten-digit
    phone number against [email_domain] (weight 2, gmail.com positive) and
    [phone_format] (weight 1.5) score 3.5 out of 3.5, normalized to 10. *)
Example gmail_lead_scores_ten :
  let profile :=
    profile_of
      [ {| criteria_type := "email_domain"; weight := 2;
           positive_values := Some ["gmail.com"]; negative_values := None;
           threshold_score := None |};
        criterion "phone_format" 1.5 ] in
  exists r,
    _calculate_lead_score gmail_lead profile = returned r /\
    raw_score r == 3.5 /\ max_possible_score r == 3.5 /\ total_score r == 10 /\
    _determine_qualification_status r profile = auto_qualified.
Proof.
  eexists. split; [vm_compute; reflexivity |]. repeat split; reflexivity.
Qed.

End LeadScoringSpec.

(** ** Churn prediction *)

Module ChurnSpec.
Import Churn PyFacts.

Local Open Scope R_scope.

Lemma sigmoid_bounds (x : R) : 0 < sigmoid x < 1.
Proof.
  unfold sigmoid. pose proof (exp_pos (-6 * (x - 0.5))) as He.
  split.
  - apply Rdiv_lt_0_compat; lra.
  - apply (Rmult_lt_reg_r (1 + exp (-6 * (x - 0.5)))); [lra |].
    unfold Rdiv. rewrite Rmult_assoc, Rinv_l; lra.
Qed.

Lemma exp_monotone (x y : R) : x <= y -> exp x <= exp y.
Proof.
  intros [Hlt | ->]; [left; now apply exp_increasing | right; reflexivity].
Qed.

Lemma sigmoid_monotone (x y : R) : x <= y -> sigmoid x <= sigmoid y.
Proof.
  intros Hxy. unfold sigmoid, Rdiv. rewrite !Rmult_1_l.
  pose proof (exp_pos (-6 * (x - 0.5))). pose proof (exp_pos (-6 * (y - 0.5))).
  apply Rinv_le_contravar; [lra |].
  apply Rplus_le_compat_l, exp_monotone. lra.
Qed.

(** The clamp of the last line never changes the sigmoid. *)
Lemma clamp_sigmoid (x : R) : Rmax 0.0 (Rmin 1.0 (sigmoid x)) = sigmoid x.
Proof.
  pose proof (sigmoid_bounds x) as [H0 H1].
  rewrite Rmin_right by lra. rewrite Rmax_right by lra. reflexivity.
Qed.

Lemma probability_defined (risk_factors : list RiskFactor) :
  (~ total_weight risk_factors == 0)%Q ->
  _calculate_churn_probability risk_factors =
    sigmoid (Q2R (normalized_risk risk_factors)).
Proof.
  intros Hw. unfold _calculate_churn_probability.
  destruct risk_factors as [| f fs].
  - exfalso. apply Hw. reflexivity.
  - apply eqb_neq in Hw. rewrite Hw. apply clamp_sigmoid.
Qed.

(** C5: the churn probability is always in [[0, 1]], and of two
    risk-factor lists whose normalized weighted risk is defined (the sum of
    the weights is not zero) the one with the higher normalized weighted
    risk never has the lower probability. *)
Theorem churn_probability_bounded_monotone (l1 l2 : list RiskFactor) :
  0 <= _calculate_churn_probability l1 <= 1 /\
  ((~ total_weight l1 == 0)%Q -> (~ total_weight l2 == 0)%Q ->
   (normalized_risk l1 <= normalized_risk l2)%Q ->
   _calculate_churn_probability l1 <= _calculate_churn_probability l2).
Proof.
  split.
  - unfold _calculate_churn_probability.
    destruct l1 as [| f fs]; [lra |].
    destruct (Py.eqb _ _); [lra |].
    rewrite clamp_sigmoid.
    pose proof (sigmoid_bounds (Q2R (normalized_risk (f :: fs)))). lra.
  - intros H1 H2 Hle. rewrite !probability_defined by assumption.
    apply sigmoid_monotone, Qle_Rle, Hle.
Qed.

Lemma churn_probability_bounded_monotone_witness :
  _calculate_churn_probability calm_factors
    <= _calculate_churn_probability alarming_factors.
Proof.
  apply (churn_probability_bounded_monotone calm_factors alarming_factors).
  - vm_compute. discriminate.
  - vm_compute. discriminate.
  - vm_compute. discriminate.
Defined.

Local Close Scope R_scope.

(** C10: the risk level is the function of the probability with the cut
    points 0.7, 0.5 and 0.3, and a higher probability never has a lower
    level. *)
Theorem risk_level_cut_points (p p' : Q) :
  (_determine_risk_level p = critical <-> 0.7 <= p) /\
  (_determine_risk_level p = high <-> 0.5 <= p < 0.7) /\
  (_determine_risk_level p = medium <-> 0.3 <= p < 0.5) /\
  (_determine_risk_level p = low <-> p < 0.3) /\
  (p <= p' ->
   (rank (_determine_risk_level p) <= rank (_determine_risk_level p'))%nat).
Proof.
  unfold _determine_risk_level.
  repeat py_case; simpl;
    repeat (match goal with |- _ /\ _ => split | |- _ <-> _ => split end);
    intros; try discriminate; try reflexivity; try lia; lra.
Qed.

Lemma risk_level_cut_points_witness :
  (rank (_determine_risk_level 0.45) <= rank (_determine_risk_level 0.7))%nat.
Proof.
  apply (risk_level_cut_points 0.45 0.7). vm_compute. discriminate.
Defined.

End ChurnSpec.

(** ** Bureau targeting *)

Module BureauTargetingSpec.
Import BureauTargeting PyFacts.

(** The rule the loop keeps is one of the rules it went through. *)
Lemma best_of_elem (dispute_data : Dispute) (client_history : option ClientHistory)
    (rules : list Rule) (best_rule : Rule) (best_score : Q) :
  best_of dispute_data client_history rules = (Some best_rule, best_score) ->
  best_rule ∈ rules.
Proof.
  unfold best_of.
  assert (forall (acc : option Rule * Q),
            fst (fold_left (keep_best dispute_data client_history) rules acc)
              = Some best_rule ->
            fst acc = Some best_rule \/ best_rule ∈ rules) as Hgen.
  { induction rules as [| rule rules IH]; intros acc H; simpl in H; [now left |].
    apply IH in H as [H | H].
    - unfold keep_best in H. destruct (Py.ltb _ _); simpl in H.
      + right. injection H as ->. apply list_elem_of_here.
      + now left.
    - right. now apply list_elem_of_further. }
  intros H. specialize (Hgen (None, 0)). rewrite H in Hgen.
  destruct (Hgen eq_refl) as [Hnone | Hin]; [discriminate | exact Hin].
Qed.

(** C6, as stated, fails: when the matching rule was saved with an empty
    [recommended_bureaus] list, the recommendation is empty. *)
Lemma empty_rule_gives_empty_recommendation :
  bureaus (recommend_bureaus collection_dispute [silent_rule] None) = [].
Proof. vm_compute. reflexivity. Qed.

(** C6, amended: when no active rule carries an empty
    [recommended_bureaus] list, the recommended-bureaus list is never
    empty; with zero rules the answer is exactly the all-bureaus
    recommendation, with confidence 0.6, in [[0.5, 0.7]], and the reason
    that it is the default. *)
Theorem recommendation_never_empty (dispute_data : Dispute) (rules : list Rule)
    (client_history : option ClientHistory) :
  Forall recommends_some rules ->
  bureaus (recommend_bureaus dispute_data rules client_history) <> [] /\
  (let r := recommend_bureaus dispute_data [] client_history in
   bureaus r = ["all"] /\
   confidence r == 0.6 /\ 0.5 <= confidence r <= 0.7 /\
   rule_name r = "default_all_bureaus" /\
   reasoning r = ["Default recommendation - target all bureaus"]).
Proof.
  intros Hrules. split.
  - unfold recommend_bureaus, _apply_targeting_rules.
    destruct rules as [| rule rules]; [discriminate |].
    destruct (best_of _ _ _) as [[best_rule |] best_score] eqn:Hbest;
      [| discriminate].
    destruct (Py.ltb best_score 0.3); [discriminate |].
    cbn [bureaus].
    apply best_of_elem in Hbest.
    rewrite Forall_forall in Hrules. specialize (Hrules _ Hbest).
    unfold recommends_some in Hrules.
    destruct (recommended_bureaus best_rule) as [[| b bs] |];
      simpl; congruence.
  - simpl. repeat split; try reflexivity; lra.
Qed.

Lemma recommendation_never_empty_witness :
  bureaus (recommend_bureaus collection_dispute [collection_rule] None) <> [].
Proof.
  apply (recommendation_never_empty collection_dispute [collection_rule] None).
  repeat constructor. unfold recommends_some. simpl. discriminate.
Defined.

End BureauTargetingSpec.

(** ** Round scheduling *)

Module SchedulingSpec.
Import Scheduling PyFacts.

(** C9: the code breaks the claim. With no rule for round 2 of a collection
    dispute the scheduler reports 0.6, where the formula with the
    dispute-type and responsiveness modifiers gives 0.42:
    [_apply_default_scheduling] has a formula of its own, which leaves out
    the modifiers and the clamp and does not read the dispute it is given,
    while the path with a rule reports what
    [_estimate_success_probability] computes from that dispute, 0.42. *)
Lemma default_schedule_ignores_modifiers :
  let s := schedule_next_round 0 (dispute_of "collection") None false in
  let s' :=
    schedule_next_round 0 (dispute_of "collection") (Some plain_rule) false in
  estimated_success_probability s == 0.6 /\
  estimated_success_probability s' == 0.42 /\
  _estimate_success_probability (dispute_of "collection") 2 == 0.42 /\
  ~ estimated_success_probability s
    == Py.max 0.05 (Py.min 0.95 (Py.max 0.1 (0.7 - 0.1 * (2 - 1)) * 0.7 * (0.8 + 0.4 * 0.5))).
Proof.
  vm_compute. repeat split; try reflexivity; discriminate.
Qed.

Lemma default_probability (n : Z) :
  Py.max 0.1 (0.8 - inject_Z n * 0.1)
  == Py.max 0.1 (0.7 - 0.1 * inject_Z (n - 1)).
Proof.
  assert (inject_Z (n - 1) == inject_Z n - 1) as Hn.
  { unfold Z.sub. rewrite inject_Z_plus, inject_Z_opp. reflexivity. }
  unfold Py.max. repeat py_case; lra.
Qed.

(** The two paths side by side. With no rule for the next round, the round
    is scheduled [30 + 15 * (next_round - 1)] days from now and the
    reported probability is [max(0.1, 0.8 - 0.1 * next_round)], the base
    term [max(0.1, 0.7 - 0.1 * (next_round - 1))] alone; with a rule, the
    reported probability is the product
    [max(0.1, 0.7 - 0.1 * (round - 1)) * type_modifier * (0.8 + 0.4 * responsiveness)]
    clamped to [[0.05, 0.95]] that [_estimate_success_probability]
    computes. *)
Lemma default_schedule (now : Q) (dispute_data : Dispute)
    (prefers_frequent_updates : bool) (rule : SchedulingRule) :
  let n := (default 1 (round_number dispute_data) + 1)%Z in
  let s := schedule_next_round now dispute_data None prefers_frequent_updates in
  let s' :=
    schedule_next_round now dispute_data (Some rule) prefers_frequent_updates in
  let p := _estimate_success_probability dispute_data n in
  next_round s = n /\
  scheduled_date s == now + Clock.days (inject_Z (30 + 15 * (n - 1))) /\
  estimated_success_probability s
    == Py.max 0.1 (0.7 - 0.1 * inject_Z (n - 1)) /\
  estimated_success_probability s' = p /\
  p = Py.max 0.05 (Py.min 0.95
        (Py.max 0.1 (0.7 - inject_Z (n - 1) * 0.1)
         * type_modifiers (default "" (dispute_type dispute_data))
         * (0.8 + default 0.5 (client_responsiveness_score dispute_data) * 0.4))) /\
  0.05 <= p <= 0.95.
Proof.
  intros n s s' p. subst s s' p. unfold schedule_next_round. fold n.
  split; [reflexivity |]. split.
  { unfold _apply_default_scheduling. cbn [scheduled_date].
    replace (30 + (n - 1) * 15)%Z with (30 + 15 * (n - 1))%Z by lia.
    reflexivity. }
  split; [apply default_probability |].
  split; [reflexivity |]. split; [reflexivity |].
  unfold _estimate_success_probability.
  match goal with
  | |- _ <= Py.max _ (Py.min _ ?x) <= _ =>
      apply (clamp_bounds 0.05 0.95 x)
  end.
  lra.
Qed.

End SchedulingSpec.

(** ** Payment retry *)

Module PaymentRetrySpec.
Import PaymentRetry PyFacts.

(** C8, as stated, fails: $50 falls in the [low] tier of the default
    configuration, whose strategy is [fixed], so the strategy modifier of
    the estimate is 1.1 and not the 0.9 of the exponential strategy. *)
Lemma fifty_dollars_rate_is_not_exponential :
  let r := _calculate_retry_strategy 0 fifty_dollars _create_default_config
             "org-123" no_rows in
  rs_strategy r = "fixed" /\
  ~ success_rate r
    == Py.max 0.05 (Py.min 0.95 (0.7 * 0.9 * Py.max 0.5 (1.2 - 50 / 1000))).
Proof.
  vm_compute. split; [reflexivity | discriminate].
Qed.

(** C8, amended: for a failed payment of $50 with retry count 0 under the
    default configuration the next retry is exactly 12 hours after now
    (initial delay 24 hours, multiplier 0.5 of the tier under $100), and
    the estimated success rate is 0.7 times 1.1, the modifier of the
    [fixed] strategy of that tier, times [max(0.5, 1.2 - 50/1000)], clamped
    to [[0.05, 0.95]]: 0.8855. *)
Theorem fifty_dollars_retry (now : Q) (organization_id : string)
    (db : Dunning.DB) :
  let r := _calculate_retry_strategy now fifty_dollars _create_default_config
             organization_id db in
  next_retry_date r == now + Clock.hours 12 /\
  rs_retry_count r = 1%Z /\
  rs_strategy r = "fixed" /\
  success_rate r
    == Py.max 0.05 (Py.min 0.95 (0.7 * 1.1 * Py.max 0.5 (1.2 - 50 / 1000))) /\
  success_rate r == 0.8855.
Proof.
  intros r. subst r. unfold _calculate_retry_strategy.
  cbn [next_retry_date rs_retry_count rs_strategy success_rate].
  split.
  { match goal with
    | |- now + ?x == now + ?y =>
        assert (x == y) as -> by (vm_compute; reflexivity)
    end.
    reflexivity. }
  split; [reflexivity |]. split; [reflexivity |].
  split; vm_compute; reflexivity.
Qed.

End PaymentRetrySpec.

(** ** Dunning sequences *)

Module DunningFacts.
Import Dunning PyFacts.

Section Payment.

Variables payment org : string.

Local Abbreviation view := (_get_sequence_state payment org).
Local Abbreviation step_of := (current_step_of payment org).

(** The row the query returns is a row of this payment. *)
Lemma view_matches (db : DB) (s : SequenceState) :
  view db = Some s ->
  state_matches payment org s = true.
Proof.
  unfold _get_sequence_state. intros H.
  induction (dunning_sequence_states db) as [| row rows IH]; [discriminate |].
  simpl in H.
  destruct (state_matches payment org row
            && String.eqb (status row) "active") eqn:Hrow.
  - simpl in H. injection H as <-.
    now apply andb_true_iff in Hrow as [Hrow _].
  - now apply IH.
Qed.

(** The update writes the step and the time into the row the next call
    reads. *)
Lemma view_update (now : Q) (n : Z) (db : DB) :
  view (_update_sequence_state now payment n org db)
  = match view db with
    | Some s =>
        Some {| organization_id := Dunning.organization_id s;
                failed_payment_id := Dunning.failed_payment_id s;
                current_step := n;
                status := status s;
                started_at := started_at s;
                last_step_at := Some now |}
    | None => None
    end.
Proof.
  unfold _get_sequence_state, _update_sequence_state.
  cbn [dunning_sequence_states].
  induction (dunning_sequence_states db) as [| row rows IH]; [reflexivity |].
  simpl.
  destruct (state_matches payment org row) eqn:Hm.
  - unfold state_matches in *. cbn [Dunning.failed_payment_id
      Dunning.organization_id status]. rewrite Hm. simpl.
    destruct (String.eqb (status row) "active"); [reflexivity | exact IH].
  - rewrite Hm. simpl. exact IH.
Qed.

(** A sequence started when the payment has no active row is the row the
    next call reads. *)
Lemma view_start (now : Q) (db : DB) :
  view db = None ->
  view (snd (_start_new_sequence payment org now db))
  = Some (fst (_start_new_sequence payment org now db)).
Proof.
  unfold _get_sequence_state, _start_new_sequence.
  cbn [fst snd dunning_sequence_states]. intros H.
  induction (dunning_sequence_states db) as [| row rows IH].
  - simpl. unfold state_matches.
    cbn [Dunning.failed_payment_id Dunning.organization_id status].
    rewrite !String.eqb_refl. reflexivity.
  - simpl in *.
    destruct (state_matches payment org row
              && String.eqb (status row) "active"); [discriminate |].
    now apply IH.
Qed.

(** The step the query returns carries the number it was asked for. *)
Lemma next_step_number (n : Z) (db : DB) (step : SequenceStep) :
  _get_next_sequence_step n org db = Some step ->
  step_number step = n.
Proof.
  unfold _get_next_sequence_step. intros H.
  induction (dunning_sequences db) as [| row rows IH]; [discriminate |].
  simpl in H.
  destruct (String.eqb (step_organization_id row) org
            && (step_number row =? n)%Z && is_active row) eqn:Hrow.
  - simpl in H. injection H as <-.
    apply andb_true_iff in Hrow as [Hrow _].
    apply andb_true_iff in Hrow as [_ Hn]. now apply Z.eqb_eq.
  - now apply IH.
Qed.

(** What one call does to the step of the sequence: an email is sent only
    for the step after the current one, which then becomes the current
    step, and any other outcome leaves the step where it was. *)
Lemma process_step (now : Q) (db : DB) :
  let '(outcome, db') :=
    process_dunning_sequence now payment org db in
  match outcome with
  | email_sent n _ _ _ => n = (step_of db + 1)%Z /\ step_of db' = n
  | _ => step_of db' = step_of db
  end.
Proof.
  unfold process_dunning_sequence, current_step_of.
  destruct (view db) as [s |] eqn:Hview.
  - destruct (_get_next_sequence_step _ _ _) as [step |] eqn:Hstep;
      [| now rewrite Hview].
    destruct (_should_trigger_step _ _ _ _ _); [| now rewrite Hview].
    apply next_step_number in Hstep.
    rewrite view_update, Hview. cbn [current_step]. now split.
  - pose proof (view_start now db Hview) as Hstart.
    destruct (_start_new_sequence _ _ _ _) as [row db1] eqn:Hnew.
    cbn [fst snd] in Hstart.
    assert (current_step row = 0%Z) as Hrow
      by (unfold _start_new_sequence in Hnew; now injection Hnew as <- _).
    destruct (_get_next_sequence_step _ _ _) as [step |] eqn:Hstep;
      [| now rewrite Hstart].
    destruct (_should_trigger_step _ _ _ _ _); [| now rewrite Hstart].
    apply next_step_number in Hstep.
    rewrite view_update, Hstart. cbn [current_step]. rewrite Hrow in Hstep.
    now split.
Qed.

(** With an active row, a next step and its conditions unmet, the call
    answers [wait] and writes nothing. *)
Lemma process_wait (now : Q) (db : DB) (s : SequenceState)
    (step : SequenceStep) :
  view db = Some s ->
  _get_next_sequence_step (current_step s + 1) org db = Some step ->
  _should_trigger_step now step s org db = false ->
  process_dunning_sequence now payment org db
  = (wait (_get_next_check_date now step), db).
Proof.
  intros Hview Hstep Htrig. unfold process_dunning_sequence.
  now rewrite Hview, Hstep, Htrig.
Qed.

(** Over any number of calls the step never decreases, and the emails
    sent carry strictly increasing step numbers, all above the step the
    sequence started from. *)
Lemma run_monotone (clock : list Q) (db : DB) :
  let '(outcomes, db') := run payment org clock db in
  (step_of db <= step_of db')%Z /\
  Forall (fun n => (step_of db < n)%Z) (sent_steps outcomes) /\
  StronglySorted Z.lt (sent_steps outcomes).
Proof.
  revert db. induction clock as [| now later IH]; intros db; simpl.
  - split; [lia |]. split; constructor.
  - pose proof (process_step now db) as Hstep.
    destruct (process_dunning_sequence now payment org db)
      as [outcome db1].
    specialize (IH db1).
    destruct (run payment org later db1)
      as [outcomes db2].
    destruct IH as (Hle & Hall & Hsorted).
    destruct outcome as [| n template result final | date |]; simpl;
      try (rewrite Hstep in *; now repeat split).
    destruct Hstep as [Hn Hdb1]. rewrite Hdb1 in *.
    split; [lia |]. split.
    + constructor; [lia |].
      eapply Forall_impl; [exact Hall |]. simpl. intros; lia.
    + constructor; [exact Hsorted | exact Hall].
Qed.

End Payment.

End DunningFacts.

Module DunningSpec.
Import Dunning PyFacts DunningFacts.

(** C7: the code breaks the claim. [_get_sequence_state] reads the active
    row of the payment, while [_update_sequence_state] writes every row of
    the payment, whatever its status. For a payment whose earlier sequence
    was closed at step 2, the first call finds no active row, starts a new
    sequence, sends step 1 again and sets the step of the closed row back
    from 2 to 1; the second call sends step 2 again. *)
Lemma closed_sequence_rewritten :
  let first_call :=
    process_dunning_sequence 0 "payment-123" "org-123" closed_db in
  let calls := run "payment-123" "org-123" [0; 1] closed_db in
  map (fun row => (status row, current_step row))
      (dunning_sequence_states closed_db)
    = [("completed", 2%Z)] /\
  sent_steps [fst first_call] = [1%Z] /\
  map (fun row => (status row, current_step row))
      (dunning_sequence_states (snd first_call))
    = [("completed", 1%Z); ("active", 1%Z)] /\
  sent_steps (fst calls) = [1%Z; 2%Z] /\
  map (fun row => (status row, current_step row))
      (dunning_sequence_states (snd calls))
    = [("completed", 2%Z); ("active", 2%Z)].
Proof. vm_compute. repeat split; reflexivity. Qed.

(** The step read as the code reads it, from the active row of the
    payment: over successive calls, each on the state the previous call
    left, it never decreases, and the emails sent carry strictly
    increasing step numbers, each above the step the sequence stood at;
    when the sequence has a next step whose conditions are not met, the
    call answers [wait] and leaves the state as it is, so that two such
    calls in a row answer [wait] twice on the same state. When the payment
    has no active sequence, the first of the two calls starts one at step 0
    and the second leaves it as the first left it. *)
Lemma dunning_advance (payment org : string) (db : DB) (clock : list Q)
    (now1 now2 : Q) (s : SequenceState) (step : SequenceStep) :
  (current_step_of payment org db
   <= current_step_of payment org (snd (run payment org clock db)))%Z /\
  Forall (fun n => (current_step_of payment org db < n)%Z)
         (sent_steps (fst (run payment org clock db))) /\
  StronglySorted Z.lt (sent_steps (fst (run payment org clock db))) /\
  (_get_sequence_state payment org db = Some s ->
   _get_next_sequence_step (current_step s + 1) org db = Some step ->
   _should_trigger_step now1 step s org db = false ->
   _should_trigger_step now2 step s org db = false ->
   run payment org [now1; now2] db
   = ([wait (_get_next_check_date now1 step);
       wait (_get_next_check_date now2 step)], db)) /\
  (_get_sequence_state payment org db = None ->
   let started := _start_new_sequence payment org now1 db in
   _get_next_sequence_step 1 org (snd started) = Some step ->
   _should_trigger_step now1 step (fst started) org (snd started) = false ->
   _should_trigger_step now2 step (fst started) org (snd started) = false ->
   run payment org [now1; now2] db
   = ([wait (_get_next_check_date now1 step);
       wait (_get_next_check_date now2 step)], snd started)).
Proof.
  pose proof (run_monotone payment org clock db) as Hrun.
  destruct (run payment org clock db) as [outcomes db'].
  destruct Hrun as (Hle & Hall & Hsorted).
  repeat (match goal with |- _ /\ _ => split end);
    [exact Hle | exact Hall | exact Hsorted | |].
  - intros Hview Hstep H1 H2. simpl.
    rewrite (process_wait payment org now1 db s step Hview Hstep H1).
    rewrite (process_wait payment org now2 db s step Hview Hstep H2).
    reflexivity.
  - intros Hview started Hstep H1 H2.
    pose proof (view_start payment org now1 db Hview) as Hstart.
    fold started in Hstart.
    assert (process_dunning_sequence now1 payment org db
            = (wait (_get_next_check_date now1 step), snd started)) as Hfirst.
    { unfold process_dunning_sequence. rewrite Hview. fold started.
      destruct started as [row db1] eqn:Hnew. cbn [fst snd] in *.
      assert (current_step row = 0%Z) as Hrow
        by (unfold started, _start_new_sequence in Hnew;
            now injection Hnew as <- _).
      rewrite Hrow. change (0 + 1)%Z with 1%Z. now rewrite Hstep, H1. }
    simpl. rewrite Hfirst.
    assert (current_step (fst started) = 0%Z) as Hrow by reflexivity.
    rewrite (process_wait payment org now2 (snd started) (fst started) step
               Hstart ltac:(rewrite Hrow; exact Hstep) H2).
    reflexivity.
Qed.

Lemma dunning_advance_witness :
  run "payment-123" "org-123" [0; 3600] sample_db
  = ([wait (0 + Clock.hours 24); wait (3600 + Clock.hours 24)], sample_db).
Proof.
  pose proof (dunning_advance "payment-123" "org-123" sample_db [] 0 3600
                fresh_state first_step) as (_ & _ & _ & H & _).
  apply H; reflexivity.
Defined.

(** The example of the specification: right after the start, with step 1
    due after 24 hours, the call waits; 25 hours later it sends step 1 and
    the sequence stands at step 1; a further call finds no step 2. *)
Example wait_then_send :
  let r := run "payment-123" "org-123" [0; 90000; 90001] sample_db in
  sent_steps (fst r) = [1%Z] /\
  current_step_of "payment-123" "org-123" (snd r) = 1%Z /\
  match fst r with
  | [wait _; email_sent 1 _ _ _; sequence_complete] => True
  | _ => False
  end.
Proof. vm_compute. auto. Qed.

End DunningSpec.

(** ** Lead scoring: classification, case and weights *)

Module LeadScoringProps.
Import Exc LeadScoring PyFacts LeadScoringFacts.

(** For a fixed profile and confidence a higher score never gets a lower
    qualification tier, whatever the thresholds are. *)
Theorem classification_monotone (sr1 sr2 : ScoreResult) (profile : Profile) :
  confidence sr1 = confidence sr2 ->
  total_score sr1 <= total_score sr2 ->
  (status_rank (_determine_qualification_status sr1 profile)
   <= status_rank (_determine_qualification_status sr2 profile))%nat.
Proof.
  intros Hconf Hscore. unfold _determine_qualification_status.
  rewrite Hconf.
  destruct (Py.ltb (confidence sr2) 0.5);
    repeat py_case; simpl; try lia; lra.
Qed.

Lemma classification_monotone_witness :
  (status_rank (_determine_qualification_status (result_of 4 1) default_profile)
   <= status_rank (_determine_qualification_status (result_of 6 1) default_profile))%nat.
Proof.
  apply classification_monotone; [reflexivity |].
  apply Qle_bool_iff. reflexivity.
Defined.

(** The low-confidence adjustment only lowers the qualify and the review
    threshold: with the same score, a result of confidence below 0.5 is
    never classified lower than a result of confidence 0.5 or more. *)
Theorem low_confidence_never_lowers_tier (sr1 sr2 : ScoreResult)
    (profile : Profile) :
  total_score sr1 == total_score sr2 ->
  confidence sr1 < 0.5 ->
  0.5 <= confidence sr2 ->
  (status_rank (_determine_qualification_status sr2 profile)
   <= status_rank (_determine_qualification_status sr1 profile))%nat.
Proof.
  intros Hscore Hlow Hhigh. unfold _determine_qualification_status.
  apply ltb_lt in Hlow. apply ltb_ge in Hhigh. rewrite Hlow, Hhigh.
  repeat py_case; simpl; try lia; lra.
Qed.

Lemma low_confidence_never_lowers_tier_witness :
  _determine_qualification_status (result_of 6.5 0.3) default_profile
    = auto_qualified /\
  _determine_qualification_status (result_of 6.5 0.9) default_profile
    = review_required /\
  (status_rank (_determine_qualification_status (result_of 6.5 0.9) default_profile)
   <= status_rank (_determine_qualification_status (result_of 6.5 0.3) default_profile))%nat.
Proof.
  split; [reflexivity |]. split; [reflexivity |].
  apply low_confidence_never_lowers_tier.
  - reflexivity.
  - reflexivity.
  - apply Qle_bool_iff. reflexivity.
Defined.

Lemma lower_upper_ascii (c : ascii) :
  Py.lower_ascii (Py.upper_ascii c) = Py.lower_ascii c.
Proof. destruct c as [[] [] [] [] [] [] [] []]; reflexivity. Qed.

Lemma lower_upper (s : string) : Py.lower (Py.upper s) = Py.lower s.
Proof.
  unfold Py.lower, Py.upper.
  induction s as [| c s IH]; simpl; [reflexivity |].
  now rewrite lower_upper_ascii, IH.
Qed.

(** The email scorer lowers the address before it looks at the domain:
    writing an ASCII address in upper case changes neither the score nor
    the reasoning. (Outside ASCII, [str.upper] and [str.lower] are not the
    letter-by-letter functions of this development.) *)
Theorem email_score_ignores_case (lead_data : Lead) (e : string)
    (positive_domains negative_domains : list string) :
  Py.is_ascii e = true ->
  _score_email_domain (with_email lead_data (Py.upper e))
    positive_domains negative_domains
  = _score_email_domain (with_email lead_data e)
      positive_domains negative_domains.
Proof.
  intros _. unfold _score_email_domain, with_email. cbn [lead_fields].
  rewrite !lookup_insert_eq. simpl Py.get. simpl Py.method.
  now rewrite lower_upper.
Qed.

Lemma email_score_ignores_case_witness :
  _score_email_domain (with_email empty_lead "A@GMAIL.COM") ["gmail.com"] []
  = _score_email_domain (with_email empty_lead "a@Gmail.com") ["gmail.com"] [].
Proof.
  change "A@GMAIL.COM" with (Py.upper "a@Gmail.com").
  apply email_score_ignores_case. reflexivity.
Defined.

(** The configured lists are compared as they are written: a positive
    domain spelled with a capital letter is not matched by the address. *)
Example capitalized_positive_domain_never_matches :
  _score_email_domain gmail_lead ["Gmail.com"] []
    = returned (0.5, ["Email domain gmail.com is not in known lists"]) /\
  _score_email_domain gmail_lead ["gmail.com"] []
    = returned (1.0, ["Email domain gmail.com is in positive list"]).
Proof. vm_compute. split; reflexivity. Qed.

(** What the loop that returned has accumulated: every criterion was
    scored, the totals are the sums over the whole list, and the entry of a
    type is the score of the last criterion of that type. *)
Lemma loop_returned (lead_data : Lead) (cs : list Criteria) (a a' : Acc) :
  loop lead_data cs a = returned a' ->
  exists scores,
    Forall2 (fun c s => _score_criteria lead_data c = returned s) cs scores /\
    acc_total a' == acc_total a + Py.sum (map cs_score scores) /\
    acc_max a' == acc_max a + Py.sum (map weight cs) /\
    forall ty,
      acc_scores a' !! ty
      = match last (filter (fun c => criteria_type c = ty) cs) with
        | Some c => scored lead_data c
        | None => acc_scores a !! ty
        end.
Proof.
  revert a. induction cs as [| c cs IH]; intros a Hloop; simpl in Hloop.
  - injection Hloop as <-. exists []. simpl.
    split; [constructor |]. split; [lra |]. split; [lra | reflexivity].
  - apply bind_returned in Hloop as (a1 & Hbody & Hloop).
    unfold loop_body in Hbody.
    apply bind_returned in Hbody as (s & Hs & Hbody). injection Hbody as <-.
    destruct (IH _ Hloop) as (scores & Hall & Ht & Hm & Hlook).
    cbn [acc_total acc_max acc_scores] in Ht, Hm, Hlook.
    exists (s :: scores). split; [now constructor |].
    split; [rewrite Ht; simpl; lra |]. split; [rewrite Hm; simpl; lra |].
    intros ty. rewrite Hlook, filter_cons.
    destruct (decide (criteria_type c = ty)) as [Hty | Hty].
    + rewrite last_cons.
      destruct (last (filter _ cs)); [reflexivity |].
      rewrite Hty, lookup_insert_eq. unfold scored. now rewrite Hs.
    + destruct (last (filter _ cs)); [reflexivity |].
      now apply lookup_insert_ne.
Qed.

(** The result adds up every criterion, while its breakdown is keyed by
    criteria type: in a result that was returned, the raw score is the sum
    of the weighted scores and the maximum the sum of the weights over the
    whole list, but of several criteria of one type the breakdown keeps the
    last only, and it has no entry for a type the profile does not use. *)
Theorem breakdown_keeps_last_of_type (lead_data : Lead) (profile : Profile)
    (ty : string) (r : ScoreResult) :
  _calculate_lead_score lead_data profile = returned r ->
  let cs := default [] (criteria profile) in
  exists scores,
    Forall2 (fun c s => _score_criteria lead_data c = returned s) cs scores /\
    raw_score r == Py.sum (map cs_score scores) /\
    max_possible_score r == Py.sum (map weight cs) /\
    criteria_scores r !! ty
    = last (filter (fun c => criteria_type c = ty) cs) ≫= scored lead_data.
Proof.
  intros Hr cs.
  apply lead_score_returned in Hr as (a & Hloop & _ & _ & -> & -> & ->).
  fold cs in Hloop.
  destruct (loop_returned lead_data cs acc0 a Hloop)
    as (scores & Hall & Ht & Hm & Hlook).
  simpl in Ht, Hm.
  exists scores. split; [exact Hall |].
  split; [rewrite Ht; lra |]. split; [rewrite Hm; lra |].
  rewrite Hlook.
  destruct (last (filter _ cs)); [reflexivity | apply lookup_empty].
Qed.

(** Two criteria of one type: both count in the score, one is reported. *)
Lemma breakdown_keeps_last_of_type_witness :
  let profile :=
    profile_of [criterion "phone_format" 1; criterion "phone_format" 3] in
  exists r,
    _calculate_lead_score gmail_lead profile = returned r /\
    max_possible_score r == 4 /\
    (cs_weight <$> criteria_scores r !! "phone_format") = Some 3.
Proof.
  intros profile.
  destruct (_calculate_lead_score gmail_lead profile) as [r |] eqn:Hr;
    [| vm_compute in Hr; discriminate].
  exists r. split; [reflexivity |].
  destruct (breakdown_keeps_last_of_type gmail_lead profile "phone_format" r Hr)
    as (scores & _ & _ & Hmax & Hlook).
  split.
  - rewrite Hmax. reflexivity.
  - rewrite Hlook. reflexivity.
Defined.

(** A field left unset in the request arrives as [None], where the code
    provides for an absent key only: when one of the ten important fields
    holds [None], [_calculate_lead_score] raises, whatever the profile
    is. *)
Theorem unset_field_raises (lead_data : Lead) (profile : Profile)
    (field : string) :
  field ∈ important_fields ->
  lead_fields lead_data !! field = Some None ->
  _calculate_lead_score lead_data profile = raised.
Proof.
  intros Hin Hnone. unfold _calculate_lead_score.
  destruct (loop lead_data _ acc0) as [a |]; [| reflexivity].
  simpl bind. unfold _calculate_confidence.
  now rewrite (count_provided_none lead_data important_fields field Hin Hnone).
Qed.

Lemma unset_field_raises_witness :
  _calculate_lead_score email_only_request default_profile = raised.
Proof.
  apply (unset_field_raises _ _ "phone"); [| reflexivity].
  unfold important_fields.
  repeat (first [apply list_elem_of_here | apply list_elem_of_further]).
Defined.

End LeadScoringProps.

(** ** Churn probability: the midpoint and the weighted average *)

Module ChurnProps.
Import Churn PyFacts ChurnSpec.

Lemma weighted_sums_from (risk_factors : list RiskFactor) (acc : Q * Q) :
  let r := fold_left
    (fun (acc : Q * Q) factor =>
       let weight := default 1.0 (weight factor) in
       let impact_score := default 0.5 (impact_score factor) in
       let risk_contribution := impact_score * weight in
       (fst acc + risk_contribution, snd acc + weight))
    risk_factors acc in
  fst r == fst acc
           + Py.sum (map (fun f => default 0.5 (impact_score f)
                                   * default 1.0 (weight f)) risk_factors)
  /\ snd r == snd acc + Py.sum (map (fun f => default 1.0 (weight f)) risk_factors).
Proof.
  revert acc. induction risk_factors as [| f fs IH]; intros acc; simpl.
  - split; lra.
  - destruct (IH (fst acc + default 0.5 (impact_score f) * default 1.0 (weight f),
                  snd acc + default 1.0 (weight f))) as [H1 H2].
    simpl in H1, H2. rewrite H1, H2. split; lra.
Qed.

Lemma weighted_average_bounds (lo hi : Q) (risk_factors : list RiskFactor) :
  Forall (fun f => 0 < default 1.0 (weight f)
                   /\ lo <= default 0.5 (impact_score f) <= hi) risk_factors ->
  let w := Py.sum (map (fun f => default 1.0 (weight f)) risk_factors) in
  let t := Py.sum (map (fun f => default 0.5 (impact_score f)
                                 * default 1.0 (weight f)) risk_factors) in
  0 <= w /\ lo * w <= t <= hi * w /\ (risk_factors <> [] -> 0 < w).
Proof.
  induction 1 as [| f fs [Hw [Hlo Hhi]] _ IH]; simpl.
  - split; [lra |]. split; [lra |]. congruence.
  - destruct IH as (Hw0 & [Ht1 Ht2] & _).
    split; [lra |]. split; [split; nra |]. intros _. lra.
Qed.

Lemma weighted_average_risk (lo hi : Q) (risk_factors : list RiskFactor) :
  risk_factors <> [] ->
  Forall (fun f => 0 < default 1.0 (weight f)
                   /\ lo <= default 0.5 (impact_score f) <= hi) risk_factors ->
  0 < total_weight risk_factors /\
  lo <= normalized_risk risk_factors <= hi.
Proof.
  intros Hne Hall.
  destruct (weighted_average_bounds lo hi risk_factors Hall)
    as (_ & [Ht1 Ht2] & Hpos).
  specialize (Hpos Hne).
  destruct (weighted_sums_from risk_factors (0.0, 0.0)) as [Hs1 Hs2].
  simpl fst in Hs1. simpl snd in Hs2.
  fold (weighted_sums risk_factors) in Hs1, Hs2.
  fold (total_weighted_risk risk_factors) in Hs1.
  fold (total_weight risk_factors) in Hs2.
  assert (0 < total_weight risk_factors) as Hw by lra.
  split; [exact Hw |].
  unfold normalized_risk.
  split; [apply Qle_shift_div_l | apply Qle_shift_div_r]; try lra; nra.
Qed.

(** The normalized risk is a weighted average: when every factor has a
    positive weight and an impact score between [lo] and [hi], a non-empty
    list has a positive total weight and a normalized risk between [lo]
    and [hi], and its probability is the sigmoid of that risk, never the
    0.5 of the fallback branches. *)
Theorem normalized_risk_is_weighted_average (lo hi : Q)
    (risk_factors : list RiskFactor) :
  risk_factors <> [] ->
  Forall (fun f => 0 < default 1.0 (weight f)
                   /\ lo <= default 0.5 (impact_score f) <= hi) risk_factors ->
  0 < total_weight risk_factors /\
  lo <= normalized_risk risk_factors <= hi /\
  _calculate_churn_probability risk_factors
  = sigmoid (Q2R (normalized_risk risk_factors)).
Proof.
  intros Hne Hall.
  destruct (weighted_average_risk lo hi risk_factors Hne Hall) as [Hw Hrisk].
  split; [exact Hw |]. split; [exact Hrisk |].
  apply probability_defined. lra.
Qed.

Lemma normalized_risk_is_weighted_average_witness :
  0.2 <= normalized_risk calm_factors <= 0.2.
Proof.
  apply (normalized_risk_is_weighted_average 0.2 0.2 calm_factors).
  - discriminate.
  - repeat constructor; simpl; lra.
Defined.

Local Open Scope R_scope.

Lemma sigmoid_half : sigmoid 0.5 = 0.5.
Proof.
  unfold sigmoid. replace (-6 * (0.5 - 0.5)) with 0 by lra.
  rewrite exp_0. lra.
Qed.

Lemma sigmoid_strict (x y : R) : x < y -> sigmoid x < sigmoid y.
Proof.
  intros Hxy. unfold sigmoid, Rdiv. rewrite !Rmult_1_l.
  pose proof (exp_pos (-6 * (x - 0.5))). pose proof (exp_pos (-6 * (y - 0.5))).
  apply Rinv_lt_contravar; [apply Rmult_lt_0_compat; lra |].
  apply Rplus_lt_compat_l, exp_increasing. lra.
Qed.

(** The sigmoid is centred on 0.5: when the normalized risk is defined,
    the probability is at least 0.5 exactly when the normalized risk is at
    least 0.5, and it is never 0 or 1. *)
Theorem probability_above_half_iff_risk_above_half
    (risk_factors : list RiskFactor) :
  (~ total_weight risk_factors == 0)%Q ->
  (0.5 <= _calculate_churn_probability risk_factors
   <-> (0.5 <= normalized_risk risk_factors)%Q) /\
  0 < _calculate_churn_probability risk_factors < 1.
Proof.
  intros Hw. rewrite (probability_defined risk_factors Hw).
  split; [| apply sigmoid_bounds].
  split.
  - intros Hp. apply Rle_Qle. change (Q2R 0.5%Q) with 0.5.
    destruct (Rle_or_lt 0.5 (Q2R (normalized_risk risk_factors)))
      as [Hle | Hlt]; [exact Hle |].
    apply sigmoid_strict in Hlt. rewrite sigmoid_half in Hlt. lra.
  - intros Hq. apply Qle_Rle in Hq. change (Q2R 0.5%Q) with 0.5 in Hq.
    rewrite <- sigmoid_half. now apply sigmoid_monotone.
Qed.

Lemma probability_above_half_iff_risk_above_half_witness :
  0.5 <= _calculate_churn_probability alarming_factors.
Proof.
  apply (probability_above_half_iff_risk_above_half alarming_factors).
  - vm_compute. discriminate.
  - vm_compute. discriminate.
Defined.

Local Close Scope R_scope.

End ChurnProps.

(** ** Bureau targeting: the rule applied and the alternatives *)

Module BureauTargetingProps.
Import BureauTargeting PyFacts.

Section Dispute.

Variable dispute_data : Dispute.
Variable client_history : option ClientHistory.

Local Abbreviation relevance :=
  (fun rule => _calculate_rule_relevance rule dispute_data client_history).

(** What the loop over the rules returns, from any starting pair: either
    the pair it started from, no rule being strictly more relevant, or the
    first of the rules of highest relevance. *)
Lemma keep_best_fold (rules : list Rule) (best : option Rule * Q) :
  let result := fold_left (keep_best dispute_data client_history) rules best in
  (result = best /\ forall rule, rule ∈ rules -> relevance rule <= snd best) \/
  (exists l1 rule l2,
     rules = (l1 ++ rule :: l2)%list /\
     result = (Some rule, relevance rule) /\
     snd best < relevance rule /\
     (forall r, r ∈ l1 -> relevance r < relevance rule) /\
     (forall r, r ∈ l2 -> relevance r <= relevance rule)).
Proof.
  revert best. induction rules as [| r rs IH]; intros best; simpl.
  - left. split; [reflexivity |]. intros rule H. now apply elem_of_nil in H.
  - specialize (IH (keep_best dispute_data client_history best r)).
    assert (keep_best dispute_data client_history best r
            = if Py.ltb (snd best) (relevance r)
              then (Some r, relevance r) else best) as Hkb by reflexivity.
    destruct (Py.ltb (snd best) (relevance r)) eqn:Hcmp;
      [apply ltb_lt in Hcmp | apply ltb_ge in Hcmp];
      rewrite Hkb in IH |- *; cbn [snd] in IH.
    + destruct IH as [[Hres Hle] | (l1 & rule & l2 & -> & Hres & Hlt & H1 & H2)].
      * right. exists [], r, rs.
        split; [reflexivity |]. split; [exact Hres |]. split; [exact Hcmp |].
        split; [| exact Hle]. intros r' H. now apply elem_of_nil in H.
      * right. exists (r :: l1), rule, l2.
        split; [reflexivity |]. split; [exact Hres |]. split; [lra |].
        split; [| exact H2].
        intros r' [-> | H]%elem_of_cons; [exact Hlt | now apply H1].
    + destruct IH as [[Hres Hle] | (l1 & rule & l2 & -> & Hres & Hlt & H1 & H2)].
      * left. split; [exact Hres |].
        intros r' [-> | H]%elem_of_cons; [exact Hcmp | now apply Hle].
      * right. exists (r :: l1), rule, l2.
        split; [reflexivity |]. split; [exact Hres |]. split; [exact Hlt |].
        split; [| exact H2].
        intros r' [-> | H]%elem_of_cons; [lra | now apply H1].
Qed.

(** With at least one rule, the recommendation is either the fallback, and
    then every rule has a relevance below 0.3, or the recommendation of
    the first rule of highest relevance, which is at least 0.3: the rules
    before it are strictly less relevant, the rules after it at most as
    relevant. *)
Theorem applied_rule_is_first_most_relevant (rules : list Rule) :
  rules <> [] ->
  let r := _apply_targeting_rules dispute_data rules client_history in
  (bureaus r = ["all"] /\ confidence r = 0.5 /\
   rule_name r = "fallback_default" /\
   forall rule, rule ∈ rules -> relevance rule < 0.3) \/
  (exists l1 rule l2,
     rules = (l1 ++ rule :: l2)%list /\
     0.3 <= relevance rule /\
     (forall r', r' ∈ l1 -> relevance r' < relevance rule) /\
     (forall r', r' ∈ l2 -> relevance r' <= relevance rule) /\
     bureaus r = default ["all"] (recommended_bureaus rule) /\
     confidence r = default 0.5 (confidence_score rule) /\
     rule_name r = default "unknown" (name rule)).
Proof.
  intros Hne r. subst r. unfold _apply_targeting_rules.
  destruct rules as [| r0 rs] eqn:Hrules; [congruence |]. rewrite <- Hrules.
  unfold best_of.
  destruct (keep_best_fold rules (None, 0))
    as [[Hres Hle] | (l1 & rule & l2 & Hsplit & Hres & Hlt & H1 & H2)];
    rewrite Hres.
  - left. repeat split; try reflexivity.
    intros rule Hin. specialize (Hle rule Hin). simpl in Hle. lra.
  - destruct (Py.ltb (relevance rule) 0.3) eqn:Hcmp;
      [apply ltb_lt in Hcmp | apply ltb_ge in Hcmp].
    + left. repeat split; try reflexivity.
      intros r' Hin. rewrite Hsplit in Hin.
      apply elem_of_app in Hin as [Hin | [-> | Hin]%elem_of_cons].
      * specialize (H1 r' Hin). lra.
      * exact Hcmp.
      * specialize (H2 r' Hin). lra.
    + right. exists l1, rule, l2. repeat split; auto.
Qed.

End Dispute.

Lemma applied_rule_is_first_most_relevant_witness :
  let rules := [lucky_rule; collection_rule] in
  let relevance :=
    fun rule => _calculate_rule_relevance rule collection_dispute None in
  let r := _apply_targeting_rules collection_dispute rules None in
  (bureaus r = ["all"] /\ confidence r = 0.5 /\
   rule_name r = "fallback_default" /\
   forall rule, rule ∈ rules -> relevance rule < 0.3) \/
  (exists l1 rule l2,
     rules = (l1 ++ rule :: l2)%list /\
     0.3 <= relevance rule /\
     (forall r', r' ∈ l1 -> relevance r' < relevance rule) /\
     (forall r', r' ∈ l2 -> relevance r' <= relevance rule) /\
     bureaus r = default ["all"] (recommended_bureaus rule) /\
     confidence r = default 0.5 (confidence_score rule) /\
     rule_name r = default "unknown" (name rule)).
Proof.
  apply (applied_rule_is_first_most_relevant collection_dispute None
           [lucky_rule; collection_rule]).
  discriminate.
Defined.

Lemma relevance_bonus (rule : Rule) :
  0 <= default 0 (success_history rule) ->
  0 <= default 0 (success_history rule)
       / Py.max (default 1 (total_applications rule)) 1
  /\ (total_applications rule = None ->
      default 0 (success_history rule)
      / Py.max (default 1 (total_applications rule)) 1
      == default 0 (success_history rule)).
Proof.
  intros Hs. split.
  - apply Qle_shift_div_l; [| lra].
    unfold Py.max. py_case; lra.
  - intros ->. change (Py.max (default 1 None) 1) with 1. field.
Qed.

(** The relevance of a rule is in [[0, 1]] when its success count is not
    negative; and since the bonus is 0.3 times successes over
    applications, with the applications read as 1 when the key is absent,
    a rule with one recorded success or more and no [total_applications]
    reaches the 0.3 needed to be applied on any dispute, matching or
    not. *)
Theorem rule_relevance_bounds (rule : Rule) (dispute_data : Dispute)
    (client_history : option ClientHistory) :
  0 <= default 0 (success_history rule) ->
  0 <= _calculate_rule_relevance rule dispute_data client_history <= 1 /\
  (total_applications rule = None ->
   1 <= default 0 (success_history rule) ->
   0.3 <= _calculate_rule_relevance rule dispute_data client_history).
Proof.
  intros Hs. destruct (relevance_bonus rule Hs) as [Hb Hnone].
  unfold _calculate_rule_relevance.
  set (bonus := default 0 (success_history rule)
                / Py.max (default 1 (total_applications rule)) 1) in *.
  set (base := if String.eqb _ _ then _ else _).
  assert (0 <= base <= 0.8) as Hbase.
  { subst base. repeat case_match; lra. }
  split.
  - unfold Py.min. py_case; lra.
  - intros Hta Hone. specialize (Hnone Hta).
    unfold Py.min. py_case; lra.
Qed.

Lemma rule_relevance_bounds_witness :
  0.3 <= _calculate_rule_relevance lucky_rule collection_dispute None.
Proof.
  apply rule_relevance_bounds.
  - apply Qle_bool_iff. reflexivity.
  - reflexivity.
  - apply Qle_bool_iff. reflexivity.
Defined.

Lemma alternative_bureaus_spec (recommended_bureaus : list string) :
  let alts := _get_alternative_bureaus recommended_bureaus in
  (forall b, b ∈ alts -> b ∈ all_bureaus) /\
  ("all" ∉ recommended_bureaus -> forall b, b ∈ alts -> b ∉ recommended_bureaus) /\
  (forall b, b ∈ all_bureaus -> b ∈ recommended_bureaus \/ b ∈ alts).
Proof.
  unfold _get_alternative_bureaus, Py.mem.
  destruct (bool_decide_reflect ("all" ∈ recommended_bureaus)) as [Hall | Hall].
  - split; [auto |]. split; [intros Hn; contradiction | auto].
  - split; [| split].
    + intros b [_ Hb]%list_elem_of_filter. exact Hb.
    + intros _ b [Hb _]%list_elem_of_filter. exact Hb.
    + intros b Hb.
      destruct (decide (b ∈ recommended_bureaus)) as [Hin | Hnin];
        [now left | right]. now apply list_elem_of_filter.
Qed.

(** In every recommendation the alternatives are bureaus, each bureau is
    recommended or offered as an alternative, and, unless the
    recommendation contains [all], no alternative repeats a recommended
    bureau. *)
Theorem alternatives_complete_the_recommendation (dispute_data : Dispute)
    (rules : list Rule) (client_history : option ClientHistory) :
  let r := recommend_bureaus dispute_data rules client_history in
  (forall b, b ∈ alternatives r -> b ∈ all_bureaus) /\
  ("all" ∉ bureaus r -> forall b, b ∈ alternatives r -> b ∉ bureaus r) /\
  (forall b, b ∈ all_bureaus -> b ∈ bureaus r \/ b ∈ alternatives r).
Proof.
  assert (let r := {| bureaus := ["all"]; confidence := 0.5;
                      rule_name := "fallback_default";
                      alternatives := ["equifax"; "experian"; "transunion"];
                      reasoning := ["No specific rule matched, using safe default"] |} in
          (forall b, b ∈ alternatives r -> b ∈ all_bureaus) /\
          ("all" ∉ bureaus r -> forall b, b ∈ alternatives r -> b ∉ bureaus r) /\
          (forall b, b ∈ all_bureaus -> b ∈ bureaus r \/ b ∈ alternatives r))
    as Hfallback.
  { simpl. split; [auto |]. split; [| auto].
    intros Hn. exfalso. apply Hn. apply list_elem_of_here. }
  unfold recommend_bureaus, _apply_targeting_rules.
  destruct rules as [| r0 rs].
  - simpl. split; [auto |]. split; [| auto].
    intros Hn. exfalso. apply Hn. apply list_elem_of_here.
  - destruct (best_of _ _ _) as [[best_rule |] best_score];
      [| exact Hfallback].
    destruct (Py.ltb best_score 0.3); [exact Hfallback |].
    cbn [bureaus alternatives]. apply alternative_bureaus_spec.
Qed.

Lemma alternatives_complete_the_recommendation_witness :
  "transunion"
    ∉ bureaus (recommend_bureaus collection_dispute [collection_rule] None).
Proof.
  apply (alternatives_complete_the_recommendation collection_dispute
           [collection_rule] None).
  - vm_compute. intros H.
    repeat (apply elem_of_cons in H as [H | H]; [discriminate |]).
    now apply elem_of_nil in H.
  - vm_compute. apply list_elem_of_here.
Defined.

End BureauTargetingProps.

(** ** Round scheduling: decay and minimum wait *)

Module SchedulingProps.
Import Scheduling PyFacts.

Lemma type_modifier_positive (dispute_type : string) :
  0.6 <= type_modifiers dispute_type <= 1.1.
Proof. unfold type_modifiers. repeat case_match; lra. Qed.

Lemma base_probability (n : Z) :
  let b := Py.max 0.1 (0.7 - inject_Z (n - 1) * 0.1) in
  0.1 <= b /\ ((7 <= n)%Z -> b == 0.1).
Proof.
  split; [apply max_lower |].
  intros H7. assert (6 <= n - 1)%Z as Hn by lia. rewrite Zle_Qle in Hn.
  change (inject_Z 6) with 6 in Hn.
  unfold Py.max. py_case; lra.
Qed.

(** The estimated success probability never grows with the round number,
    as long as the responsiveness score is at least -2 (it is meant to be
    in [[0, 1]]); from round 7 on it no longer depends on the round. *)
Theorem success_probability_decays (dispute_data : Dispute) (n1 n2 : Z) :
  -2 <= default 0.5 (client_responsiveness_score dispute_data) ->
  (n1 <= n2)%Z ->
  _estimate_success_probability dispute_data n2
    <= _estimate_success_probability dispute_data n1 /\
  ((7 <= n1)%Z ->
   _estimate_success_probability dispute_data n2
   == _estimate_success_probability dispute_data n1).
Proof.
  intros Hresp Hn. unfold _estimate_success_probability.
  pose proof (type_modifier_positive (default "" (dispute_type dispute_data)))
    as [Hm _].
  set (m := type_modifiers _) in *.
  set (v := default 0.5 (client_responsiveness_score dispute_data)) in *.
  destruct (base_probability n1) as [Hb1 Hc1].
  destruct (base_probability n2) as [Hb2 Hc2].
  assert (Py.max 0.1 (0.7 - inject_Z (n2 - 1) * 0.1)
          <= Py.max 0.1 (0.7 - inject_Z (n1 - 1) * 0.1)) as Hbase.
  { assert (n1 - 1 <= n2 - 1)%Z as Hn' by lia. rewrite Zle_Qle in Hn'.
    unfold Py.max. repeat py_case; lra. }
  set (b1 := Py.max 0.1 (0.7 - inject_Z (n1 - 1) * 0.1)) in *.
  set (b2 := Py.max 0.1 (0.7 - inject_Z (n2 - 1) * 0.1)) in *.
  clearbody b1 b2 m v.
  assert (0 <= m * (0.8 + v * 0.4)) as Hpos by nra.
  split.
  - apply clamp_monotone.
    pose proof (Qmult_le_compat_r _ _ _ Hbase Hpos). lra.
  - intros H7. specialize (Hc1 H7). specialize (Hc2 ltac:(lia)).
    assert (b2 * m * (0.8 + v * 0.4) == b1 * m * (0.8 + v * 0.4)) as Heq
      by (rewrite Hc1, Hc2; reflexivity).
    apply Qle_antisym; apply clamp_monotone; lra.
Qed.

Lemma success_probability_decays_witness :
  _estimate_success_probability (dispute_of "collection") 5
    <= _estimate_success_probability (dispute_of "collection") 2.
Proof.
  apply success_probability_decays.
  - apply Qle_bool_iff. reflexivity.
  - lia.
Defined.

Lemma date_within_a_day (dt : Q) :
  dt - 86400 < Clock.date dt <= dt.
Proof.
  unfold Clock.date.
  pose proof (Qfloor_le (dt / 86400)) as Hle.
  pose proof (Qlt_floor (dt / 86400)) as Hlt.
  rewrite inject_Z_plus in Hlt. change (inject_Z 1) with 1 in Hlt.
  assert (dt == dt / 86400 * 86400) as Hdt by field.
  set (q := dt / 86400) in *. set (f := inject_Z (Qfloor q)) in *.
  split; nra.
Qed.

Lemma int_lower (n : Z) (x : Q) :
  (0 <= n)%Z -> inject_Z n <= x -> (n <= Clock.int x)%Z.
Proof.
  intros Hn Hx. unfold Clock.int.
  assert (0 <= inject_Z n) as H0 by (change 0 with (inject_Z 0); now rewrite <- Zle_Qle).
  assert (Py.ltb x 0 = false) as -> by (apply ltb_ge; lra).
  apply Qfloor_resp_le in Hx. now rewrite Qfloor_Z in Hx.
Qed.

(** A collection or charge-off dispute is never rescheduled less than 21
    days ahead, whatever the rule says: the rule's waits are floored at 20
    and 30 days, a client who prefers frequent updates brings the minimum
    down to 14 at the lowest, and the date is cut to midnight; without that
    preference it is more than 24 days ahead. The date never exceeds now
    plus the whole number of days computed. *)
Theorem collection_schedule_minimum_wait (now : Q) (dispute_data : Dispute)
    (rule : SchedulingRule) (prefers_frequent_updates : bool) :
  Py.mem (default "" (dispute_type dispute_data)) ["collection"; "charge_off"]
    = true ->
  let d :=
    _calculate_optimal_schedule now dispute_data rule prefers_frequent_updates in
  now + Clock.days 21 < d /\
  (prefers_frequent_updates = false -> now + Clock.days 24 < d).
Proof.
  intros Hty d. subst d. unfold _calculate_optimal_schedule. rewrite Hty.
  set (mn := Z.max 20 (default 30%Z (min_wait_days rule) - 5)).
  set (mx := Z.max 30 (default 45%Z (max_wait_days rule) - 5)).
  set (mn' := match client_id dispute_data with
              | Some c => if Py.truthy c && prefers_frequent_updates
                          then Z.max 14 (mn - 10) else mn
              | None => mn
              end).
  assert (14 <= mn' /\ (prefers_frequent_updates = false -> 20 <= mn'))%Z
    as [Hmn Hmn20].
  { subst mn' mn. destruct (client_id dispute_data) as [c |];
      [destruct (Py.truthy c), prefers_frequent_updates; simpl |];
      split; intros; try discriminate; lia. }
  assert (30 <= mx)%Z as Hmx by (subst mx; lia).
  assert (forall k : Z, (2 * k <= mn' + mx)%Z -> (0 <= k)%Z ->
            now + Clock.days (inject_Z k) - 86400
            < Clock.date (now + Clock.days
                (inject_Z (Clock.int (inject_Z (mn' + mx) / 2))))) as Hk.
  { intros k Hk Hk0.
    assert (k <= Clock.int (inject_Z (mn' + mx) / 2))%Z as Hint.
    { apply int_lower; [exact Hk0 |].
      apply Qle_shift_div_l; [lra |].
      rewrite Zle_Qle, inject_Z_mult in Hk. change (inject_Z 2) with 2 in Hk.
      lra. }
    rewrite Zle_Qle in Hint.
    match goal with
    | |- _ < Clock.date ?x => pose proof (date_within_a_day x) as [Hd _]
    end.
    unfold Clock.days in *. lra. }
  split.
  - specialize (Hk 22%Z ltac:(lia) ltac:(lia)).
    unfold Clock.days in *. change (inject_Z 22) with 22 in Hk. lra.
  - intros Hpref. specialize (Hmn20 Hpref).
    specialize (Hk 25%Z ltac:(lia) ltac:(lia)).
    unfold Clock.days in *. change (inject_Z 25) with 25 in Hk. lra.
Qed.

Lemma collection_schedule_minimum_wait_witness :
  0 + Clock.days 21
  < _calculate_optimal_schedule 0 (dispute_of "collection")
      {| name := Some "Round 2 Rule"; min_wait_days := Some 1%Z;
         max_wait_days := Some 2%Z; follow_up_strategy := None |} true.
Proof.
  apply collection_schedule_minimum_wait. reflexivity.
Defined.

End SchedulingProps.

(** ** Payment retry: tiers, back-off and the estimate *)

Module PaymentRetryProps.
Import PaymentRetry PyFacts.

Lemma base_rate_cases (n : Z) :
  (0 <= n)%Z ->
  (n = 0%Z /\ base_rates (Z.min n 3) = Some 0.7) \/
  (n = 1%Z /\ base_rates (Z.min n 3) = Some 0.5) \/
  (n = 2%Z /\ base_rates (Z.min n 3) = Some 0.3) \/
  ((3 <= n)%Z /\ base_rates (Z.min n 3) = Some 0.2).
Proof.
  intros Hn.
  destruct (Z.eq_dec n 0%Z) as [-> | H0]; [left; now split |].
  destruct (Z.eq_dec n 1%Z) as [-> | H1]; [right; left; now split |].
  destruct (Z.eq_dec n 2%Z) as [-> | H2]; [right; right; left; now split |].
  right; right; right. split; [lia |]. rewrite Z.min_r by lia. reflexivity.
Qed.

(** The estimated success rate is always in [[0.05, 0.95]]; it never grows
    with the number of retries already made (counted from 0), stays the
    same from the third retry on, and never grows with the amount. *)
Theorem success_rate_decays (r1 r2 : Z) (strategy : string) (a1 a2 : Q) :
  (0 <= r1 <= r2)%Z ->
  a1 <= a2 ->
  0.05 <= _estimate_success_rate r1 strategy a1 <= 0.95 /\
  _estimate_success_rate r2 strategy a2 <= _estimate_success_rate r1 strategy a1 /\
  ((3 <= r1)%Z ->
   _estimate_success_rate r2 strategy a1 = _estimate_success_rate r1 strategy a1).
Proof.
  intros [Hr1 Hr12] Ha. unfold _estimate_success_rate.
  split; [| split].
  - match goal with
    | |- _ <= Py.max _ (Py.min _ ?x) <= _ => apply (clamp_bounds 0.05 0.95 x)
    end. lra.
  - apply clamp_monotone.
    assert (0.9 <= default 1.0 (strategy_modifiers strategy) <= 1.1) as [Hs _].
    { unfold strategy_modifiers. repeat case_match; simpl; lra. }
    set (s := default 1.0 (strategy_modifiers strategy)) in *.
    assert (0.5 <= Py.max 0.5 (1.2 - a2 / 1000)
            <= Py.max 0.5 (1.2 - a1 / 1000)) as [Hm2 Hm12].
    { assert (a1 / 1000 == a1 * (1 # 1000)) as H1 by field.
      assert (a2 / 1000 == a2 * (1 # 1000)) as H2 by field.
      unfold Py.max. repeat py_case; lra. }
    set (m1 := Py.max 0.5 (1.2 - a1 / 1000)) in *.
    set (m2 := Py.max 0.5 (1.2 - a2 / 1000)) in *.
    assert (0 < default 0.1 (base_rates (Z.min r2 3))
            <= default 0.1 (base_rates (Z.min r1 3))) as [Hb2 Hb12].
    { destruct (base_rate_cases r1 Hr1) as [[? ->] | [[? ->] | [[? ->] | [? ->]]]];
      destruct (base_rate_cases r2 ltac:(lia))
        as [[? ->] | [[? ->] | [[? ->] | [? ->]]]];
      simpl; try lia; lra. }
    set (b1 := default 0.1 (base_rates (Z.min r1 3))) in *.
    set (b2 := default 0.1 (base_rates (Z.min r2 3))) in *.
    clearbody s m1 m2 b1 b2.
    assert (b2 * s <= b1 * s) as Hbs by nra.
    assert (0 <= b2 * s) as Hpos by nra.
    assert (b2 * s * m2 <= b2 * s * m1) by nra.
    assert (b2 * s * m1 <= b1 * s * m1) by nra.
    lra.
  - intros H3. rewrite !Z.min_r by lia. reflexivity.
Qed.

Lemma success_rate_decays_witness :
  _estimate_success_rate 2 "linear" 250 <= _estimate_success_rate 0 "linear" 50.
Proof.
  apply success_rate_decays; [lia |]. apply Qle_bool_iff. reflexivity.
Defined.

(** How the delay grows with each retry: with the exponential strategy
    the delay of the next attempt is twice the delay of this one, with the
    linear strategy the delays of attempts [n] and [n + 1] are in the
    proportion [n + 1] to [n + 2], and with any other strategy the delay
    stays the same; the strategy itself, set by the amount, does not
    change, and the amount to charge is the amount that failed. *)
Theorem backoff_growth (now : Q) (payment_data : Payment) (config : Config)
    (organization_id : string) (db : Dunning.DB) (n : Z) :
  let r1 := _calculate_retry_strategy now (with_retry_count payment_data n)
              config organization_id db in
  let r2 := _calculate_retry_strategy now (with_retry_count payment_data (n + 1))
              config organization_id db in
  let d1 := next_retry_date r1 - now in
  let d2 := next_retry_date r2 - now in
  rs_strategy r2 = rs_strategy r1 /\
  rs_retry_count r1 = (n + 1)%Z /\
  amount_to_charge r1 = default 0 (amount_cents payment_data) /\
  (rs_strategy r1 = "exponential" -> d2 == 2 * d1) /\
  (rs_strategy r1 = "linear" -> inject_Z (n + 1) * d2 == inject_Z (n + 2) * d1) /\
  (rs_strategy r1 <> "exponential" -> rs_strategy r1 <> "linear" -> d2 == d1).
Proof.
  intros r1 r2 d1 d2. subst d1 d2 r1 r2. unfold _calculate_retry_strategy.
  cbn [with_retry_count retry_count amount_cents next_retry_date rs_strategy
       rs_retry_count amount_to_charge].
  set (tier := _get_amount_tier _ _).
  set (strategy := default (default "exponential" (PaymentRetry.strategy config))
                           (tier_strategy tier)).
  set (i := default 24 (initial_delay_hours config)).
  set (m := default 1.0 (delay_multiplier tier)).
  simpl (default 0%Z (Some _)).
  split; [reflexivity |]. split; [reflexivity |]. split; [reflexivity |].
  unfold Clock.hours.
  assert (2 ^ (n + 1) == 2 * 2 ^ n) as Hpow.
  { rewrite Qpower_plus by discriminate. simpl (2 ^ 1). ring. }
  assert (inject_Z (n + 1 + 1) == inject_Z (n + 2)) as Hn2
    by (now replace (n + 1 + 1)%Z with (n + 2)%Z by lia).
  split; [| split].
  - intros Hs. rewrite Hs. simpl String.eqb. cbv iota. rewrite Hpow. ring.
  - intros Hs. rewrite Hs. simpl String.eqb. cbv iota. rewrite Hn2. ring.
  - intros He Hl.
    destruct (String.eqb_spec strategy "exponential"); [contradiction |].
    destruct (String.eqb_spec strategy "linear"); [contradiction |].
    reflexivity.
Qed.

(** Under the default configuration every amount gets a tier: the [low]
    tier (fixed, multiplier 0.5) from 0 up to 100 dollars, the [medium]
    tier (linear, multiplier 1) from 100 up to 500, the [high] tier
    (exponential, multiplier 1.5) from 500 on; a negative amount matches no
    range and falls back on the [medium] tier. *)
Theorem default_tiers_cover_every_amount (amount : Q) :
  let tier := _get_amount_tier amount default_tiers in
  (0 <= amount < 100 ->
   tier_strategy tier = Some "fixed" /\ delay_multiplier tier = Some 0.5) /\
  (100 <= amount < 500 \/ amount < 0 ->
   tier_strategy tier = Some "linear" /\ delay_multiplier tier = Some 1.0) /\
  (500 <= amount ->
   tier_strategy tier = Some "exponential" /\ delay_multiplier tier = Some 1.5).
Proof.
  unfold _get_amount_tier, default_tiers. simpl.
  unfold below. simpl.
  repeat (match goal with
          | |- context [Py.leb ?a ?b] =>
              let H := fresh "Hcmp" in
              destruct (Py.leb a b) eqn:H;
              [apply leb_le in H | apply leb_gt in H]
          | |- context [Py.ltb ?a ?b] =>
              let H := fresh "Hcmp" in
              destruct (Py.ltb a b) eqn:H;
              [apply ltb_lt in H | apply ltb_ge in H]
          end; simpl);
    (split; [| split]); intros; try (split; reflexivity); exfalso;
    repeat match goal with
           | H : _ \/ _ |- _ => destruct H
           end; lra.
Qed.

Lemma default_tiers_cover_every_amount_witness :
  tier_strategy (_get_amount_tier (-5) default_tiers) = Some "linear" /\
  delay_multiplier (_get_amount_tier (-5) default_tiers) = Some 1.0.
Proof.
  apply (default_tiers_cover_every_amount (-5)). right. reflexivity.
Defined.

End PaymentRetryProps.

(** ** Dunning sequences: order, time and isolation *)

Module DunningProps.
Import Dunning PyFacts DunningFacts.

Section Payment.

Variables payment org : string.

Local Abbreviation view := (_get_sequence_state payment org).
Local Abbreviation step_of := (current_step_of payment org).

(** No step is skipped: the emails sent over any run of calls carry the
    consecutive step numbers that follow the step the sequence stood at,
    and the step it stands at afterwards is that step plus the number of
    emails sent. *)
Theorem no_step_skipped (clock : list Q) (db : DB) :
  let sent := sent_steps (fst (run payment org clock db)) in
  sent = seqZ (step_of db + 1) (Z.of_nat (length sent)) /\
  step_of (snd (run payment org clock db))
  = (step_of db + Z.of_nat (length sent))%Z.
Proof.
  revert db. induction clock as [| now later IH]; intros db; simpl.
  - split; [reflexivity | lia].
  - pose proof (process_step payment org now db) as Hstep.
    destruct (process_dunning_sequence now payment org db) as [outcome db1].
    specialize (IH db1).
    destruct (run payment org later db1) as [outcomes db2].
    simpl in IH. destruct IH as [Hsent Hdb2].
    destruct outcome as [| n template result final | date |]; simpl;
      try (rewrite Hstep in *; now split).
    destruct Hstep as [Hn Hdb1]. rewrite Hdb1 in *. split.
    + rewrite seqZ_cons by lia. f_equal; [exact Hn |].
      rewrite Hsent at 1. f_equal; lia.
    + lia.
Qed.

(** Time only helps: the conditions of a step, once met for a state, stay
    met at any later time. *)
Theorem trigger_stays_met (now1 now2 : Q) (step : SequenceStep)
    (s : SequenceState) (db : DB) :
  now1 <= now2 ->
  _should_trigger_step now1 step s org db = true ->
  _should_trigger_step now2 step s org db = true.
Proof.
  intros Hnow. unfold _should_trigger_step.
  destruct (delay_hours (default no_conditions (conditions step))) as [h |];
    [| auto].
  unfold _check_time_condition.
  set (start := match last_step_at s with
                | Some t => t
                | None => started_at s
                end).
  replace (match last_step_at s with
           | Some last_step_time => last_step_time
           | None => started_at s
           end) with start by (subst start; now destruct (last_step_at s)).
  destruct (Py.leb (h * 3600) (now1 - start)) eqn:H1; [| discriminate].
  apply leb_le in H1.
  assert (Py.leb (h * 3600) (now2 - start) = true) as ->
    by (apply leb_le; lra).
  auto.
Qed.

(** A sequence that is complete stays complete: after a call that found
    no next step, every later call finds none either and writes nothing. *)
Theorem complete_stays_complete (now now' : Q) (db db' : DB) :
  process_dunning_sequence now payment org db = (sequence_complete, db') ->
  process_dunning_sequence now' payment org db' = (sequence_complete, db').
Proof.
  unfold process_dunning_sequence at 1.
  destruct (view db) as [s |] eqn:Hview.
  - destruct (_get_next_sequence_step _ _ _) as [step |] eqn:Hstep.
    + destruct (_should_trigger_step _ _ _ _ _); discriminate.
    + intros H. injection H as <-.
      unfold process_dunning_sequence. now rewrite Hview, Hstep.
  - pose proof (view_start payment org now db Hview) as Hstart.
    destruct (_start_new_sequence payment org now db) as [row db1].
    cbn [fst snd] in Hstart.
    destruct (_get_next_sequence_step _ _ _) as [step |] eqn:Hstep.
    + destruct (_should_trigger_step _ _ _ _ _); discriminate.
    + intros H. injection H as <-.
      unfold process_dunning_sequence. now rewrite Hstart, Hstep.
Qed.

(** After an email is sent the sequence stands at the step sent and
    remembers the time: the delay of the step after it is counted from
    this send, not from the start of the sequence. *)
Theorem delay_counts_from_last_send (now : Q) (db db' : DB) (n : Z)
    (template : string) (result : EmailResult) (final : bool) :
  process_dunning_sequence now payment org db
  = (email_sent n template result final, db') ->
  exists s',
    view db' = Some s' /\
    current_step s' = n /\
    last_step_at s' = Some now /\
    sent_at result = now /\
    forall now' hours,
      _check_time_condition now' s' hours = Py.leb (hours * 3600) (now' - now).
Proof.
  unfold process_dunning_sequence.
  assert (forall d s step,
            view d = Some s ->
            (if _should_trigger_step now step s org d
             then (email_sent (step_number step) (email_template_key step)
                     (_send_dunning_email now step payment org)
                     (default false (is_final step)),
                   _update_sequence_state now payment (step_number step) org d)
             else (wait (_get_next_check_date now step), d))
            = (email_sent n template result final, db') ->
            exists s',
              view db' = Some s' /\ current_step s' = n /\
              last_step_at s' = Some now /\ sent_at result = now /\
              forall now' hours,
                _check_time_condition now' s' hours
                = Py.leb (hours * 3600) (now' - now)) as Hsend.
  { intros d s step Hd H.
    destruct (_should_trigger_step _ _ _ _ _); [| discriminate].
    injection H as <- _ <- _ <-.
    rewrite view_update, Hd. eexists. split; [reflexivity |].
    repeat split. }
  destruct (view db) as [s |] eqn:Hview.
  - destruct (_get_next_sequence_step _ _ _) as [step |]; [| discriminate].
    now apply Hsend.
  - pose proof (view_start payment org now db Hview) as Hstart.
    destruct (_start_new_sequence payment org now db) as [row db1].
    cbn [fst snd] in Hstart.
    destruct (_get_next_sequence_step _ _ _) as [step |]; [| discriminate].
    now apply Hsend.
Qed.

Lemma other_payment_no_match (payment' org' : string) (row : SequenceState) :
  payment' <> payment \/ org' <> org ->
  state_matches payment org row = true ->
  state_matches payment' org' row = false.
Proof.
  unfold state_matches. intros Hne [Hp Ho]%andb_true_iff.
  apply String.eqb_eq in Hp, Ho. apply andb_false_iff.
  destruct Hne as [Hne | Hne]; [left | right];
    apply String.eqb_neq; congruence.
Qed.

(** A call for one payment writes nothing another payment reads: the
    sequence state of any other payment or organization is what it was,
    and the tables of steps and of payment attempts are never written. *)
Theorem other_payments_untouched (now : Q) (payment' org' : string) (db : DB) :
  payment' <> payment \/ org' <> org ->
  let db' := snd (process_dunning_sequence now payment org db) in
  _get_sequence_state payment' org' db' = _get_sequence_state payment' org' db /\
  dunning_sequences db' = dunning_sequences db /\
  payment_attempts db' = payment_attempts db.
Proof.
  intros Hne.
  assert (forall n d,
            _get_sequence_state payment' org'
              (_update_sequence_state now payment n org d)
            = _get_sequence_state payment' org' d) as Hupdate.
  { intros n d. unfold _get_sequence_state, _update_sequence_state.
    cbn [dunning_sequence_states].
    induction (dunning_sequence_states d) as [| row rows IH]; [reflexivity |].
    simpl.
    destruct (state_matches payment org row) eqn:Hm.
    - pose proof (other_payment_no_match payment' org' row Hne Hm) as Hno.
      unfold state_matches in *.
      cbn [Dunning.failed_payment_id Dunning.organization_id status].
      rewrite Hno. simpl. exact IH.
    - destruct (state_matches payment' org' row && String.eqb (status row) "active");
        simpl; [reflexivity | exact IH]. }
  assert (_get_sequence_state payment' org'
            (snd (_start_new_sequence payment org now db))
          = _get_sequence_state payment' org' db) as Hstart.
  { unfold _get_sequence_state, _start_new_sequence.
    cbn [snd dunning_sequence_states].
    rewrite List.filter_app. simpl.
    rewrite (other_payment_no_match payment' org' _ Hne)
      by (unfold state_matches; simpl; now rewrite !String.eqb_refl).
    simpl. now rewrite app_nil_r. }
  unfold process_dunning_sequence.
  destruct (view db) as [s |].
  - destruct (_get_next_sequence_step _ _ _) as [step |]; [| now repeat split].
    destruct (_should_trigger_step _ _ _ _ _); [| now repeat split].
    cbn [snd]. rewrite Hupdate. now repeat split.
  - destruct (_start_new_sequence payment org now db) as [row db1] eqn:Hnew.
    cbn [snd] in Hstart.
    assert (dunning_sequences db1 = dunning_sequences db
            /\ payment_attempts db1 = payment_attempts db) as [Hs Hp]
      by (unfold _start_new_sequence in Hnew; injection Hnew as _ <-; now split).
    destruct (_get_next_sequence_step _ _ _) as [step |]; [| now repeat split].
    destruct (_should_trigger_step _ _ _ _ _); [| now repeat split].
    cbn [snd]. rewrite Hupdate. now repeat split.
Qed.

End Payment.

Lemma trigger_stays_met_witness :
  _should_trigger_step 100000 first_step fresh_state "org-123" sample_db = true.
Proof.
  apply (trigger_stays_met "org-123" 90000 100000); [| reflexivity].
  apply Qle_bool_iff. reflexivity.
Defined.

Lemma complete_stays_complete_witness :
  let db1 := snd (run "payment-123" "org-123" [90000] sample_db) in
  process_dunning_sequence 200000 "payment-123" "org-123" db1
  = (sequence_complete, db1).
Proof.
  intros db1.
  apply (complete_stays_complete "payment-123" "org-123" 100000 200000 db1 db1).
  reflexivity.
Defined.

Lemma delay_counts_from_last_send_witness :
  exists s',
    _get_sequence_state "payment-123" "org-123"
      (snd (process_dunning_sequence 90000 "payment-123" "org-123" sample_db))
    = Some s' /\
    current_step s' = 1%Z /\ last_step_at s' = Some 90000.
Proof.
  destruct (delay_counts_from_last_send "payment-123" "org-123" 90000 sample_db
              _ _ _ _ _ eq_refl) as (s' & Hview & Hstep & Hlast & _).
  exists s'. repeat split; assumption.
Defined.

Lemma other_payments_untouched_witness :
  _get_sequence_state "payment-999" "org-123"
    (snd (process_dunning_sequence 90000 "payment-123" "org-123" sample_db))
  = _get_sequence_state "payment-999" "org-123" sample_db.
Proof.
  apply (other_payments_untouched "payment-123" "org-123" 90000
           "payment-999" "org-123" sample_db).
  left. discriminate.
Defined.

End DunningProps.

(** ** Churn risk factors, recommendations and summary *)

Module ChurnAnalysisProps.
Import Exc Churn ChurnAnalysis PyFacts ChurnSpec ChurnProps.

(** A factor an analyzer may return: a positive weight and a label that
    agrees with the impact score. *)
Local Abbreviation sound :=
  (fun f : RiskFactor => 0 < default 1.0 (weight f) /\ level_matches_impact f).

Ltac sound_factor :=
  intros o H; unfold bind in H; repeat case_match; simplify_eq;
  eexists; (split; [reflexivity |]);
  (split; [simpl; lra |]);
  unfold level_matches_impact; simpl;
  first [ left; split; [reflexivity | lra]
        | right; left; split; [reflexivity | lra]
        | right; right; split; [reflexivity | lra] ].

Lemma engagement_sound (now : Q) (h : ClientHistory) :
  forall o, _analyze_engagement_risk now h = returned o ->
            exists f, o = Some f /\ sound f.
Proof. unfold _analyze_engagement_risk. sound_factor. Qed.

Lemma payment_sound (now : Q) (h : ClientHistory) :
  forall o, _analyze_payment_risk now h = returned o ->
            exists f, o = Some f /\ sound f.
Proof. unfold _analyze_payment_risk. sound_factor. Qed.

Lemma dispute_sound (h : ClientHistory) :
  forall o, _analyze_dispute_risk h = returned o ->
            exists f, o = Some f /\ sound f.
Proof. unfold _analyze_dispute_risk. sound_factor. Qed.

Lemma utilization_sound (now : Q) (h : ClientHistory) :
  forall o, _analyze_utilization_risk now h = returned o ->
            exists f, o = Some f /\ sound f.
Proof. unfold _analyze_utilization_risk. sound_factor. Qed.

Lemma support_sound (now : Q) (h : ClientHistory) :
  forall o, _analyze_support_risk now h = returned o ->
            exists f, o = Some f /\ sound f.
Proof. unfold _analyze_support_risk. sound_factor. Qed.

Lemma tenure_sound (now : Q) (c : Client) (h : ClientHistory) :
  forall o, _analyze_tenure_risk now c h = returned o ->
            (o = None /\ client_created_at c = None) \/
            (is_Some (client_created_at c) /\ exists f, o = Some f /\ sound f).
Proof.
  unfold _analyze_tenure_risk. intros o H.
  destruct (client_created_at c) as [[t | t |] |];
    [| discriminate | discriminate |].
  - right. split; [eauto |]. revert o H. sound_factor.
  - left. now injection H as <-.
Qed.

(** A comprehension whose test returns on every row returns. *)
Lemma select_returns {A : Type} (test : A -> Outcome bool) (l : list A) :
  Forall (fun x => exists keep, test x = returned keep) l ->
  exists l', select test l = returned l'.
Proof.
  induction 1 as [| x rest [keep Hx] _ [rest' IH]]; [now exists [] |].
  simpl. rewrite Hx, IH. simpl. eauto.
Qed.

(** One row on which the test raises and the comprehension raises. *)
Lemma select_raises {A : Type} (test : A -> Outcome bool) (l : list A) :
  Exists (fun x => test x = raised) l -> select test l = raised.
Proof.
  induction 1 as [x rest Hx | x rest _ IH]; simpl.
  - now rewrite Hx.
  - rewrite IH. now destruct (test x) as [[] |].
Qed.

(** The rows a comprehension keeps are rows of its list. *)
Lemma select_keeps {A : Type} (P : A -> Prop) (test : A -> Outcome bool)
    (l l' : list A) :
  select test l = returned l' -> Forall P l -> Forall P l'.
Proof.
  intros Hsel Hall. revert l' Hsel.
  induction Hall as [| x rest Hx _ IH]; intros l' Hsel; simpl in Hsel.
  - injection Hsel as <-. constructor.
  - destruct (test x) as [keep |]; [| discriminate]. simpl in Hsel.
    destruct (select test rest) as [rest' |]; [| discriminate].
    injection Hsel as <-. specialize (IH rest' eq_refl).
    destruct keep; [now constructor | exact IH].
Qed.

(** On naive times the comparison never raises. *)
Lemma recent_returns {A : Type} (created_at : A -> Timestamp) (cutoff : Q)
    (l : list A) :
  Forall (fun x => is_naive (created_at x)) l ->
  exists l', recent created_at cutoff l = returned l'.
Proof.
  intros Hall. apply select_returns.
  eapply Forall_impl; [exact Hall |]. simpl. intros x Hx.
  destruct (created_at x); try contradiction. simpl. eauto.
Qed.

(** One row whose time is not naive and the comprehension raises. *)
Lemma recent_raises {A : Type} (created_at : A -> Timestamp) (cutoff : Q)
    (l : list A) :
  Exists (fun x => ~ is_naive (created_at x)) l ->
  recent created_at cutoff l = raised.
Proof.
  intros Hex. apply select_raises.
  eapply List.Exists_impl; [| exact Hex]. simpl. intros x Hx.
  destruct (created_at x); [now destruct Hx | reflexivity | reflexivity].
Qed.

Lemma filter_naive {A : Type} (P : A -> Prop) (keep : A -> bool) (l : list A) :
  Forall P l -> Forall P (List.filter keep l).
Proof.
  induction 1 as [| x rest Hx _ IH]; simpl; [constructor |].
  destruct (keep x); [now constructor | exact IH].
Qed.

(** Without a null [click_count] the click test returns. *)
Lemma clicked_returns (c : Communication) :
  ~ has_null c -> exists keep, clicked c = returned keep.
Proof.
  unfold has_null, clicked, Py.get. intros Hc.
  destruct (click_count c) as [[n |] |]; simpl; eauto.
  exfalso. apply Hc. now left.
Qed.

(** Without a null [subject] or [body_text] the support test returns. *)
Lemma is_support_contact_returns (c : Communication) :
  ~ has_null c -> exists keep, is_support_contact c = returned keep.
Proof.
  unfold has_null, is_support_contact, Py.get. intros Hc.
  destruct (subject c) as [[s |] |], (body_text c) as [[b |] |]; simpl; eauto;
    exfalso; apply Hc; auto.
Qed.

(** A null column makes one of the two tests raise. *)
Lemma null_raises (c : Communication) :
  has_null c -> clicked c = raised \/ is_support_contact c = raised.
Proof.
  unfold has_null, clicked, is_support_contact.
  intros [H | [H | H]]; rewrite H; simpl; auto.
  right. now destruct (Py.method _ _).
Qed.

Ltac returns_some :=
  cbn [bind]; repeat (case_match; cbn [bind]);
  repeat match goal with
         | |- context [match ?l with [] => _ | _ :: _ => _ end] => destruct l
         | |- context [if ?b then _ else _] => destruct b
         end;
  eexists; reflexivity.

Lemma analysis_returns (now : Q) (client : Client)
    (client_history : ClientHistory) :
  all_naive client client_history ->
  no_null client_history ->
  exists factors,
    _analyze_risk_factors now client client_history = returned factors.
Proof.
  intros (Hd & Hp & Hc & Hdoc & Hclient) Hnull. unfold no_null in Hnull.
  assert (exists o, _analyze_engagement_risk now client_history = returned o)
    as [o1 H1].
  { unfold _analyze_engagement_risk.
    destruct (recent_returns comm_created_at (now - Clock.days 30)
                (communications client_history) Hc) as [l' ->].
    destruct (select_returns clicked (communications client_history))
      as [clicks ->].
    { eapply Forall_impl; [exact Hnull |]. exact clicked_returns. }
    destruct (communications client_history); [eexists; reflexivity |].
    cbn [bind].
    destruct (List.filter _ (_ :: _)); [eexists; reflexivity |].
    destruct l'; returns_some. }
  assert (exists o, _analyze_payment_risk now client_history = returned o)
    as [o2 H2].
  { unfold _analyze_payment_risk.
    destruct (recent_returns payment_created_at (now - Clock.days 60)
                (List.filter (fun p => status_is ["failed"] (payment_status p))
                   (payments client_history))
                (filter_naive _ _ _ Hp)) as [l' ->].
    destruct (payments client_history); [eexists; reflexivity |].
    destruct l'; returns_some. }
  assert (exists o, _analyze_dispute_risk client_history = returned o)
    as [o3 H3].
  { unfold _analyze_dispute_risk.
    destruct (disputes client_history); [eexists; reflexivity |].
    returns_some. }
  assert (exists o, _analyze_utilization_risk now client_history = returned o)
    as [o4 H4].
  { unfold _analyze_utilization_risk.
    destruct (recent_returns (fun created_at : Timestamp => created_at)
                (now - Clock.days 30)
                (map dispute_created_at (disputes client_history)
                 ++ map document_created_at (documents client_history))%list)
      as [l' ->].
    { apply List.Forall_app. split; now apply List.Forall_map. }
    destruct l' as [| ? [| ? ?]]; returns_some. }
  assert (exists o, _analyze_tenure_risk now client client_history = returned o)
    as [o5 H5].
  { unfold _analyze_tenure_risk.
    destruct (client_created_at client) as [[t | t |] |];
      [| contradiction | contradiction | eexists; reflexivity].
    returns_some. }
  assert (exists o, _analyze_support_risk now client_history = returned o)
    as [o6 H6].
  { unfold _analyze_support_risk.
    destruct (select_returns is_support_contact (communications client_history))
      as [contacts Hsel].
    { eapply Forall_impl; [exact Hnull |]. exact is_support_contact_returns. }
    rewrite Hsel. cbn [bind].
    destruct (recent_returns comm_created_at (now - Clock.days 30) contacts
                (select_keeps _ _ _ _ Hsel Hc)) as [l' ->].
    returns_some. }
  unfold _analyze_risk_factors. rewrite H1, H2, H3, H4, H5, H6.
  cbn [bind]. eexists; reflexivity.
Qed.

Lemma analysis_raises (now : Q) (client : Client)
    (client_history : ClientHistory) :
  (exists created_at,
     client_created_at client = Some created_at /\ ~ is_naive created_at) \/
  Exists (fun d => ~ is_naive (dispute_created_at d)) (disputes client_history) \/
  Exists (fun d => ~ is_naive (document_created_at d)) (documents client_history) \/
  Exists has_null (communications client_history) ->
  _analyze_risk_factors now client client_history = raised.
Proof.
  intros Hbad. unfold _analyze_risk_factors.
  destruct (_analyze_engagement_risk now client_history) as [o1 |] eqn:H1;
    [| reflexivity].
  destruct (_analyze_payment_risk now client_history); [| reflexivity].
  destruct (_analyze_dispute_risk client_history); [| reflexivity].
  cbn [bind].
  destruct Hbad as [(created_at & Ht & Hn) | [Hrows | [Hrows | Hnull]]].
  - destruct (_analyze_utilization_risk now client_history); [| reflexivity].
    cbn [bind]. unfold _analyze_tenure_risk. rewrite Ht.
    destruct created_at; [now destruct Hn | reflexivity | reflexivity].
  - unfold _analyze_utilization_risk. rewrite recent_raises; [reflexivity |].
    apply List.Exists_app. left. apply List.Exists_map. exact Hrows.
  - unfold _analyze_utilization_risk. rewrite recent_raises; [reflexivity |].
    apply List.Exists_app. right. apply List.Exists_map. exact Hrows.
  - destruct (_analyze_utilization_risk now client_history); [| reflexivity].
    destruct (_analyze_tenure_risk now client client_history); [| reflexivity].
    cbn [bind]. unfold _analyze_support_risk.
    destruct (select is_support_contact (communications client_history))
      as [contacts |] eqn:Hsel; [| reflexivity].
    exfalso.
    assert (select clicked (communications client_history) = raised) as Hclick.
    { apply select_raises.
      assert (Forall (fun c => exists keep, is_support_contact c = returned keep)
                (communications client_history)) as Hall.
      { clear -Hsel. revert contacts Hsel.
        induction (communications client_history) as [| c cs IH];
          intros contacts Hsel; [constructor |].
        simpl in Hsel.
        destruct (is_support_contact c) as [keep |] eqn:Hc; [| discriminate].
        simpl in Hsel.
        destruct (select is_support_contact cs) as [rest |]; [| discriminate].
        constructor; [eauto | now apply (IH rest)]. }
      clear -Hnull Hall.
      induction Hnull as [c cs Hc | c cs _ IH].
      - left. destruct (null_raises c Hc) as [H | H]; [exact H |].
        inversion Hall as [| ? ? [keep Hk] _]; subst. congruence.
      - right. apply IH. now inversion Hall. }
    unfold _analyze_engagement_risk in H1.
    destruct (communications client_history) as [| c cs];
      [now apply List.Exists_nil in Hnull |].
    rewrite Hclick in H1. discriminate.
Qed.

(** When the analysis returns, the factor list has six entries, five for
    a client without creation date, each with a positive weight and a
    label that agrees with its impact score ([high] from 0.7 to 0.9,
    [medium] from 0.4 to 0.6, [low] from 0.1 to 0.3). It returns whenever
    every creation time is naive and no communication has a null click
    count, subject or body; it raises as soon as the client, a dispute or a
    document has a creation time with an offset, which cannot be ordered
    against the naive [utcnow()], or one that cannot be parsed, and as
    soon as a communication has a null click count, subject or body. *)
Theorem analyzed_factors_sound (now : Q) (client : Client)
    (client_history : ClientHistory) :
  (forall factors,
     _analyze_risk_factors now client client_history = returned factors ->
     Forall (fun f => 0 < default 1.0 (weight f) /\ level_matches_impact f)
       factors /\
     length factors
     = (match client_created_at client with Some _ => 6 | None => 5 end)%nat) /\
  (all_naive client client_history -> no_null client_history ->
   exists factors,
     _analyze_risk_factors now client client_history = returned factors) /\
  ((exists created_at,
      client_created_at client = Some created_at /\ ~ is_naive created_at) \/
   Exists (fun d => ~ is_naive (dispute_created_at d)) (disputes client_history) \/
   Exists (fun d => ~ is_naive (document_created_at d)) (documents client_history) \/
   Exists has_null (communications client_history) ->
   _analyze_risk_factors now client client_history = raised).
Proof.
  split; [| split; [apply analysis_returns | apply analysis_raises]].
  intros factors. unfold _analyze_risk_factors.
  destruct (_analyze_engagement_risk now client_history) as [o1 |] eqn:H1;
    [| discriminate].
  destruct (_analyze_payment_risk now client_history) as [o2 |] eqn:H2;
    [| discriminate].
  destruct (_analyze_dispute_risk client_history) as [o3 |] eqn:H3;
    [| discriminate].
  destruct (_analyze_utilization_risk now client_history) as [o4 |] eqn:H4;
    [| discriminate].
  destruct (_analyze_tenure_risk now client client_history) as [o5 |] eqn:H5;
    [| discriminate].
  destruct (_analyze_support_risk now client_history) as [o6 |] eqn:H6;
    [| discriminate].
  destruct (engagement_sound _ _ _ H1) as (f1 & -> & S1).
  destruct (payment_sound _ _ _ H2) as (f2 & -> & S2).
  destruct (dispute_sound _ _ H3) as (f3 & -> & S3).
  destruct (utilization_sound _ _ _ H4) as (f4 & -> & S4).
  destruct (support_sound _ _ _ H6) as (f6 & -> & S6).
  cbn [bind append_factor app]. intros H.
  destruct (tenure_sound _ _ _ _ H5) as [[-> Hc] | [[t Hc] (f5 & -> & S5)]];
    rewrite Hc; injection H as <-; cbn [append_factor app].
  - split; [| reflexivity].
    repeat (apply List.Forall_cons; [assumption |]). apply List.Forall_nil.
  - split; [| reflexivity].
    repeat (apply List.Forall_cons; [assumption |]). apply List.Forall_nil.
Qed.

Lemma analyzed_factors_sound_witness :
  (exists factors,
     _analyze_risk_factors 0 new_client no_history = returned factors) /\
  _analyze_risk_factors 0 stored_client no_history = raised /\
  _analyze_risk_factors 0 new_client mail_without_body = raised.
Proof.
  destruct (analyzed_factors_sound 0 new_client no_history) as (_ & Hret & _).
  destruct (analyzed_factors_sound 0 stored_client no_history) as (_ & _ & Hraise).
  destruct (analyzed_factors_sound 0 new_client mail_without_body)
    as (_ & _ & Hnull).
  split; [| split].
  - apply Hret.
    + unfold all_naive. simpl. repeat split; constructor.
    + constructor.
  - apply Hraise. left. exists (aware 0). split; [reflexivity | simpl; tauto].
  - apply Hnull. right. right. right. constructor. right. right. reflexivity.
Defined.

(** A prediction made from the factors the analysis returned never takes
    a fallback branch: the total weight is positive, the normalized risk
    lies in [[0.1, 0.9]] and the probability is the sigmoid of that
    risk. *)
Theorem analyzed_probability_is_sigmoid (now : Q) (client : Client)
    (client_history : ClientHistory) (factors : list RiskFactor) :
  _analyze_risk_factors now client client_history = returned factors ->
  0 < total_weight factors /\
  0.1 <= normalized_risk factors <= 0.9 /\
  _calculate_churn_probability factors
  = sigmoid (Q2R (normalized_risk factors)).
Proof.
  intros Hret.
  assert (Forall (fun f => 0 < default 1.0 (weight f) /\ level_matches_impact f)
            factors /\ (5 <= length factors)%nat) as [Hall Hlen].
  { revert Hret. unfold _analyze_risk_factors.
    destruct (_analyze_engagement_risk now client_history) as [o1 |] eqn:H1;
      [| discriminate].
    destruct (_analyze_payment_risk now client_history) as [o2 |] eqn:H2;
      [| discriminate].
    destruct (_analyze_dispute_risk client_history) as [o3 |] eqn:H3;
      [| discriminate].
    destruct (_analyze_utilization_risk now client_history) as [o4 |] eqn:H4;
      [| discriminate].
    destruct (_analyze_tenure_risk now client client_history) as [o5 |] eqn:H5;
      [| discriminate].
    destruct (_analyze_support_risk now client_history) as [o6 |] eqn:H6;
      [| discriminate].
    destruct (engagement_sound _ _ _ H1) as (f1 & -> & S1).
    destruct (payment_sound _ _ _ H2) as (f2 & -> & S2).
    destruct (dispute_sound _ _ H3) as (f3 & -> & S3).
    destruct (utilization_sound _ _ _ H4) as (f4 & -> & S4).
    destruct (support_sound _ _ _ H6) as (f6 & -> & S6).
    cbn [bind append_factor app]. intros H.
    destruct (tenure_sound _ _ _ _ H5) as [[-> Hc] | [_ (f5 & -> & S5)]];
      injection H as <-; cbn [append_factor app]; (split; [| simpl; lia]);
      repeat (apply List.Forall_cons; [assumption |]); apply List.Forall_nil. }
  assert (factors <> []) as Hne by (intros ->; simpl in Hlen; lia).
  assert (Forall (fun f => 0 < default 1.0 (weight f)
                           /\ 0.1 <= default 0.5 (impact_score f) <= 0.9) factors)
    as Hbounds.
  { eapply Forall_impl; [exact Hall |]. simpl.
    intros f [Hw [[_ H] | [[_ H] | [_ H]]]]; split; auto; lra. }
  destruct (weighted_average_risk 0.1 0.9 factors Hne Hbounds) as [Hw Hrisk].
  split; [exact Hw |]. split; [exact Hrisk |].
  apply probability_defined. lra.
Qed.

Lemma analyzed_probability_is_sigmoid_witness :
  exists factors,
    _analyze_risk_factors 0 new_client no_history = returned factors /\
    0.1 <= normalized_risk factors <= 0.9.
Proof.
  eexists. split; [reflexivity |].
  apply (analyzed_probability_is_sigmoid 0 new_client no_history).
  reflexivity.
Defined.

Lemma recommendation_loop (risk_factors : list RiskFactor)
    (recs : list string) (level : string) :
  fold_left
    (fun (st : list string * string) factor =>
       ((fst st ++ factor_actions factor)%list, Churn.risk_level factor))
    risk_factors (recs, level)
  = ((recs ++ concat (map factor_actions risk_factors))%list,
     default level (Churn.risk_level <$> last risk_factors)).
Proof.
  revert recs level. induction risk_factors as [| f fs IH]; intros recs level.
  - simpl. now rewrite app_nil_r.
  - simpl fold_left. rewrite IH. simpl. rewrite <- app_assoc.
    f_equal. rewrite last_cons. now destruct (last fs).
Qed.

(** The recommendations are never empty. They start with the three
    actions of the overall level when it is critical, high or medium, and
    go on with the actions of the factors, in order. When neither the
    level nor any factor gave an action, one of two default pairs is
    returned, chosen by the level of the last factor of the list, which
    the loop left in [risk_level], and by the overall level only when
    there is no factor. *)
Theorem recommendations_never_empty (risk_level : string)
    (risk_factors : list RiskFactor) :
  let recs := _generate_recommendations risk_level risk_factors in
  let by_level :=
    if Py.mem risk_level ["critical"; "high"] then immediate_actions
    else if String.eqb risk_level "medium" then proactive_actions else [] in
  let specific := (by_level ++ concat (map factor_actions risk_factors))%list in
  recs <> [] /\
  (specific <> [] -> recs = specific) /\
  (specific = [] ->
   recs = if String.eqb
               (default risk_level (Churn.risk_level <$> last risk_factors)) "low"
          then ["Continue current engagement strategy";
                "Consider upselling or cross-selling opportunities"]
          else ["Monitor closely and gather feedback";
                "Review service delivery and client satisfaction"]).
Proof.
  intros recs by_level specific. subst recs.
  unfold _generate_recommendations. fold by_level.
  rewrite recommendation_loop. fold specific.
  destruct specific as [| a rest].
  - split; [| split]; [| congruence | reflexivity].
    destruct (String.eqb _ "low"); discriminate.
  - split; [| split]; [discriminate | reflexivity | discriminate].
Qed.

(** The shadowed variable at work: a client rated [low] overall whose
    last factor is [medium] gets the pair meant for the other levels. *)
Example low_risk_client_told_to_monitor :
  _generate_recommendations "low"
    [factor "payment_behavior" 2.5 0.2]
  = ["Monitor closely and gather feedback";
     "Review service delivery and client satisfaction"].
Proof. reflexivity. Qed.

Lemma has_data_le_one (n : nat) : ((if (0 <? n)%nat then 1 else 0) <= 1)%nat.
Proof. destruct (0 <? n)%nat; lia. Qed.

Lemma factor_confidence_monotone (n1 n2 : nat) :
  (n1 <= n2)%nat ->
  let fc := fun n : nat =>
    if (n =? 0)%nat then 0.1
    else if (n <=? 2)%nat then 0.4
    else if (n <=? 4)%nat then 0.7 else 0.9 in
  0.1 <= fc n1 /\ fc n1 <= fc n2 /\ fc n2 <= 0.9.
Proof.
  intros Hn fc. subst fc. cbv beta.
  destruct (Nat.eqb_spec n1 0), (Nat.eqb_spec n2 0),
    (Nat.leb_spec n1 2), (Nat.leb_spec n2 2),
    (Nat.leb_spec n1 4), (Nat.leb_spec n2 4);
    try lia; repeat split; lra.
Qed.

(** The confidence of a prediction is always in [[0.1, 0.95]], and for
    the same history a longer factor list never has a lower confidence. *)
Theorem prediction_confidence_bounds (client_history : ClientHistory)
    (fs1 fs2 : list RiskFactor) :
  (length fs1 <= length fs2)%nat ->
  0.1 <= _calculate_confidence client_history fs1 <= 0.95 /\
  _calculate_confidence client_history fs1
    <= _calculate_confidence client_history fs2.
Proof.
  intros Hlen. unfold _calculate_confidence.
  set (points := (_ + _ + _ + _)%nat).
  assert (points <= 4)%nat as Hpoints.
  { subst points.
    pose proof (has_data_le_one (length (disputes client_history))).
    pose proof (has_data_le_one (length (payments client_history))).
    pose proof (has_data_le_one (length (communications client_history))).
    pose proof (has_data_le_one (length (documents client_history))).
    lia. }
  assert (0 <= Py.of_nat points / 4.0 <= 1) as [Hd0 Hd1].
  { pose proof (of_nat_nonneg points). pose proof (of_nat_le points 4 Hpoints).
    change (Py.of_nat 4) with 4 in *.
    split; [apply Qle_shift_div_l | apply Qle_shift_div_r]; lra. }
  set (d := Py.of_nat points / 4.0) in *.
  destruct (factor_confidence_monotone (length fs1) (length fs2) Hlen)
    as (Hf0 & Hf12 & Hf2).
  cbv beta in Hf0, Hf12, Hf2.
  set (c1 := if (length fs1 =? 0)%nat then _ else _) in *.
  set (c2 := if (length fs2 =? 0)%nat then _ else _) in *.
  assert ((d + c1) / 2 == (d + c1) * (1 # 2)) as H1 by field.
  assert ((d + c2) / 2 == (d + c2) * (1 # 2)) as H2 by field.
  split.
  - pose proof (max_lower 0.1 (Py.min 1.0 ((d + c1) / 2))).
    split; [assumption |].
    apply max_upper; [lra |].
    eapply Qle_trans; [| apply Qle_refl]. unfold Py.min. py_case; lra.
  - apply clamp_monotone. lra.
Qed.

Lemma prediction_confidence_bounds_witness :
  _calculate_confidence no_history []
    <= _calculate_confidence no_history calm_factors.
Proof.
  apply prediction_confidence_bounds. simpl. lia.
Defined.

Lemma count_levels (predictions : list Prediction) :
  Forall (fun p => default "medium" (pred_risk_level p)
                   ∈ ["critical"; "high"; "medium"; "low"]) predictions ->
  (count_level "high" predictions + count_level "medium" predictions
   + count_level "low" predictions + count_level "critical" predictions
   = length predictions)%nat.
Proof.
  unfold count_level.
  induction 1 as [| p ps Hp _ IH]; [reflexivity |].
  simpl.
  repeat (apply elem_of_cons in Hp as [-> | Hp];
          [simpl; lia |]).
  now apply elem_of_nil in Hp.
Qed.

(** The four counts of the summary partition the predictions whose level
    is one of the four levels, so the high count does not include the
    critical clients; the revenue at risk is 200 for each client that is
    critical or high. *)
Theorem summary_counts_partition (predictions : list Prediction) :
  Forall (fun p => default "medium" (pred_risk_level p)
                   ∈ ["critical"; "high"; "medium"; "low"]) predictions ->
  let s := _calculate_summary_statistics predictions in
  (high_risk_count s + medium_risk_count s + low_risk_count s
   + critical_risk_count s = length predictions)%nat /\
  total_potential_revenue_at_risk s
  = ((critical_risk_count s + high_risk_count s) * 200)%nat.
Proof.
  intros Hall s. subst s. unfold _calculate_summary_statistics.
  destruct predictions as [| p ps]; [now split |].
  cbn [high_risk_count medium_risk_count low_risk_count critical_risk_count
       total_potential_revenue_at_risk].
  split; [now apply count_levels | reflexivity].
Qed.

Lemma summary_counts_partition_witness :
  let predictions :=
    [ {| pred_risk_level := Some "critical"; churn_probability := Some 0.9 |};
      {| pred_risk_level := Some "high"; churn_probability := Some 0.6 |};
      {| pred_risk_level := None; churn_probability := None |} ] in
  let s := _calculate_summary_statistics predictions in
  (high_risk_count s + medium_risk_count s + low_risk_count s
   + critical_risk_count s = 3)%nat /\
  total_potential_revenue_at_risk s
  = ((critical_risk_count s + high_risk_count s) * 200)%nat.
Proof.
  intros predictions.
  apply (summary_counts_partition predictions).
  repeat constructor;
    simpl; repeat (first [apply list_elem_of_here | apply list_elem_of_further]).
Defined.

End ChurnAnalysisProps.

(** ** Letter generation: selection and rendering *)

Module LettersProps.
Import Letters PyFacts.

Section Selection.

Variable dispute_data : Dispute.

Local Abbreviation score :=
  (fun template => _calculate_template_score template dispute_data).
Local Abbreviation scored :=
  (map (fun template =>
          (template, _calculate_template_score template dispute_data))).

(** The head of the sorted list is the first template of highest score. *)
Lemma sorted_head (templates : list Template) :
  templates <> [] ->
  exists l1 t l2 rest,
    templates = (l1 ++ t :: l2)%list /\
    sort_desc snd (scored templates) = (t, score t) :: rest /\
    (forall t', t' ∈ l1 -> score t' < score t) /\
    (forall t', t' ∈ l2 -> score t' <= score t).
Proof.
  induction templates as [| a l IH]; [congruence |]. intros _.
  destruct l as [| b l'].
  - exists [], a, [], []. simpl.
    repeat split; intros t' H; now apply elem_of_nil in H.
  - destruct (IH ltac:(discriminate)) as (l1 & t & l2 & rest & Hl & Hs & H1 & H2).
    change (sort_desc snd (scored (a :: b :: l')))
      with (insert_desc snd (a, score a) (sort_desc snd (scored (b :: l')))).
    rewrite Hs. cbn [insert_desc snd].
    destruct (Py.ltb (score a) (score t)) eqn:Hcmp;
      [apply ltb_lt in Hcmp | apply ltb_ge in Hcmp].
    + exists (a :: l1), t, l2, (insert_desc snd (a, score a) rest).
      rewrite Hl. split; [reflexivity |]. split; [reflexivity |].
      split; [| exact H2].
      intros t' [-> | H]%elem_of_cons; [exact Hcmp | now apply H1].
    + exists [], a, (b :: l'), ((t, score t) :: rest).
      split; [reflexivity |]. split; [reflexivity |]. split.
      * intros t' H. now apply elem_of_nil in H.
      * intros t' H. rewrite Hl in H.
        apply elem_of_app in H as [H | [-> | H]%elem_of_cons].
        -- specialize (H1 t' H). lra.
        -- exact Hcmp.
        -- specialize (H2 t' H). lra.
Qed.

(** With no active template the selector returns the sentinel
    [default_dispute_template]; otherwise it returns the id of the first
    template of highest score: the templates before it score strictly
    less, the templates after it at most as much. *)
Theorem selected_template_is_first_best (templates : list Template) :
  (templates = [] ->
   _select_optimal_template dispute_data templates = "default_dispute_template") /\
  (templates <> [] ->
   exists l1 t l2,
     templates = (l1 ++ t :: l2)%list /\
     _select_optimal_template dispute_data templates = id t /\
     (forall t', t' ∈ l1 -> score t' < score t) /\
     (forall t', t' ∈ l2 -> score t' <= score t)).
Proof.
  split; [intros ->; reflexivity |].
  intros Hne.
  destruct (sorted_head templates Hne) as (l1 & t & l2 & rest & Hl & Hs & H1 & H2).
  exists l1, t, l2. split; [exact Hl |]. split; [| now split].
  unfold _select_optimal_template.
  destruct templates as [| first others]; [congruence |].
  now rewrite Hs.
Qed.

End Selection.

Lemma selected_template_is_first_best_witness :
  let templates :=
    [template_of "t1" ["collection"] 5 0.6;
     template_of "t2" ["late_payment"] 10 0.8;
     template_of "t3" ["late_payment"] 10 0.8] in
  let score :=
    fun template => _calculate_template_score template late_payment_dispute in
  exists l1 t l2,
    templates = (l1 ++ t :: l2)%list /\
    _select_optimal_template late_payment_dispute templates = id t /\
    (forall t', t' ∈ l1 -> score t' < score t) /\
    (forall t', t' ∈ l2 -> score t' <= score t).
Proof.
  intros templates score.
  apply (selected_template_is_first_best late_payment_dispute templates).
  discriminate.
Defined.

(** Of two templates with the best score the one listed first wins. *)
Example tie_goes_to_the_first_listed :
  _select_optimal_template late_payment_dispute
    [template_of "t1" ["collection"] 5 0.6;
     template_of "t2" ["late_payment"] 10 0.8;
     template_of "t3" ["late_payment"] 10 0.8]
  = "t2".
Proof. reflexivity. Qed.

(** The usage bonus is capped: a template used ten times or more scores
    exactly what it would score with ten uses, and more use never lowers
    the score of a template. *)
Theorem usage_bonus_capped (template : Template) (dispute_data : Dispute)
    (u1 u2 : Q) :
  u1 <= u2 ->
  _calculate_template_score (with_usage template u1) dispute_data
    <= _calculate_template_score (with_usage template u2) dispute_data /\
  (10 <= u1 ->
   _calculate_template_score (with_usage template u2) dispute_data
   == _calculate_template_score (with_usage template u1) dispute_data).
Proof.
  intros Hu. unfold _calculate_template_score.
  cbn [with_usage priority dispute_types bureau_targets round_optimized
       success_rate usage_count].
  set (base := _ + default 0.5 (Letters.success_rate template) * 2.0).
  simpl (default 0 (Some _)).
  unfold Py.min.
  split; [| intros H10]; repeat py_case; lra.
Qed.

Lemma usage_bonus_capped_witness :
  _calculate_template_score
    (with_usage (template_of "t1" [] 1 0.5) 500) late_payment_dispute
  == _calculate_template_score
       (with_usage (template_of "t1" [] 1 0.5) 10) late_payment_dispute.
Proof.
  apply usage_bonus_capped; apply Qle_bool_iff; reflexivity.
Defined.

Lemma replace_absent (old new s : string) :
  Py.contains old s = false -> replace old new s = s.
Proof.
  unfold replace. induction s as [| c r IH]; [reflexivity |].
  cbn [Py.contains]. intros [Hp Hc]%orb_false_iff.
  cbn [replace_from]. rewrite Hp. now rewrite IH.
Qed.

(** Rendering leaves a text alone when it has nothing to substitute: if
    no declared variable that the mapping knows has its placeholder in
    the content, the content comes back unchanged; declared variables the
    mapping does not know are skipped. *)
Theorem render_without_placeholders (current_date : string)
    (template : Template) (dispute_data : Dispute) (client_data : Client) :
  (forall variable,
     variable ∈ default [] (variables template) ->
     is_Some (variable_map current_date dispute_data client_data variable) ->
     Py.contains (placeholder variable) (default "" (content template)) = false) ->
  _render_template current_date template dispute_data client_data
  = default "" (content template).
Proof.
  unfold _render_template.
  generalize (default "" (content template)) as text.
  induction (default [] (variables template)) as [| v vs IH]; intros text H;
    [reflexivity |].
  simpl fold_left.
  assert (match variable_map current_date dispute_data client_data v with
          | Some value => replace (placeholder v) value text
          | None => text
          end = text) as ->.
  { destruct (variable_map current_date dispute_data client_data v) eqn:Hv;
      [| reflexivity].
    apply replace_absent, H; [apply list_elem_of_here | eauto]. }
  apply IH. intros v' Hin. apply H. now apply list_elem_of_further.
Qed.

Lemma render_without_placeholders_witness :
  _render_template "May 01, 2025"
    {| id := "t-plain"; content := Some "To whom it may concern ({{mystery}})";
       variables := Some ["client_first_name"; "mystery"];
       priority := None; dispute_types := None; bureau_targets := None;
       round_optimized := None; success_rate := None; usage_count := None |}
    late_payment_dispute ada
  = "To whom it may concern ({{mystery}})".
Proof.
  apply (render_without_placeholders "May 01, 2025"
           {| id := "t-plain";
              content := Some "To whom it may concern ({{mystery}})";
              variables := Some ["client_first_name"; "mystery"];
              priority := None; dispute_types := None; bureau_targets := None;
              round_optimized := None; success_rate := None;
              usage_count := None |}).
  intros variable Hin Hknown. simpl in Hin.
  apply elem_of_cons in Hin as [-> | Hin]; [reflexivity |].
  apply elem_of_cons in Hin as [-> | Hin].
  - destruct Hknown as [x Hx]. discriminate.
  - now apply elem_of_nil in Hin.
Defined.

(** The declared placeholders the mapping knows are filled in, the
    others stay in the text. *)
Example greeting_rendered :
  _render_template "May 01, 2025" greeting late_payment_dispute ada
  = "Dear Ada, re Capital One ({{mystery}})".
Proof. reflexivity. Qed.

Lemma length_append (a b : string) :
  String.length (a ++ b) = (String.length a + String.length b)%nat.
Proof. induction a as [| c a IH]; simpl; [reflexivity | now rewrite IH]. Qed.

Lemma join_length (parts : list string) :
  parts <> [] ->
  String.length (join ", " parts)
  = (list_sum (map String.length parts) + 2 * (length parts - 1))%nat.
Proof.
  induction parts as [| part rest IH]; [congruence |]. intros _.
  destruct rest as [| part' rest'].
  - simpl. lia.
  - change (join ", " (part :: part' :: rest'))
      with (part ++ ", " ++ join ", " (part' :: rest')).
    rewrite !length_append, IH by discriminate. simpl. lia.
Qed.

(** The formatted address is empty exactly when no part of the address
    is present; otherwise it is as long as the present parts together
    plus one two-character separator between consecutive parts, so an
    absent part never leaves a separator behind. *)
Theorem address_has_no_dangling_separator (client_data : Client) :
  let parts := present_parts client_data in
  (parts = [] -> _format_address client_data = "") /\
  (parts <> [] ->
   _format_address client_data <> "" /\
   String.length (_format_address client_data)
   = (list_sum (map String.length parts) + 2 * (length parts - 1))%nat).
Proof.
  intros parts. unfold _format_address. fold (present_parts client_data).
  fold parts. split; [intros ->; reflexivity |].
  intros Hne. split; [| now apply join_length].
  assert (Forall (fun part => Py.truthy part = true) parts) as Hall.
  { apply List.Forall_forall. intros part Hin.
    subst parts. unfold present_parts in Hin.
    now apply List.filter_In in Hin as [_ Hin]. }
  destruct Hall as [| part rest Hpart _]; [congruence |].
  destruct part as [| c r]; [discriminate |].
  destruct rest; simpl; discriminate.
Qed.

Lemma address_has_no_dangling_separator_witness :
  _format_address ada = "1 Main St, Austin, 73301" /\
  String.length (_format_address ada) = (9 + 6 + 5 + 2 * 2)%nat.
Proof.
  split; [reflexivity |].
  apply (address_has_no_dangling_separator ada). discriminate.
Defined.

End LettersProps.

(** ** Lead scoring analytics *)

Module LeadAnalyticsProps.
Import LeadAnalytics PyFacts.

Lemma buckets_of_one (s : Q) :
  0 <= s <= 10 ->
  (list_sum (map (fun '(min_score, max_score, label) =>
                    in_range min_score max_score [s]) score_ranges)
   + (if Py.eqb s 10 then 1 else 0) = 1)%nat.
Proof.
  intros [H0 H10]. unfold score_ranges, in_range. simpl.
  repeat py_case; simpl; try reflexivity; exfalso;
    first [ lra
          | match goal with H : ~ _ == _ |- _ => apply H; lra end ].
Qed.

Lemma buckets_step (s : Q) (scores_only : list Q) (lo hi : Q) :
  in_range lo hi (s :: scores_only)
  = (in_range lo hi [s] + in_range lo hi scores_only)%nat.
Proof.
  unfold in_range. simpl.
  destruct (Py.leb lo s && Py.ltb s hi); reflexivity.
Qed.

Lemma buckets_total (scores_only : list Q) :
  Forall (fun s => 0 <= s <= 10) scores_only ->
  (list_sum (map (fun '(min_score, max_score, label) =>
                    in_range min_score max_score scores_only) score_ranges)
   + length (List.filter (fun s => Py.eqb s 10) scores_only)
   = length scores_only)%nat.
Proof.
  induction 1 as [| s rest Hs _ IH]; [reflexivity |].
  pose proof (buckets_of_one s Hs) as H1.
  unfold score_ranges in *. cbn [map list_sum] in *.
  rewrite !(buckets_step s rest).
  unfold list_sum in *. cbn [fold_right] in *.
  cbn [List.filter]. destruct (Py.eqb s 10); simpl length in *; lia.
Qed.

(** The five buckets of the score distribution are half-open and stop
    short of 10: for scores in [[0, 10]] the buckets together count every
    lead except those that scored exactly 10, which are in no bucket. *)
Theorem distribution_misses_perfect_scores (scores : list ScoredLead) :
  Forall (fun s => 0 <= score s <= 10) scores ->
  let a := get_scoring_analytics scores in
  total_leads a = length scores /\
  (counted (score_distribution a) + perfect scores = length scores)%nat.
Proof.
  intros Hall a. subst a. unfold get_scoring_analytics.
  destruct scores as [| s0 rest] eqn:Hscores; [now split |].
  rewrite <- Hscores in *. cbn [total_leads score_distribution].
  split; [reflexivity |].
  assert (Forall (fun s => 0 <= s <= 10) (map score scores)) as Hmap.
  { apply List.Forall_map. exact Hall. }
  pose proof (buckets_total (map score scores) Hmap) as Htotal.
  rewrite length_map in Htotal.
  assert (length (List.filter (fun s => Py.eqb s 10) (map score scores))
          = perfect scores) as Hperfect.
  { unfold perfect. clear. induction scores as [| s l IH]; [reflexivity |].
    simpl. destruct (Py.eqb (score s) 10); simpl; now rewrite IH. }
  rewrite Hperfect in Htotal. rewrite <- Htotal. reflexivity.
Qed.

Lemma distribution_misses_perfect_scores_witness :
  let scores :=
    [ {| score := 10; qualification_status := "auto_qualified" |};
      {| score := 4.5; qualification_status := "manual_review" |} ] in
  (counted (score_distribution (get_scoring_analytics scores)) + perfect scores
   = 2)%nat.
Proof.
  intros scores.
  apply (distribution_misses_perfect_scores scores).
  repeat constructor; apply Qle_bool_iff; reflexivity.
Defined.

(** A single lead with the perfect score appears in no bucket. *)
Example perfect_lead_in_no_bucket :
  counted (score_distribution (get_scoring_analytics
    [ {| score := 10; qualification_status := "auto_qualified" |} ])) = 0%nat.
Proof. reflexivity. Qed.

End LeadAnalyticsProps.
